(** * ml-linux-scheduler: the sampling, labelling and stream-alignment engine

    A shallow embedding of
      - [src/bpf/state_collector_simple.py]  (module [StateCollector]),
      - [src/bpf/rapl_collector.py]          (module [Rapl]),
      - [preprocessing/merge_dataset.py]     (module [Merge]),
    together with the properties of the specification that concern them.

    Conventions.  Python [int] is [Z].  Python [float] is an abstract type
    [F] with the operations the collectors use (class [PyFloat]); nothing is
    assumed about rounding, and the rationals are one instance.  A Python
    call that may raise returns [option], [None] standing for the raised
    exception.  A [dict] whose iteration order is observable is an
    insertion-ordered association list ([PyDict]); a [dict] that is only
    looked up, inserted into and pruned is a [gmap].  A log file is the list
    of the lines written to it, and a line is identified with the record it
    serialises. *)

From Stdlib Require Import ZArith QArith Qabs List Lia Bool String Sorted.
From stdpp Require Import base option list gmap.
Import ListNotations.

Local Open Scope Z_scope.

(** ** Python floats *)

(** The float operations used by the collectors.  [fsum] is the builtin
    [sum] on a list of floats, [fdiv] is [/] (which raises
    [ZeroDivisionError], here [None]), [fround x n] is [round(x, n)],
    [f_of_Z] reads a literal or converts an [int] operand. *)
Class PyFloat (F : Type) : Type := {
  f_of_Z : Z -> F;
  fsum : list F -> F;
  fsub : F -> F -> F;
  fmul : F -> F -> F;
  fdiv : F -> F -> option F;
  fltb : F -> F -> bool;
  fleb : F -> F -> bool;
  fabs : F -> F;
  fround : F -> Z -> F
}.

(** The few order facts the proofs rely on.  They hold of IEEE doubles
    (also in the presence of NaN) and of exact arithmetic. *)
Class PyFloatLaws (F : Type) `{PyFloat F} : Prop := {
  fltb_fleb : forall x y : F, fltb x y = true -> fleb x y = true;
  fleb_0_0 : fleb (f_of_Z 0) (f_of_Z 0) = true;
  fleb_0_100 : fleb (f_of_Z 0) (f_of_Z 100) = true;
  fleb_100_100 : fleb (f_of_Z 100) (f_of_Z 100) = true;
  fltb_0_100 : fltb (f_of_Z 0) (f_of_Z 100) = true;
  fdiv_None : forall x y : F, fdiv x y = None -> fleb y (f_of_Z 0) = true
}.

(** Builtin [max(a, b)] and [min(a, b)]: the first argument is kept unless
    the second one is strictly greater (resp. smaller). *)
Definition py_max {F} `{PyFloat F} (a b : F) : F := if fltb a b then b else a.
Definition py_min {F} `{PyFloat F} (a b : F) : F := if fltb b a then b else a.

(** *** Exact rational arithmetic as an instance *)

(** [round(x, n)] for [n >= 0], ties to even. *)
Definition Q_round (x : Q) (n : Z) : Q :=
  let scale := 10 ^ n in
  let y := (x * inject_Z scale)%Q in
  let a := Qnum y in
  let b := Z.pos (Qden y) in
  let fl := a / b in
  let up :=
    match 2 * (a mod b) ?= b with
    | Lt => fl
    | Gt => fl + 1
    | Eq => if Z.even fl then fl else fl + 1
    end in
  Qred (inject_Z up / inject_Z scale)%Q.

Definition Q_div (x y : Q) : option Q :=
  if Qeq_bool y 0 then None else Some (x / y)%Q.

Definition Q_ltb (x y : Q) : bool := negb (Qle_bool y x).

#[export] Instance PyFloat_Q : PyFloat Q := {|
  f_of_Z := inject_Z;
  fsum := fun l => fold_left Qplus l (inject_Z 0);
  fsub := Qminus;
  fmul := Qmult;
  fdiv := Q_div;
  fltb := Q_ltb;
  fleb := Qle_bool;
  fabs := Qabs;
  fround := Q_round
|}.

(** ** Python sequences and ordered dictionaries *)

(** [l[i]] on a list: negative indices count from the end, anything
    outside [-len, len) raises [IndexError]. *)
Definition py_index {A} (l : list A) (i : Z) : option A :=
  let n := Z.of_nat (length l) in
  if (0 <=? i) && (i <? n) then nth_error l (Z.to_nat i)
  else if (- n <=? i) && (i <? 0) then nth_error l (Z.to_nat (n + i))
  else None.

Module PyDict.
(** An insertion-ordered dictionary with integer keys. *)
Definition t (V : Type) : Type := list (Z * V).

Definition empty {V} : t V := [].

(** [d.get(k)] *)
Fixpoint get {V} (d : t V) (k : Z) : option V :=
  match d with
  | [] => None
  | (k', v) :: d' => if Z.eqb k' k then Some v else get d' k
  end.

(** [d[k] = v]: an existing key keeps its position. *)
Fixpoint set {V} (d : t V) (k : Z) (v : V) : t V :=
  match d with
  | [] => [(k, v)]
  | (k', v') :: d' =>
      if Z.eqb k' k then (k', v) :: d' else (k', v') :: set d' k v
  end.

(** [k in d] *)
Definition mem {V} (d : t V) (k : Z) : bool :=
  match get d k with Some _ => true | None => false end.

(** [d.items()] *)
Definition items {V} (d : t V) : list (Z * V) := d.

Definition keys {V} (d : t V) : list Z := map fst d.
End PyDict.

(** ** Log files *)

Module LogFile.
(** A file is the list of its lines.  A handle remembers the mode it was
    opened in and its position, counted in lines. *)
Inductive mode := ModeW | ModeA.

Record handle := { h_mode : mode; h_pos : nat }.

(** [open(path, 'w')] truncates; [open(path, 'a')] keeps the content and
    positions the handle at its end. *)
Definition open {A} (m : mode) (content : list A) : handle * list A :=
  match m with
  | ModeW => ({| h_mode := ModeW; h_pos := 0 |}, [])
  | ModeA => ({| h_mode := ModeA; h_pos := length content |}, content)
  end.

(** [f.write(line)]: in append mode the line goes to the end of the file
    whatever the position; otherwise it is stored at the position,
    replacing what is there. *)
Definition write {A} (hc : handle * list A) (line : A) : handle * list A :=
  let '(h, content) := hc in
  match h_mode h with
  | ModeA =>
      ({| h_mode := ModeA; h_pos := S (length content) |}, content ++ [line])
  | ModeW =>
      ({| h_mode := ModeW; h_pos := S (h_pos h) |},
       firstn (h_pos h) content ++ line :: skipn (S (h_pos h)) content)
  end.

(** [for line in lines: f.write(line)] *)
Definition write_all {A} (hc : handle * list A) (lines : list A)
  : handle * list A :=
  fold_left write lines hc.
End LogFile.

(** ** The state collector ([state_collector_simple.py]) *)

Module StateCollector.
Section Model.
Context {F : Type} `{PyFloat F}.

(** One element of [psutil.cpu_times(percpu=True)]. *)
Record scputimes := {
  user : F; nice : F; system : F; idle : F;
  iowait : F; irq : F; softirq : F
}.

Inductive proc_status := STATUS_RUNNING | STATUS_SLEEPING | STATUS_OTHER.

(** [proc.info] for the attributes ['pid', 'name', 'cpu_num', 'status'];
    an attribute psutil could not read is [None]. *)
Record proc_info := {
  pi_pid : Z;
  pi_name : option string;
  pi_cpu_num : option Z;
  pi_status : proc_status
}.

(** A value of [self.task_info]. *)
Record task_entry := { ti_name : option string; ti_first_seen : F }.

Record MigrationRecord := {
  timestamp : Z;
  pid : Z;
  comm : option string;
  src_cpu : Z;
  src_load : F;
  src_runqueue_len : Z;
  src_numa_node : Z;
  src_cpu_idle : Z;
  dst_cpu : Z;
  dst_load : F;
  dst_runqueue_len : Z;
  dst_numa_node : Z;
  dst_cpu_idle : Z;
  cross_node : Z;
  load_diff : F;
  load_imbalance : F;
  decision : Z
}.

(** [self.stats], a [defaultdict(int)] used with three keys. *)
Record Stats := { total : Z; positive : Z; negative : Z }.

Record Collector := {
  data_buffer : list MigrationRecord;
  buffer_size : Z;
  stats : Stats;
  task_locations : PyDict.t Z;
  task_info : gmap Z task_entry;
  num_cpus : Z;
  prev_cpu_times : list scputimes
}.

(** The collector together with the content of [self.output_file]. *)
Definition World : Type := Collector * list MigrationRecord.

(** What one call of [take_snapshot] reads from outside: the accounting
    counters, the process table, the per-CPU [node_id] files ([None] when
    the read fails), and the two clocks.  A pid is inserted into
    [task_info] and labelled at most once per snapshot, so the clock
    readings are indexed by pid. *)
Record SnapshotEnv := {
  env_cpu_times : list scputimes;
  env_processes : list proc_info;
  env_node_id : Z -> option Z;
  env_time : Z -> F;
  env_time_ns : Z -> Z
}.

(** [__init__]; [cpu_count] is the number returned by [os.cpu_count()]
    and [cpu_times] the first reading of [psutil.cpu_times(percpu=True)].
    The threshold [buffer_size] is 50. *)
Definition init (cpu_count : Z) (cpu_times : list scputimes) : Collector :=
  {| data_buffer := [];
     buffer_size := 50;
     stats := {| total := 0; positive := 0; negative := 0 |};
     task_locations := PyDict.empty;
     task_info := ∅;
     num_cpus := cpu_count;
     prev_cpu_times := cpu_times |}.

Definition cpu_total (t : scputimes) : F :=
  fsum [user t; nice t; system t; idle t; iowait t; irq t; softirq t].

Definition get_cpu_load (self : Collector) (cpu_id : Z)
    (current_times : list scputimes) : option F :=
  if (Z.of_nat (length current_times) <=? cpu_id)
     || (Z.of_nat (length (prev_cpu_times self)) <=? cpu_id)
  then Some (f_of_Z 0)
  else
    prev ← py_index (prev_cpu_times self) cpu_id;
    curr ← py_index current_times cpu_id;
    let prev_total := cpu_total prev in
    let curr_total := cpu_total curr in
    let total_delta := fsub curr_total prev_total in
    let idle_delta := fsub (idle curr) (idle prev) in
    if fleb total_delta (f_of_Z 0) then Some (f_of_Z 0)
    else
      ratio ← fdiv idle_delta total_delta;
      let load := fmul (f_of_Z 100) (fsub (f_of_Z 1) ratio) in
      Some (py_max (f_of_Z 0) (py_min (f_of_Z 100) load)).

Definition cpu_to_numa (env : SnapshotEnv) (cpu_id : Z) : Z :=
  match env_node_id env cpu_id with
  | Some node => node
  | None => cpu_id / 8
  end.

(** The [try] body of [create_record]; only the two load computations can
    raise, and then the [except] branch returns [None]. *)
Definition create_record (env : SnapshotEnv) (self : Collector)
    (pid src_cpu dst_cpu : Z) (migrated : bool)
    (current_cpu_times : list scputimes) (cpu_runnable_counts : gmap Z Z)
  : option MigrationRecord :=
  src_load ← get_cpu_load self src_cpu current_cpu_times;
  dst_load ← get_cpu_load self dst_cpu current_cpu_times;
  let src_runqueue := default 0 (cpu_runnable_counts !! src_cpu) in
  let dst_runqueue := default 0 (cpu_runnable_counts !! dst_cpu) in
  let src_numa := cpu_to_numa env src_cpu in
  let dst_numa := cpu_to_numa env dst_cpu in
  let task_name :=
    match task_info self !! pid with
    | Some entry => ti_name entry
    | None => Some "unknown"%string
    end in
  Some {|
    timestamp := env_time_ns env pid;
    pid := pid;
    comm := task_name;
    src_cpu := src_cpu;
    src_load := fround src_load 2;
    src_runqueue_len := src_runqueue;
    src_numa_node := src_numa;
    src_cpu_idle := if fltb src_load (f_of_Z 5) then 1 else 0;
    dst_cpu := dst_cpu;
    dst_load := fround dst_load 2;
    dst_runqueue_len := dst_runqueue;
    dst_numa_node := dst_numa;
    dst_cpu_idle := if fltb dst_load (f_of_Z 5) then 1 else 0;
    cross_node := if Z.eqb src_numa dst_numa then 0 else 1;
    load_diff := fround (fabs (fsub src_load dst_load)) 2;
    load_imbalance := fround (fsub src_load dst_load) 2;
    decision := if migrated then 1 else 0
  |}.

(** Field updates of [self]. *)
Definition with_buffer (self : Collector) (b : list MigrationRecord) :=
  {| data_buffer := b; buffer_size := buffer_size self; stats := stats self;
     task_locations := task_locations self; task_info := task_info self;
     num_cpus := num_cpus self; prev_cpu_times := prev_cpu_times self |}.

Definition with_stats (self : Collector) (s : Stats) :=
  {| data_buffer := data_buffer self; buffer_size := buffer_size self;
     stats := s;
     task_locations := task_locations self; task_info := task_info self;
     num_cpus := num_cpus self; prev_cpu_times := prev_cpu_times self |}.

Definition with_task_locations (self : Collector) (d : PyDict.t Z) :=
  {| data_buffer := data_buffer self; buffer_size := buffer_size self;
     stats := stats self;
     task_locations := d; task_info := task_info self;
     num_cpus := num_cpus self; prev_cpu_times := prev_cpu_times self |}.

Definition with_task_info (self : Collector) (m : gmap Z task_entry) :=
  {| data_buffer := data_buffer self; buffer_size := buffer_size self;
     stats := stats self;
     task_locations := task_locations self; task_info := m;
     num_cpus := num_cpus self; prev_cpu_times := prev_cpu_times self |}.

Definition with_prev_cpu_times (self : Collector) (t : list scputimes) :=
  {| data_buffer := data_buffer self; buffer_size := buffer_size self;
     stats := stats self;
     task_locations := task_locations self; task_info := task_info self;
     num_cpus := num_cpus self; prev_cpu_times := t |}.

Definition bump_total (s : Stats) : Stats :=
  {| total := total s + 1; positive := positive s; negative := negative s |}.
Definition bump_positive (s : Stats) : Stats :=
  {| total := total s; positive := positive s + 1; negative := negative s |}.
Definition bump_negative (s : Stats) : Stats :=
  {| total := total s; positive := positive s; negative := negative s + 1 |}.

(** The first loop of [take_snapshot], one process at a time.  Its state is
    ([current_tasks], [cpu_runnable_counts], [self.task_info]). *)
Definition scan_state : Type := PyDict.t Z * gmap Z Z * gmap Z task_entry.

Definition status_admitted (s : proc_status) : bool :=
  match s with
  | STATUS_RUNNING | STATUS_SLEEPING => true
  | STATUS_OTHER => false
  end.

Definition scan_proc (env : SnapshotEnv) (ncpus : Z) (st : scan_state)
    (proc : proc_info) : scan_state :=
  let '(current_tasks, cpu_runnable_counts, info) := st in
  let pid := pi_pid proc in
  match pi_cpu_num proc with
  | None => st
  | Some cpu_num =>
      if (cpu_num <? 0) || (ncpus <=? cpu_num) then st
      else if negb (status_admitted (pi_status proc)) then st
      else
        (PyDict.set current_tasks pid cpu_num,
         <[cpu_num := default 0 (cpu_runnable_counts !! cpu_num) + 1]>
           cpu_runnable_counts,
         match info !! pid with
         | Some _ => info
         | None =>
             <[pid := {| ti_name := pi_name proc;
                         ti_first_seen := env_time env pid |}]> info
         end)
  end.

Definition scan (env : SnapshotEnv) (self : Collector) : scan_state :=
  fold_left (scan_proc env (num_cpus self)) (env_processes env)
            (PyDict.empty, ∅, task_info self).

(** [self.data_buffer.append(record)] guarded by [if record:], with the
    counter that goes with it. *)
Definition emit (self : Collector) (record : option MigrationRecord)
    (count : Stats -> Stats) : Collector :=
  match record with
  | Some r =>
      with_stats (with_buffer self (data_buffer self ++ [r]))
                 (count (stats self))
  | None => self
  end.

(** The body of the second loop of [take_snapshot], for one item of
    [current_tasks].  The cpus in [current_tasks] lie in [0, num_cpus), so
    the modulus is positive where it is taken. *)
Definition observe (env : SnapshotEnv) (current_cpu_times : list scputimes)
    (cpu_runnable_counts : gmap Z Z) (self : Collector) (item : Z * Z)
  : Collector :=
  let '(pid, cpu_num) := item in
  let self' :=
    match PyDict.get (task_locations self) pid with
    | Some prev_cpu =>
        if negb (Z.eqb prev_cpu cpu_num) then
          emit self
            (create_record env self pid prev_cpu cpu_num true
                           current_cpu_times cpu_runnable_counts)
            bump_positive
        else if Z.eqb (total (stats self) mod 5) 0 then
          let candidate_cpu := (cpu_num + 1) mod num_cpus self in
          emit self
            (create_record env self pid cpu_num candidate_cpu false
                           current_cpu_times cpu_runnable_counts)
            bump_negative
        else self
    | None => self
    end in
  with_stats self' (bump_total (stats self')).

(** [flush_buffer]; the progress line it prints is left out. *)
Definition flush_buffer (w : World) : World :=
  let '(self, log) := w in
  match data_buffer self with
  | [] => w
  | _ :: _ =>
      let f := LogFile.open LogFile.ModeA log in
      let f := LogFile.write_all f (data_buffer self) in
      (with_buffer self [], snd f)
  end.

(** The state in which the second loop leaves the collector. *)
Definition observe_all (env : SnapshotEnv) (self : Collector) : Collector :=
  let '(current_tasks, cpu_runnable_counts, info) := scan env self in
  fold_left (observe env (env_cpu_times env) cpu_runnable_counts)
            (PyDict.items current_tasks) (with_task_info self info).

Definition take_snapshot (env : SnapshotEnv) (w : World) : World :=
  let '(self, log) := w in
  let current_cpu_times := env_cpu_times env in
  let '(current_tasks, _, _) := scan env self in
  let self := observe_all env self in
  let self := with_task_locations self current_tasks in
  let self :=
    with_task_info self
      (filter (fun kv : Z * task_entry =>
                 PyDict.mem current_tasks kv.1 = true) (task_info self)) in
  let self := with_prev_cpu_times self current_cpu_times in
  if Z.of_nat (length (data_buffer self)) >=? buffer_size self
  then flush_buffer (self, log)
  else (self, log).

(** One turn of the loop of [collect] as seen from outside: what the
    snapshot reads, the value of [time.time()] read after it, and whether
    [KeyboardInterrupt] is delivered during the [time.sleep] that follows
    (the interrupt is taken to arrive while the loop sleeps). *)
Record Tick := {
  tick_env : SnapshotEnv;
  tick_now : F;
  tick_interrupt : bool
}.

(** [duration and (time.time() - start_time) >= duration] *)
Definition duration_elapsed (duration : option Z) (start_time now : F)
  : bool :=
  match duration with
  | None => false
  | Some d =>
      if Z.eqb d 0 then false else fleb (f_of_Z d) (fsub now start_time)
  end.

(** The [while True] loop, run on the turns given.  The flag tells whether
    the loop was left ([break] or interrupt); it is [false] when the turns
    are used up with the loop still running. *)
Fixpoint collect_loop (duration : option Z) (start_time : F)
    (ticks : list Tick) (w : World) : bool * World :=
  match ticks with
  | [] => (false, w)
  | tk :: rest =>
      let w := take_snapshot (tick_env tk) w in
      if duration_elapsed duration start_time (tick_now tk) then (true, w)
      else if tick_interrupt tk then (true, w)
      else collect_loop duration start_time rest w
  end.

(** Whether the loop is left at the end of a turn. *)
Definition tick_stops (duration : option Z) (start_time : F) (tk : Tick)
  : bool :=
  duration_elapsed duration start_time (tick_now tk) || tick_interrupt tk.

Inductive Outcome :=
| Stopped (w : World)
| Running (w : World).

(** [collect]: the [finally] clause runs once the loop is left. *)
Definition collect (duration : option Z) (start_time : F)
    (ticks : list Tick) (w : World) : Outcome :=
  match collect_loop duration start_time ticks w with
  | (true, w) => Stopped (flush_buffer w)
  | (false, w) => Running w
  end.

(** *** Runs and what the statements below need to speak about them *)

(** The records produced so far, oldest first: the log, then the buffer. *)
Definition persisted (w : World) : list MigrationRecord :=
  w.2 ++ data_buffer w.1.

(** The [current_tasks] dictionary that a snapshot builds. *)
Definition current_tasks (env : SnapshotEnv) (self : Collector)
  : PyDict.t Z :=
  (scan env self).1.1.

(** [self.task_info] as the first loop leaves it. *)
Definition scanned_info (env : SnapshotEnv) (self : Collector)
  : gmap Z task_entry :=
  (scan env self).2.

(** Whether a process passes the two filters of the first loop. *)
Definition admitted (ncpus : Z) (proc : proc_info) : bool :=
  match pi_cpu_num proc with
  | None => false
  | Some cpu_num =>
      negb ((cpu_num <? 0) || (ncpus <=? cpu_num))
      && status_admitted (pi_status proc)
  end.

(** The record, if any, that [observe] appends for an item. *)
Definition observed_record (env : SnapshotEnv)
    (current_cpu_times : list scputimes) (cpu_runnable_counts : gmap Z Z)
    (self : Collector) (item : Z * Z) : option MigrationRecord :=
  match PyDict.get (task_locations self) item.1 with
  | Some prev_cpu =>
      if negb (Z.eqb prev_cpu item.2) then
        create_record env self item.1 prev_cpu item.2 true
                      current_cpu_times cpu_runnable_counts
      else if Z.eqb (total (stats self) mod 5) 0 then
        create_record env self item.1 item.2
                      ((item.2 + 1) mod num_cpus self) false
                      current_cpu_times cpu_runnable_counts
      else None
  | None => None
  end.

(** Successive calls of [take_snapshot]. *)
Definition snapshots (envs : list SnapshotEnv) (w : World) : World :=
  fold_left (fun w env => take_snapshot env w) envs w.

(** Every task of the snapshot was on the same cpu in the previous one. *)
Definition non_migrating (env : SnapshotEnv) (self : Collector) : bool :=
  forallb
    (fun item : Z * Z =>
       match PyDict.get (task_locations self) item.1 with
       | Some prev_cpu => Z.eqb prev_cpu item.2
       | None => false
       end)
    (PyDict.items (current_tasks env self)).

Fixpoint non_migrating_run (envs : list SnapshotEnv) (w : World) : bool :=
  match envs with
  | [] => true
  | env :: rest =>
      non_migrating env w.1 && non_migrating_run rest (take_snapshot env w)
  end.

(** The number of turns of the second loop over a run. *)
Fixpoint observations (envs : list SnapshotEnv) (w : World) : Z :=
  match envs with
  | [] => 0
  | env :: rest =>
      Z.of_nat (length (PyDict.items (current_tasks env w.1)))
      + observations rest (take_snapshot env w)
  end.

Definition negatives (records : list MigrationRecord) : Z :=
  Z.of_nat (length (filter (fun r => decision r = 0) records)).

End Model.

Arguments scputimes F : clear implicits.
Arguments task_entry F : clear implicits.
Arguments MigrationRecord F : clear implicits.
Arguments Collector F : clear implicits.
Arguments World F : clear implicits.
Arguments SnapshotEnv F : clear implicits.
Arguments scan_state F : clear implicits.
Arguments Tick F : clear implicits.
Arguments Outcome F : clear implicits.
End StateCollector.

(** ** The energy collector ([rapl_collector.py]) *)

Module Rapl.

(** An element of [self.packages]. *)
Record Package := {
  name : string;
  energy_file : string;
  max_energy_file : string;
  prev_energy : Z;
  total_energy : Z
}.

Record EnergyRecord := {
  timestamp : Z;
  package : string;
  energy_uj : Z;
  delta_uj : Z;
  total_uj : Z
}.

(** What one call of [collect_sample] reads from outside: the clock, and
    the integer held by the file at a path ([None] when opening, reading
    or parsing it fails). *)
Record SampleEnv := {
  env_time_ns : Z;
  env_read_int : string -> option Z
}.

Definition rapl_base : string := "/sys/class/powercap/intel-rapl".

Definition path_join (dir entry : string) : string :=
  (dir ++ "/" ++ entry)%string.

(** [discover_rapl_domains] on the listing of [rapl_base]: each entry comes
    with the stripped content of its [name] file, [None] when there is no
    such file. *)
Definition discover_rapl_domains (listing : list (string * option string))
  : list Package :=
  flat_map
    (fun '(entry, name_file) =>
       if String.prefix "intel-rapl:" entry then
         match name_file with
         | Some name =>
             if String.prefix "package-" name then
               let domain_path := path_join rapl_base entry in
               [{| name := name;
                   energy_file := path_join domain_path "energy_uj";
                   max_energy_file :=
                     path_join domain_path "max_energy_range_uj";
                   prev_energy := 0;
                   total_energy := 0 |}]
             else []
         | None => []
         end
       else [])
    listing.

Definition read_energy (env : SampleEnv) (pkg : Package) : Z :=
  match env_read_int env (energy_file pkg) with
  | Some v => v
  | None => 0
  end.

(** The body of the loop of [collect_sample] for one package.  Reading
    [max_energy_file] is not guarded: a failure there is an exception. *)
Definition sample_package (env : SampleEnv) (pkg : Package)
  : option (Package * EnergyRecord) :=
  let current_energy := read_energy env pkg in
  delta ←
    (if current_energy <? prev_energy pkg then
       max_energy ← env_read_int env (max_energy_file pkg);
       Some ((max_energy - prev_energy pkg) + current_energy)
     else Some (current_energy - prev_energy pkg));
  let total := total_energy pkg + delta in
  Some ({| name := name pkg;
           energy_file := energy_file pkg;
           max_energy_file := max_energy_file pkg;
           prev_energy := current_energy;
           total_energy := total |},
        {| timestamp := env_time_ns env;
           package := name pkg;
           energy_uj := current_energy;
           delta_uj := delta;
           total_uj := total |}).

(** [collect_sample]: the updated packages and the records, or [None] when
    an exception leaves the loop ([sampled_in_place] below is what
    [self.packages] holds then). *)
Fixpoint collect_sample (env : SampleEnv) (packages : list Package)
  : option (list Package * list EnergyRecord) :=
  match packages with
  | [] => Some ([], [])
  | pkg :: rest =>
      '(pkg', record) ← sample_package env pkg;
      '(rest', records) ← collect_sample env rest;
      Some (pkg' :: rest', record :: records)
  end.

(** [self.packages] as a call of [collect_sample] leaves it, whether the
    call returns or raises.  The dictionaries are updated in place, one
    after the other: when the range file of a package cannot be read, the
    packages before it have their new accumulators already, that package
    and those behind it keep the old ones. *)
Fixpoint sampled_in_place (env : SampleEnv) (packages : list Package)
  : list Package :=
  match packages with
  | [] => []
  | pkg :: rest =>
      match sample_package env pkg with
      | Some (pkg', _) => pkg' :: sampled_in_place env rest
      | None => pkg :: rest
      end
  end.

Section Loop.
Context {F : Type} `{PyFloat F}.

Record Tick := {
  tick_env : SampleEnv;
  tick_now : F;
  tick_interrupt : bool
}.

Definition duration_elapsed (duration : option Z) (start_time now : F)
  : bool :=
  match duration with
  | None => false
  | Some d =>
      if Z.eqb d 0 then false else fleb (f_of_Z d) (fsub now start_time)
  end.

(** How [collect] went: it returned at once for want of packages, the loop
    was left ([break] or interrupt), an exception left it, or the turns
    given are used up with the loop still running. *)
Inductive Status := No_packages | Left_loop | Raised | Turning.

(** The packages and the open output file. *)
Definition LoopState : Type :=
  list Package * (LogFile.handle * list EnergyRecord).

(** One turn of the [while True] loop up to the last [f.write]. *)
Definition write_sample (env : SampleEnv) (st : LoopState)
  : option LoopState :=
  let '(packages, f) := st in
  '(packages, records) ← collect_sample env packages;
  Some (packages, LogFile.write_all f records).

Fixpoint collect_loop (duration : option Z) (start_time : F)
    (ticks : list Tick) (st : LoopState) : Status * LoopState :=
  match ticks with
  | [] => (Turning, st)
  | tk :: rest =>
      match write_sample (tick_env tk) st with
      | None => (Raised, (sampled_in_place (tick_env tk) (fst st), snd st))
      | Some st =>
          if duration_elapsed duration start_time (tick_now tk)
          then (Left_loop, st)
          else if tick_interrupt tk then (Left_loop, st)
          else collect_loop duration start_time rest st
      end
  end.

(** Whether the turn of [tk] is the last one: the duration has elapsed
    after its sample, or the interrupt comes during its sleep. *)
Definition tick_stops (duration : option Z) (start_time : F) (tk : Tick)
  : bool :=
  duration_elapsed duration start_time (tick_now tk) || tick_interrupt tk.

(** [collect]; [env0] is what the initial [read_energy] calls see, [log] is
    the content of [self.output_file] beforehand.  The result is the status
    of the loop, [self.packages] and the content of the file. *)
Definition collect (duration : option Z) (start_time : F) (env0 : SampleEnv)
    (ticks : list Tick) (packages : list Package) (log : list EnergyRecord)
  : Status * (list Package * list EnergyRecord) :=
  match packages with
  | [] => (No_packages, (packages, log))
  | _ :: _ =>
      let packages :=
        map (fun pkg =>
               {| name := name pkg;
                  energy_file := energy_file pkg;
                  max_energy_file := max_energy_file pkg;
                  prev_energy := read_energy env0 pkg;
                  total_energy := total_energy pkg |}) packages in
      let f := LogFile.open LogFile.ModeW log in
      let '(status, (packages, f)) :=
        collect_loop duration start_time ticks (packages, f) in
      (status, (packages, snd f))
  end.

End Loop.

Arguments Tick F : clear implicits.

(** Successive calls of [collect_sample], one per environment, with the
    records of each call. *)
Fixpoint collect_samples (envs : list SampleEnv) (packages : list Package)
  : option (list Package * list (list EnergyRecord)) :=
  match envs with
  | [] => Some (packages, [])
  | env :: rest =>
      '(packages, records) ← collect_sample env packages;
      '(packages, later) ← collect_samples rest packages;
      Some (packages, records :: later)
  end.

(** In [env], the range of the domain of [pkg] reads [maxv] of its file and
    the raw reading lies in [0, maxv]. *)
Definition reading_in_range (maxv : string -> Z) (env : SampleEnv)
    (pkg : Package) : bool :=
  match env_read_int env (max_energy_file pkg) with
  | Some m =>
      Z.eqb m (maxv (max_energy_file pkg))
      && (0 <=? read_energy env pkg) && (read_energy env pkg <=? m)
  | None => false
  end.

Definition accumulator_in_range (maxv : string -> Z) (pkg : Package)
  : bool :=
  (0 <=? prev_energy pkg) && (prev_energy pkg <=? maxv (max_energy_file pkg)).

(** The records of one sample carry, domain by domain, totals at least
    those given. *)
Fixpoint totals_le (before : list (string * Z)) (records : list EnergyRecord)
  : bool :=
  match before, records with
  | [], [] => true
  | (domain, t) :: before, r :: records =>
      String.eqb domain (package r) && (t <=? total_uj r)
      && totals_le before records
  | _, _ => false
  end.

(** The totals of each domain never decrease from one sample to the
    next. *)
Fixpoint non_decreasing (before : list (string * Z))
    (samples : list (list EnergyRecord)) : bool :=
  match samples with
  | [] => true
  | records :: later =>
      totals_le before records
      && non_decreasing (map (fun r => (package r, total_uj r)) records)
                        later
  end.

(** An environment in which the counter of the first domain,
    [intel-rapl:0], reads [raw] and its range reads [max_energy]. *)
Definition domain0 : string := path_join rapl_base "intel-rapl:0".

Definition reading_env (max_energy raw : Z) : SampleEnv :=
  {| env_time_ns := 0;
     env_read_int := fun path =>
       if String.eqb path (path_join domain0 "energy_uj") then Some raw
       else if String.eqb path (path_join domain0 "max_energy_range_uj")
            then Some max_energy
            else None |}.

End Rapl.

(** ** The merge stage ([preprocessing/merge_dataset.py]) *)

Module Merge.

(** A row of a loaded frame: its [timestamp] column and the other
    columns. *)
Record Row (C : Type) := { ts : Z; columns : C }.
Arguments ts {C} _.
Arguments columns {C} _.
Arguments Build_Row {C} _ _.

(** Modelled from the spec: [DataFrame.sort_values("timestamp")] is pandas
    code, not part of the repository; the streams are "sorted by timestamp
    before joining".  This inserts a row into a sorted frame, behind the
    rows with the same timestamp. *)
Fixpoint insert_row {C} (r : Row C) (l : list (Row C)) : list (Row C) :=
  match l with
  | [] => [r]
  | x :: l' => if ts r <? ts x then r :: x :: l' else x :: insert_row r l'
  end.

(** Modelled from the spec: [DataFrame.sort_values("timestamp")], which is
    pandas code, as a sort by insertion. *)
Definition sort_values {C} (l : list (Row C)) : list (Row C) :=
  fold_right insert_row [] l.

(** The order of a sorted frame. *)
Definition by_ts {C} : Row C -> Row C -> Prop := fun a b => ts a <= ts b.

(** Modelled from the spec: the two candidates of [pandas.merge_asof] with
    [direction="nearest"], which is pandas code.  This is the last row at
    or before [t]. *)
Definition backward_match {C} (t : Z) (right : list (Row C))
  : option (Row C) :=
  last (List.filter (fun r => ts r <=? t) right).

(** Modelled from the spec: the other candidate, the first row at or
    after [t]. *)
Definition forward_match {C} (t : Z) (right : list (Row C))
  : option (Row C) :=
  head (List.filter (fun r => t <=? ts r) right).

(** Modelled from the spec: the selection made by [pandas.merge_asof(left,
    right, on="timestamp", direction="nearest")], which is pandas code:
    "the record whose timestamp is nearest (not merely <=)".  When the rows
    before and after are equally near, the one before is taken, as pandas
    does; an empty frame has no record to select. *)
Definition nearest_match {C} (t : Z) (right : list (Row C))
  : option (Row C) :=
  match backward_match t right, forward_match t right with
  | Some b, Some f => if t - ts b <=? ts f - t then Some b else Some f
  | Some b, None => Some b
  | None, Some f => Some f
  | None, None => None
  end.

(** Modelled from the spec: [pandas.merge_asof] with [direction="nearest"]
    yields "one row per" left record, which keeps its columns and gains
    those of the record selected for it (here the record itself). *)
Definition merge_asof {L C} (left : list (Row L)) (right : list (Row C))
  : list (Row (L * option (Row C))) :=
  map (fun l =>
         {| ts := ts l; columns := (columns l, nearest_match (ts l) right) |})
      left.

(** [main] from the three loaded frames to the frame written out. *)
Definition main {S P R} (state : list (Row S)) (pmc : list (Row P))
    (rapl : list (Row R))
  : list (Row (S * option (Row P) * option (Row R))) :=
  let state := sort_values state in
  let pmc := sort_values pmc in
  let rapl := sort_values rapl in
  let merged := merge_asof state pmc in
  let merged := merge_asof merged rapl in
  merged.

End Merge.

(** ** Further notions for statements about the collectors *)

Module Measures.
Section State.
Import StateCollector.
Context {F : Type} `{PyFloat F}.

(** The number of [decision = 1] records. *)
Definition positives (records : list (MigrationRecord F)) : Z :=
  Z.of_nat (length (filter (fun r => decision r = 1) records)).

(** Whether [proc] is admitted by the first loop on cpu [c]. *)
Definition admitted_on (ncpus c : Z) (proc : proc_info) : bool :=
  admitted ncpus proc
  && match pi_cpu_num proc with
     | Some c' => Z.eqb c' c
     | None => false
     end.

(** The number of admitted entries of the process table on cpu [c]. *)
Definition on_cpu (ncpus c : Z) (processes : list proc_info) : Z :=
  Z.of_nat (length (List.filter (admitted_on ncpus c) processes)).

(** The cpu of the last admitted entry of the process table for [p]. *)
Definition last_admitted (ncpus p : Z) (processes : list proc_info)
  : option Z :=
  fold_left
    (fun found proc =>
       if admitted ncpus proc && Z.eqb (pi_pid proc) p
       then pi_cpu_num proc else found)
    processes None.

(** The records that the second loop of [take_snapshot] appends, turn by
    turn. *)
Fixpoint emitted_by (env : SnapshotEnv F) (times : list (scputimes F))
    (counts : gmap Z Z) (self : Collector F) (items : list (Z * Z))
  : list (MigrationRecord F) :=
  match items with
  | [] => []
  | item :: rest =>
      option_list (observed_record env times counts self item)
      ++ emitted_by env times counts (observe env times counts self item)
                    rest
  end.

(** The records of one snapshot. *)
Definition snapshot_records (env : SnapshotEnv F) (self : Collector F)
  : list (MigrationRecord F) :=
  emitted_by env (env_cpu_times env) (scan env self).1.2
             (with_task_info self (scanned_info env self))
             (PyDict.items (current_tasks env self)).

(** The turns of the loop of [collect] that are run: those up to the
    first one that ends the loop, that one included. *)
Fixpoint until_stop (duration : option Z) (start_time : F)
    (ticks : list (Tick F)) : list (Tick F) :=
  match ticks with
  | [] => []
  | tk :: rest =>
      if tick_stops duration start_time tk then [tk]
      else tk :: until_stop duration start_time rest
  end.

End State.

(** The raw readings of the counter of [pkg] over successive samples. *)
Definition readings (envs : list Rapl.SampleEnv) (pkg : Rapl.Package)
  : list Z :=
  map (fun env => Rapl.read_energy env pkg) envs.

(** How many of the readings are below the one before, [prev] being
    before the first. *)
Fixpoint count_wraps (prev : Z) (rs : list Z) : Z :=
  match rs with
  | [] => 0
  | r :: rest => (if r <? prev then 1 else 0) + count_wraps r rest
  end.

(** The last of the readings, [prev] when there is none. *)
Definition last_reading (prev : Z) (rs : list Z) : Z := List.last rs prev.

(** In [env], the range file of [pkg] reads [maxv] of its path. *)
Definition range_reads (maxv : string -> Z) (env : Rapl.SampleEnv)
    (pkg : Rapl.Package) : bool :=
  match Rapl.env_read_int env (Rapl.max_energy_file pkg) with
  | Some m => Z.eqb m (maxv (Rapl.max_energy_file pkg))
  | None => false
  end.

(** In [env], the counter of [pkg] reads below its previous reading while
    its range file cannot be read. *)
Definition wrap_unreadable (env : Rapl.SampleEnv) (pkg : Rapl.Package)
  : bool :=
  (Rapl.read_energy env pkg <? Rapl.prev_energy pkg)
  && match Rapl.env_read_int env (Rapl.max_energy_file pkg) with
     | Some _ => false
     | None => true
     end.

Section Energy.
Import Rapl.

(** What one turn of the loop of [collect_sample] makes of a package. *)
Definition sampled (env : SampleEnv) (pkg pkg' : Package)
    (r : EnergyRecord) : Prop :=
  name pkg' = name pkg /\
  energy_file pkg' = energy_file pkg /\
  max_energy_file pkg' = max_energy_file pkg /\
  prev_energy pkg' = read_energy env pkg /\
  total_energy pkg' = total_uj r /\
  timestamp r = env_time_ns env /\
  package r = name pkg /\
  energy_uj r = read_energy env pkg /\
  total_uj r = total_energy pkg + delta_uj r /\
  ((read_energy env pkg <? prev_energy pkg) = false /\
   delta_uj r = read_energy env pkg - prev_energy pkg \/
   (read_energy env pkg <? prev_energy pkg) = true /\
   exists m,
     env_read_int env (max_energy_file pkg) = Some m /\
     delta_uj r = (m - prev_energy pkg) + read_energy env pkg).

(** What the samples of [envs] make of the accumulators of a package, the
    range of its domain being [maxv] of its file. *)
Definition accumulated (maxv : string -> Z) (envs : list SampleEnv)
    (pkg pkg' : Package) : Prop :=
  energy_file pkg' = energy_file pkg /\
  max_energy_file pkg' = max_energy_file pkg /\
  prev_energy pkg' = last_reading (prev_energy pkg) (readings envs pkg) /\
  total_energy pkg' =
    total_energy pkg + (prev_energy pkg' - prev_energy pkg)
    + maxv (max_energy_file pkg)
      * count_wraps (prev_energy pkg) (readings envs pkg).

(** The packages as [collect] has them when it enters its loop. *)
Definition primed (env0 : SampleEnv) (packages : list Package)
  : list Package :=
  map (fun pkg =>
         {| name := name pkg;
            energy_file := energy_file pkg;
            max_energy_file := max_energy_file pkg;
            prev_energy := read_energy env0 pkg;
            total_energy := total_energy pkg |}) packages.

End Energy.

Section Run.
Import Rapl.
Context {F : Type} `{PyFloat F}.

(** How the loop of [collect] over [ticks] stands, with [status] and
    [final] for [self.packages], after [k] whole samples that made the
    packages [pkgs]: still turning with every turn used and none of them
    the last; left at its [k]-th turn, the first that is the last one; or
    left by the exception that the sample of the turn behind the [k]-th
    raised, with the packages as that sample had updated them by then. *)
Definition ended_after (duration : option Z) (start_time : F)
    (ticks : list (Tick F)) (k : nat) (pkgs : list Package)
    (status : Status) (final : list Package) : Prop :=
  match status with
  | No_packages => False
  | Turning =>
      k = length ticks /\
      existsb (tick_stops duration start_time) ticks = false /\
      final = pkgs
  | Left_loop =>
      exists tk,
        nth_error ticks (pred k) = Some tk /\
        tick_stops duration start_time tk = true /\
        (0 < k)%nat /\
        existsb (tick_stops duration start_time) (firstn (pred k) ticks)
          = false /\
        final = pkgs
  | Raised =>
      exists tk,
        nth_error ticks k = Some tk /\
        collect_sample (tick_env tk) pkgs = None /\
        existsb (tick_stops duration start_time) (firstn k ticks) = false /\
        final = sampled_in_place (tick_env tk) pkgs
  end.

End Run.

End Measures.

(** ** Example data *)

Module Examples.
Import StateCollector.

Definition times (u i : Z) : scputimes Q :=
  {| user := inject_Z u; nice := 0%Q; system := 0%Q; idle := inject_Z i;
     iowait := 0%Q; irq := 0%Q; softirq := 0%Q |}.

(** One cpu, 10 s busy and 80 s idle so far. *)
Definition one_cpu : Collector Q := init 1 [times 10 80].

(** A running task [p] seen on cpu [c]. *)
Definition task (p c : Z) : proc_info :=
  {| pi_pid := p; pi_name := Some "worker"%string;
     pi_cpu_num := Some c; pi_status := STATUS_RUNNING |}.

(** A sample of a machine whose cpus all show [u] s busy and [i] s idle;
    there are no [node_id] files and the clocks read 0. *)
Definition sample (ncpus : nat) (u i : Z) (processes : list proc_info)
  : SnapshotEnv Q :=
  {| env_cpu_times := repeat (times u i) ncpus;
     env_processes := processes;
     env_node_id := fun _ => None;
     env_time := fun _ => 0%Q;
     env_time_ns := fun _ => 0 |}.

(** A new collector on two cpus, and two samples: five tasks, then four
    of them again where they were. *)
Definition two_cpus : World Q := (init 2 (repeat (times 10 80) 2), []).

Definition five_tasks : SnapshotEnv Q :=
  sample 2 12 86 [task 1 0; task 2 1; task 3 0; task 4 1; task 5 0].

Definition four_stay : SnapshotEnv Q :=
  sample 2 14 92 [task 1 0; task 2 1; task 3 0; task 4 1].

Definition after_five : World Q := take_snapshot five_tasks two_cpus.

(** Sixteen cpus without [node_id] files; task 42 is seen on cpu 0, then
    on cpu 9. *)
Definition sixteen_cpus : World Q := (init 16 (repeat (times 10 80) 16), []).

Definition moved : list (SnapshotEnv Q) :=
  [sample 16 12 86 [task 42 0]; sample 16 14 92 [task 42 9]].

(** The domain [intel-rapl:0] as [discover_rapl_domains] finds it, and
    three samples of it with a range of 1000: the counter reads 100, 900
    and, after wrapping, 50. *)
Definition found : list Rapl.Package :=
  Rapl.discover_rapl_domains
    [("intel-rapl:0"%string, Some "package-0"%string)].

Definition wrapping : list Rapl.SampleEnv :=
  [Rapl.reading_env 1000 100; Rapl.reading_env 1000 900;
   Rapl.reading_env 1000 50].

(** A state stream sampled at 10, 20 and 30 (the column is a pid) and an
    energy stream sampled at 9 and 21 (the column is a total). *)
Definition state_stream : list (Merge.Row Z) :=
  [ {| Merge.ts := 10; Merge.columns := 42 |};
    {| Merge.ts := 20; Merge.columns := 42 |};
    {| Merge.ts := 30; Merge.columns := 42 |} ].

Definition energy_stream : list (Merge.Row Z) :=
  [ {| Merge.ts := 9; Merge.columns := 100 |};
    {| Merge.ts := 21; Merge.columns := 900 |} ].

(** Two turns of the loop of [collect], the second one interrupted. *)
Definition two_turns : list (Tick Q) :=
  [ {| tick_env := five_tasks; tick_now := 0%Q; tick_interrupt := false |};
    {| tick_env := four_stay; tick_now := 0%Q; tick_interrupt := true |} ].

(** A collector that already knows where four tasks are while its
    counters are still at zero. *)
Definition seeded : World Q :=
  (with_task_locations (init 2 (repeat (times 10 80) 2))
     [(1, 0); (2, 1); (3, 0); (4, 1)],
   []).

(** Task 42 after its first sighting on cpu 0, and the sample that shows
    it on cpu 9. *)
Definition seen_on_0 : World Q :=
  take_snapshot (sample 16 12 86 [task 42 0]) sixteen_cpus.

Definition now_on_9 : SnapshotEnv Q := sample 16 14 92 [task 42 9].

(** A sample whose three processes are all filtered out: no cpu number,
    a cpu number beyond the two cpus, a status that is neither running nor
    sleeping. *)
Definition nothing_admitted : SnapshotEnv Q :=
  sample 2 14 92
    [ {| pi_pid := 7; pi_name := Some "a"%string; pi_cpu_num := None;
         pi_status := STATUS_RUNNING |};
      {| pi_pid := 8; pi_name := Some "b"%string; pi_cpu_num := Some 5;
         pi_status := STATUS_SLEEPING |};
      {| pi_pid := 9; pi_name := Some "c"%string; pi_cpu_num := Some 0;
         pi_status := STATUS_OTHER |} ].

(** The package of [found] once its counter has read 100, and what the
    first of the three samples makes of [found]. *)
Definition read_100 : Rapl.Package :=
  {| Rapl.name := "package-0";
     Rapl.energy_file := Rapl.path_join Rapl.domain0 "energy_uj";
     Rapl.max_energy_file :=
       Rapl.path_join Rapl.domain0 "max_energy_range_uj";
     Rapl.prev_energy := 100;
     Rapl.total_energy := 0 |}.

Definition first_sample : list Rapl.Package * list Rapl.EnergyRecord :=
  default ([], []) (Rapl.collect_sample (Rapl.reading_env 1000 100) found).

Definition three_samples
  : list Rapl.Package * list (list Rapl.EnergyRecord) :=
  default ([], []) (Rapl.collect_samples wrapping found).

(** What an earlier run left in the output file of the energy collector,
    and three turns of the loop of [collect] over the samples of
    [wrapping], none of them the last. *)
Definition earlier_run : list Rapl.EnergyRecord :=
  [{| Rapl.timestamp := 0; Rapl.package := "package-0"%string;
      Rapl.energy_uj := 7; Rapl.delta_uj := 7; Rapl.total_uj := 7 |}].

Definition energy_turns : list (Rapl.Tick Q) :=
  map (fun env => {| Rapl.tick_env := env; Rapl.tick_now := 0%Q;
                     Rapl.tick_interrupt := false |})
      wrapping.

(** Two packages, and samples in which only their counters can be read,
    as [r0] and [r1]: no range file is there. *)
Definition two_domains : list Rapl.Package :=
  Rapl.discover_rapl_domains
    [("intel-rapl:0"%string, Some "package-0"%string);
     ("intel-rapl:1"%string, Some "package-1"%string)].

Definition counters (r0 r1 : Z) : Rapl.SampleEnv :=
  {| Rapl.env_time_ns := 0;
     Rapl.env_read_int := fun path =>
       if String.eqb path (Rapl.path_join Rapl.domain0 "energy_uj")
       then Some r0
       else if String.eqb path
                 (Rapl.path_join
                    (Rapl.path_join Rapl.rapl_base "intel-rapl:1")
                    "energy_uj")
            then Some r1 else None |}.

(** A sample in which the counter of [intel-rapl:0] cannot be read while
    its range reads 1000. *)
Definition unreadable : Rapl.SampleEnv :=
  {| Rapl.env_time_ns := 0;
     Rapl.env_read_int := fun path =>
       if String.eqb path
            (Rapl.path_join Rapl.domain0 "max_energy_range_uj")
       then Some 1000 else None |}.

End Examples.

(** * Properties *)

(** ** Exact arithmetic satisfies the order laws *)

Lemma Q_ltb_leb x y : Q_ltb x y = true -> Qle_bool x y = true.
Proof.
  unfold Q_ltb. intros Hlt. apply negb_true_iff in Hlt.
  apply Qle_bool_iff. apply Qlt_le_weak. apply Qnot_le_lt.
  intros Hle. apply Qle_bool_iff in Hle. congruence.
Defined.

Lemma Q_div_None x y : Q_div x y = None -> Qle_bool y (inject_Z 0) = true.
Proof.
  unfold Q_div. destruct (Qeq_bool y 0) eqn:E; [|discriminate].
  intros _. apply Qeq_bool_iff in E. apply Qle_bool_iff.
  rewrite E. apply Qle_refl.
Defined.

#[export] Instance PyFloatLaws_Q : PyFloatLaws Q.
Proof.
  split; try reflexivity.
  - exact Q_ltb_leb.
  - exact Q_div_None.
Defined.

(** ** Sequences and dictionaries *)

Lemma py_index_nonneg {A} (l : list A) (i : Z) :
  0 <= i < Z.of_nat (length l) ->
  py_index l i = nth_error l (Z.to_nat i).
Proof.
  intros Hi. unfold py_index.
  destruct (0 <=? i) eqn:E1; [|lia].
  destruct (i <? Z.of_nat (length l)) eqn:E2; [reflexivity|lia].
Qed.

Lemma py_index_is_Some {A} (l : list A) (i : Z) :
  0 <= i < Z.of_nat (length l) -> is_Some (py_index l i).
Proof.
  intros Hi. rewrite py_index_nonneg by exact Hi.
  destruct (nth_error l (Z.to_nat i)) eqn:E; [eauto|].
  apply nth_error_None in E. lia.
Qed.

Section PyDictFacts.
Context {V : Type}.
Implicit Types (d : PyDict.t V) (k : Z) (v : V).

Lemma PyDict_get_set_eq d k v : PyDict.get (PyDict.set d k v) k = Some v.
Proof.
  induction d as [|[k' v'] d IH]; simpl.
  - rewrite Z.eqb_refl. reflexivity.
  - destruct (Z.eqb k' k) eqn:E; simpl; rewrite E; [reflexivity|exact IH].
Qed.

Lemma PyDict_get_set_ne d k k' v :
  k <> k' -> PyDict.get (PyDict.set d k v) k' = PyDict.get d k'.
Proof.
  intros Hne. induction d as [|[k0 v0] d IH]; simpl.
  - destruct (Z.eqb_spec k k'); [contradiction|reflexivity].
  - destruct (Z.eqb_spec k0 k) as [->|Hk]; simpl.
    + destruct (Z.eqb_spec k k'); [contradiction|reflexivity].
    + destruct (Z.eqb k0 k'); [reflexivity|exact IH].
Qed.

Lemma PyDict_get_In d k v : PyDict.get d k = Some v -> In (k, v) d.
Proof.
  induction d as [|[k' v'] d IH]; simpl; [discriminate|].
  destruct (Z.eqb_spec k' k) as [->|Hk]; intros Hget.
  - left. congruence.
  - right. auto.
Qed.

Lemma PyDict_get_None d k : PyDict.get d k = None -> ~ In k (PyDict.keys d).
Proof.
  induction d as [|[k' v'] d IH]; simpl; [tauto|].
  destruct (Z.eqb_spec k' k) as [->|Hk]; [discriminate|].
  intros Hget [Heq|Hin]; [contradiction|]. exact (IH Hget Hin).
Qed.

Lemma PyDict_In_get d k v :
  List.NoDup (PyDict.keys d) -> In (k, v) d -> PyDict.get d k = Some v.
Proof.
  induction d as [|[k' v'] d IH]; simpl; [tauto|].
  intros Hnd [Heq|Hin].
  - injection Heq as -> ->. rewrite Z.eqb_refl. reflexivity.
  - inversion Hnd as [|? ? Hnotin Hnd']; subst.
    destruct (Z.eqb_spec k' k) as [->|Hk].
    + exfalso. apply Hnotin. change k with (fst (k, v)).
      apply in_map. exact Hin.
    + auto.
Qed.

Lemma PyDict_keys_set d k v :
  PyDict.keys (PyDict.set d k v) =
    if PyDict.mem d k then PyDict.keys d else PyDict.keys d ++ [k].
Proof.
  unfold PyDict.mem. induction d as [|[k' v'] d IH]; simpl; [reflexivity|].
  destruct (Z.eqb_spec k' k) as [->|Hk]; simpl; [reflexivity|].
  rewrite IH. destruct (PyDict.get d k); reflexivity.
Qed.

Lemma PyDict_NoDup_set d k v :
  List.NoDup (PyDict.keys d) -> List.NoDup (PyDict.keys (PyDict.set d k v)).
Proof.
  intros Hnd. rewrite PyDict_keys_set. unfold PyDict.mem.
  destruct (PyDict.get d k) eqn:Hget; [exact Hnd|].
  apply PyDict_get_None in Hget.
  rewrite <- (rev_involutive (PyDict.keys d ++ [k])).
  apply NoDup_rev. rewrite rev_app_distr. simpl.
  constructor.
  - rewrite <- in_rev. exact Hget.
  - apply NoDup_rev. exact Hnd.
Qed.

End PyDictFacts.

(** ** The load estimator *)

Section LoadEstimator.
Import StateCollector.
Context {F : Type} `{PyFloatLaws F}.

Lemma clamp_bounds (x : F) :
  fleb (f_of_Z 0) (py_max (f_of_Z 0) (py_min (f_of_Z 100) x)) = true /\
  fleb (py_max (f_of_Z 0) (py_min (f_of_Z 100) x)) (f_of_Z 100) = true.
Proof.
  unfold py_max, py_min.
  destruct (fltb x (f_of_Z 100)) eqn:Hx.
  - destruct (fltb (f_of_Z 0) x) eqn:H0x.
    + split; apply fltb_fleb; assumption.
    + split; [apply fleb_0_0 | apply fleb_0_100].
  - rewrite fltb_0_100. split; [apply fleb_0_100 | apply fleb_100_100].
Qed.

Lemma get_cpu_load_out_of_range (self : Collector F) cpu_id
    (current_times : list (scputimes F)) :
  Z.of_nat (length current_times) <= cpu_id \/
  Z.of_nat (length (prev_cpu_times self)) <= cpu_id ->
  get_cpu_load self cpu_id current_times = Some (f_of_Z 0).
Proof.
  intros Hout. unfold get_cpu_load.
  destruct (Z.of_nat (length current_times) <=? cpu_id) eqn:E1;
    [reflexivity|].
  destruct (Z.of_nat (length (prev_cpu_times self)) <=? cpu_id) eqn:E2;
    [reflexivity|].
  lia.
Qed.

Lemma get_cpu_load_in_range (self : Collector F) cpu_id
    (current_times : list (scputimes F)) prev curr :
  cpu_id < Z.of_nat (length current_times) ->
  cpu_id < Z.of_nat (length (prev_cpu_times self)) ->
  py_index (prev_cpu_times self) cpu_id = Some prev ->
  py_index current_times cpu_id = Some curr ->
  get_cpu_load self cpu_id current_times =
    let total_delta := fsub (cpu_total curr) (cpu_total prev) in
    let idle_delta := fsub (idle curr) (idle prev) in
    if fleb total_delta (f_of_Z 0) then Some (f_of_Z 0)
    else
      ratio ← fdiv idle_delta total_delta;
      Some (py_max (f_of_Z 0)
              (py_min (f_of_Z 100)
                 (fmul (f_of_Z 100) (fsub (f_of_Z 1) ratio)))).
Proof.
  intros Hc Hp Hprev Hcurr. unfold get_cpu_load.
  destruct (Z.of_nat (length current_times) <=? cpu_id) eqn:E1; [lia|].
  destruct (Z.of_nat (length (prev_cpu_times self)) <=? cpu_id) eqn:E2;
    [lia|].
  simpl. rewrite Hprev, Hcurr. reflexivity.
Qed.

(** A cpu id that is not negative never makes [get_cpu_load] raise. *)
Lemma get_cpu_load_total (self : Collector F) cpu_id
    (current_times : list (scputimes F)) :
  0 <= cpu_id -> is_Some (get_cpu_load self cpu_id current_times).
Proof.
  intros Hnn.
  destruct (Z_lt_le_dec cpu_id (Z.of_nat (length current_times)))
    as [Hc|Hc];
    [|rewrite get_cpu_load_out_of_range by lia; eauto].
  destruct (Z_lt_le_dec cpu_id (Z.of_nat (length (prev_cpu_times self))))
    as [Hp|Hp];
    [|rewrite get_cpu_load_out_of_range by lia; eauto].
  destruct (py_index_is_Some (prev_cpu_times self) cpu_id) as [prev Eprev];
    [lia|].
  destruct (py_index_is_Some current_times cpu_id) as [curr Ecurr]; [lia|].
  rewrite (get_cpu_load_in_range self cpu_id current_times prev curr)
    by assumption.
  cbv zeta.
  destruct (fleb _ (f_of_Z 0)) eqn:Hle; [eauto|].
  destruct (fdiv _ _) as [ratio|] eqn:Hdiv; simpl; [eauto|].
  apply fdiv_None in Hdiv. congruence.
Qed.

(** C3.  For a cpu id at or beyond the length of either snapshot the
    estimator returns [0.0].  Otherwise, with [prev] and [curr] the
    entries of the two snapshots at [cpu_id], [total_delta] the difference
    of the sums of their seven counters and [idle_delta] that of their idle
    counters, it returns exactly [0.0] when [total_delta <= 0], and else
    [100 * (1 - idle_delta / total_delta)] clamped by
    [max(0.0, min(100.0, _))], a value between 0 and 100; the division
    does not raise. *)
Theorem get_cpu_load_contract (self : Collector F) (cpu_id : Z)
    (current_times : list (scputimes F)) :
  (Z.of_nat (length current_times) <= cpu_id \/
   Z.of_nat (length (prev_cpu_times self)) <= cpu_id ->
   get_cpu_load self cpu_id current_times = Some (f_of_Z 0)) /\
  (forall prev curr,
     cpu_id < Z.of_nat (length current_times) ->
     cpu_id < Z.of_nat (length (prev_cpu_times self)) ->
     py_index (prev_cpu_times self) cpu_id = Some prev ->
     py_index current_times cpu_id = Some curr ->
     let total_delta :=
       fsub (fsum [user curr; nice curr; system curr; idle curr;
                   iowait curr; irq curr; softirq curr])
            (fsum [user prev; nice prev; system prev; idle prev;
                   iowait prev; irq prev; softirq prev]) in
     let idle_delta := fsub (idle curr) (idle prev) in
     (fleb total_delta (f_of_Z 0) = true ->
      get_cpu_load self cpu_id current_times = Some (f_of_Z 0)) /\
     (fleb total_delta (f_of_Z 0) = false ->
      exists ratio load,
        fdiv idle_delta total_delta = Some ratio /\
        get_cpu_load self cpu_id current_times = Some load /\
        load = py_max (f_of_Z 0)
                 (py_min (f_of_Z 100)
                    (fmul (f_of_Z 100) (fsub (f_of_Z 1) ratio))) /\
        fleb (f_of_Z 0) load = true /\ fleb load (f_of_Z 100) = true)).
Proof.
  split; [apply get_cpu_load_out_of_range|].
  intros prev curr Hc Hp Hprev Hcurr total_delta idle_delta.
  rewrite (get_cpu_load_in_range self cpu_id current_times prev curr)
    by assumption.
  cbv zeta. fold (cpu_total curr) (cpu_total prev).
  change (fsub (cpu_total curr) (cpu_total prev)) with total_delta.
  change (fsub (idle curr) (idle prev)) with idle_delta.
  split; intros Hle; rewrite Hle; [reflexivity|].
  destruct (fdiv idle_delta total_delta) as [ratio|] eqn:Hdiv.
  - exists ratio, (py_max (f_of_Z 0)
                     (py_min (f_of_Z 100)
                        (fmul (f_of_Z 100) (fsub (f_of_Z 1) ratio)))).
    repeat split; try reflexivity; apply clamp_bounds.
  - apply fdiv_None in Hdiv. congruence.
Qed.

End LoadEstimator.

(** On one cpu with 10 s busy and 80 s idle before: cpu 5 is out of
    range; unchanged counters give a zero [total_delta]; 2 s busy and 6 s
    idle more give a load of 25. *)
Lemma get_cpu_load_contract_witness :
  StateCollector.get_cpu_load Examples.one_cpu 5 [Examples.times 12 86]
    = Some (inject_Z 0) /\
  StateCollector.get_cpu_load Examples.one_cpu 0 [Examples.times 10 80]
    = Some (inject_Z 0) /\
  exists load,
    StateCollector.get_cpu_load Examples.one_cpu 0 [Examples.times 12 86]
      = Some load /\
    Qeq load 25 /\
    Qle_bool 0 load = true /\ Qle_bool load 100 = true.
Proof.
  split; [|split].
  - destruct (get_cpu_load_contract Examples.one_cpu 5
                [Examples.times 12 86]) as [Hout _].
    apply Hout. left. simpl. lia.
  - destruct (get_cpu_load_contract Examples.one_cpu 0
                [Examples.times 10 80]) as [_ Hin].
    apply (Hin (Examples.times 10 80) (Examples.times 10 80));
      (reflexivity || (simpl; lia)).
  - destruct (get_cpu_load_contract Examples.one_cpu 0
                [Examples.times 12 86]) as [_ Hin].
    destruct (Hin (Examples.times 10 80) (Examples.times 12 86)
                ltac:(simpl; lia) ltac:(simpl; lia) eq_refl eq_refl)
      as [_ Hpos].
    destruct (Hpos eq_refl) as (ratio & load & Hdiv & Hload & Heq & Hb).
    exists load. split; [exact Hload|]. split; [|exact Hb].
    injection Hdiv as <-. rewrite Heq. reflexivity.
Defined.

(** ** Log files *)

Section LogFileFacts.
Context {A : Type}.
Implicit Types (content lines : list A) (h : LogFile.handle).

(** A handle is at the end of its file. *)
Lemma write_at_end h content line :
  LogFile.h_pos h = length content ->
  let f := LogFile.write (h, content) line in
  f.2 = content ++ [line] /\
  LogFile.h_pos f.1 = length f.2 /\
  LogFile.h_mode f.1 = LogFile.h_mode h.
Proof.
  intros Hpos. unfold LogFile.write.
  destruct (LogFile.h_mode h) eqn:Hmode; simpl.
  - rewrite Hpos, firstn_all.
    rewrite skipn_all2 by lia.
    repeat split. rewrite length_app. simpl. lia.
  - repeat split. rewrite length_app. simpl. lia.
Qed.

Lemma write_all_at_end lines : forall h content,
  LogFile.h_pos h = length content ->
  let f := LogFile.write_all (h, content) lines in
  f.2 = content ++ lines /\ LogFile.h_pos f.1 = length f.2.
Proof.
  unfold LogFile.write_all.
  induction lines as [|line lines IH]; intros h content Hpos;
    cbn [fold_left].
  - simpl. rewrite app_nil_r. split; [reflexivity|exact Hpos].
  - destruct (write_at_end h content line Hpos) as (Hc & Hp & _).
    destruct (LogFile.write (h, content) line) as [h1 c1].
    simpl in Hc, Hp. subst c1.
    destruct (IH h1 (content ++ [line]) Hp) as [Hc' Hp'].
    split; [|exact Hp'].
    rewrite Hc', <- app_assoc. reflexivity.
Qed.

Lemma open_at_end m content :
  let f := LogFile.open m content in
  LogFile.h_pos f.1 = length f.2.
Proof. destruct m; reflexivity. Qed.

End LogFileFacts.

(** ** The snapshot *)

Section Snapshot.
Import StateCollector.
Context {F : Type} `{PyFloat F}.
Implicit Types (self : Collector F) (env : SnapshotEnv F)
  (r : MigrationRecord F) (log : list (MigrationRecord F)).

Lemma flush_buffer_log self log :
  (flush_buffer (self, log)).2 = log ++ data_buffer self.
Proof.
  unfold flush_buffer. destruct (data_buffer self) as [|r b] eqn:E.
  - simpl. rewrite app_nil_r. reflexivity.
  - cbv zeta. cbn [snd].
    apply (write_all_at_end (r :: b) _ log). reflexivity.
Qed.

Lemma flush_buffer_buffer self log :
  data_buffer (flush_buffer (self, log)).1 = [].
Proof.
  unfold flush_buffer. destruct (data_buffer self) eqn:E;
    [exact E|reflexivity].
Qed.

Lemma flush_buffer_persisted (w : World F) :
  persisted (flush_buffer w) = persisted w.
Proof.
  destruct w as [self log]. unfold persisted.
  rewrite flush_buffer_buffer, flush_buffer_log, app_nil_r. reflexivity.
Qed.

Lemma flush_buffer_fields self log :
  let self' := (flush_buffer (self, log)).1 in
  task_locations self' = task_locations self /\
  task_info self' = task_info self /\
  stats self' = stats self /\
  num_cpus self' = num_cpus self /\
  prev_cpu_times self' = prev_cpu_times self /\
  buffer_size self' = buffer_size self.
Proof.
  unfold flush_buffer. destruct (data_buffer self); simpl; auto 10.
Qed.

Lemma create_record_fields env self p src dst migrated times counts r :
  create_record env self p src dst migrated times counts = Some r ->
  pid r = p /\ src_cpu r = src /\ dst_cpu r = dst /\
  decision r = (if migrated then 1 else 0) /\
  comm r = match task_info self !! p with
           | Some entry => ti_name entry
           | None => Some "unknown"%string
           end.
Proof.
  unfold create_record.
  destruct (get_cpu_load self src times) as [sl|]; [|discriminate].
  destruct (get_cpu_load self dst times) as [dl|]; [|discriminate].
  simpl. intros Hr. injection Hr as <-. simpl. auto.
Qed.

Lemma create_record_total `{!PyFloatLaws F} env self p src dst migrated
    times counts :
  0 <= src -> 0 <= dst ->
  is_Some (create_record env self p src dst migrated times counts).
Proof.
  intros Hs Hd. unfold create_record.
  destruct (get_cpu_load_total self src times Hs) as [sl ->].
  destruct (get_cpu_load_total self dst times Hd) as [dl ->].
  simpl. eauto.
Qed.

(** What [observe] does to the collector. *)
Lemma observe_effect env times counts self item :
  let self' := observe env times counts self item in
  data_buffer self' =
    data_buffer self
    ++ option_list (observed_record env times counts self item) /\
  total (stats self') = total (stats self) + 1 /\
  task_locations self' = task_locations self /\
  task_info self' = task_info self /\
  num_cpus self' = num_cpus self /\
  prev_cpu_times self' = prev_cpu_times self /\
  buffer_size self' = buffer_size self.
Proof.
  destruct item as [p c]. unfold observe, observed_record. simpl.
  destruct (PyDict.get (task_locations self) p) as [prev|];
    [|simpl; rewrite app_nil_r; auto 10].
  destruct (negb (prev =? c)).
  - destruct (create_record env self p prev c true times counts);
      simpl; [auto 10|rewrite app_nil_r; auto 10].
  - destruct (total (stats self) mod 5 =? 0);
      [|simpl; rewrite app_nil_r; auto 10].
    destruct (create_record env self p c _ false times counts);
      simpl; [auto 10|rewrite app_nil_r; auto 10].
Qed.

Lemma admitted_range ncpus proc c :
  pi_cpu_num proc = Some c -> admitted ncpus proc = true -> 0 <= c < ncpus.
Proof.
  unfold admitted. intros ->. intros Hadm.
  apply andb_true_iff in Hadm as [Hr _].
  apply negb_true_iff, orb_false_iff in Hr as [H1 H2]. lia.
Qed.

(** The first loop: what [current_tasks] and [task_info] hold after it. *)
Lemma scan_invariant env ncpus (info0 : gmap Z (task_entry F)) processes :
  let st := fold_left (scan_proc env ncpus) processes
                      (PyDict.empty, ∅, info0) in
  List.NoDup (PyDict.keys st.1.1) /\
  (forall p c, PyDict.get st.1.1 p = Some c ->
     exists proc, In proc processes /\ pi_pid proc = p /\
                  pi_cpu_num proc = Some c /\ admitted ncpus proc = true) /\
  (forall p c, PyDict.get st.1.1 p = Some c -> is_Some (st.2 !! p)) /\
  (forall p e, st.2 !! p = Some e ->
     info0 !! p = Some e \/
     (info0 !! p = None /\
      exists proc, In proc processes /\ pi_pid proc = p /\
                   admitted ncpus proc = true /\ ti_name e = pi_name proc)) /\
  (forall p e, info0 !! p = Some e -> st.2 !! p = Some e).
Proof.
  induction processes as [|proc processes IH] using rev_ind.
  - simpl. repeat split; auto; try discriminate. constructor.
  - rewrite fold_left_app. cbn [fold_left].
    destruct (fold_left _ processes _) as [[cur counts] info].
    cbn [fst snd] in IH.
    destruct IH as (Hnd & Hcur & Hinfo & Hprov & Hkeep).
    assert (Hskip :
      List.NoDup (PyDict.keys cur) /\
      (forall p c, PyDict.get cur p = Some c ->
         exists q, In q (processes ++ [proc]) /\ pi_pid q = p /\
                   pi_cpu_num q = Some c /\ admitted ncpus q = true) /\
      (forall p c, PyDict.get cur p = Some c -> is_Some (info !! p)) /\
      (forall p e, info !! p = Some e ->
         info0 !! p = Some e \/
         (info0 !! p = None /\
          exists q, In q (processes ++ [proc]) /\ pi_pid q = p /\
                    admitted ncpus q = true /\ ti_name e = pi_name q)) /\
      (forall p e, info0 !! p = Some e -> info !! p = Some e)).
    { repeat split; [exact Hnd| | exact Hinfo | | exact Hkeep].
      - intros p c Hg. destruct (Hcur p c Hg) as (q & Hq & Hrest).
        exists q. split; [apply in_or_app; auto|exact Hrest].
      - intros p e He.
        destruct (Hprov p e He) as [Hold|(Hnone & q & Hq & Hrest)];
          [auto|].
        right. split; [exact Hnone|].
        exists q. split; [apply in_or_app; auto|exact Hrest]. }
    unfold scan_proc.
    destruct (pi_cpu_num proc) as [c0|] eqn:Ecpu; [|exact Hskip].
    destruct ((c0 <? 0) || (ncpus <=? c0)) eqn:Erange; [exact Hskip|].
    destruct (status_admitted (pi_status proc)) eqn:Estatus;
      [|exact Hskip].
    destruct Hskip as (_ & Hcur' & _ & Hprov' & _).
    assert (Hadm : admitted ncpus proc = true)
      by (unfold admitted; rewrite Ecpu, Erange, Estatus; reflexivity).
    assert (Hlast : In proc (processes ++ [proc]))
      by (apply in_or_app; right; left; reflexivity).
    cbn [negb fst snd]. repeat split.
    + apply PyDict_NoDup_set. exact Hnd.
    + intros p c Hg.
      destruct (Z.eq_dec (pi_pid proc) p) as [<-|Hne].
      * rewrite PyDict_get_set_eq in Hg. injection Hg as <-. eauto 8.
      * rewrite PyDict_get_set_ne in Hg by exact Hne. eauto.
    + intros p c Hg.
      destruct (Z.eq_dec (pi_pid proc) p) as [<-|Hne].
      * destruct (info !! pi_pid proc) eqn:Ei; [eauto|].
        rewrite lookup_insert_eq. eauto.
      * rewrite PyDict_get_set_ne in Hg by exact Hne.
        destruct (info !! pi_pid proc) eqn:Ei; [eauto|].
        rewrite lookup_insert_ne by exact Hne. eauto.
    + intros p e He.
      destruct (info !! pi_pid proc) eqn:Ei; [eauto|].
      destruct (Z.eq_dec (pi_pid proc) p) as [<-|Hne].
      * rewrite lookup_insert_eq in He. injection He as <-.
        right. split; [|exists proc; auto].
        destruct (info0 !! pi_pid proc) as [e0|] eqn:E0; [|reflexivity].
        apply Hkeep in E0. congruence.
      * rewrite lookup_insert_ne in He by exact Hne. eauto.
    + intros p e He. apply Hkeep in He.
      destruct (info !! pi_pid proc) eqn:Ei; [exact He|].
      rewrite lookup_insert_ne; [exact He|]. congruence.
Qed.

(** The second loop appends records and counts its turns; [P] holds of a
    record as soon as it holds of whatever [observe] can build for an item
    in a collector with the same tables. *)
Lemma observe_fold (P : MigrationRecord F -> Prop) env times counts items :
  forall self,
  (forall self' item r,
     In item items ->
     task_locations self' = task_locations self ->
     task_info self' = task_info self ->
     num_cpus self' = num_cpus self ->
     prev_cpu_times self' = prev_cpu_times self ->
     observed_record env times counts self' item = Some r -> P r) ->
  let self_end := fold_left (observe env times counts) items self in
  (exists emitted,
     data_buffer self_end = data_buffer self ++ emitted /\
     Forall P emitted) /\
  total (stats self_end) = total (stats self) + Z.of_nat (length items) /\
  task_locations self_end = task_locations self /\
  task_info self_end = task_info self /\
  num_cpus self_end = num_cpus self /\
  prev_cpu_times self_end = prev_cpu_times self /\
  buffer_size self_end = buffer_size self.
Proof.
  induction items as [|item items IH]; intros self HP; cbn [fold_left].
  - split; [exists []; rewrite app_nil_r; auto|].
    simpl. repeat split; lia.
  - destruct (observe_effect env times counts self item)
      as (Hbuf & Htot & Htl & Hti & Hn & Hpt & Hbs).
    destruct (IH (observe env times counts self item))
      as ((emitted & Hbuf' & HPe) & Htot' & Htl' & Hti' & Hn' & Hpt' & Hbs').
    { intros self' item' r Hin E1 E2 E3 E4.
      apply (HP self' item' r); [right; exact Hin|congruence..]. }
    split.
    + exists (option_list (observed_record env times counts self item)
              ++ emitted).
      split; [rewrite Hbuf', Hbuf, <- app_assoc; reflexivity|].
      apply Forall_app. split; [|exact HPe].
      destruct (observed_record env times counts self item) as [r|] eqn:Er;
        simpl; constructor; [|constructor].
      apply (HP self item r); auto. left. reflexivity.
    + rewrite Htot', Htot, Htl', Htl, Hti', Hti, Hn', Hn, Hpt', Hpt, Hbs', Hbs.
      repeat split. cbn [length]. lia.
Qed.

Lemma observe_all_fold (P : MigrationRecord F -> Prop) env self :
  (forall self' item r,
     In item (PyDict.items (current_tasks env self)) ->
     task_locations self' = task_locations self ->
     task_info self' = scanned_info env self ->
     num_cpus self' = num_cpus self ->
     prev_cpu_times self' = prev_cpu_times self ->
     observed_record env (env_cpu_times env) (scan env self).1.2 self' item
       = Some r -> P r) ->
  let self_end := observe_all env self in
  (exists emitted,
     data_buffer self_end = data_buffer self ++ emitted /\
     Forall P emitted) /\
  total (stats self_end) =
    total (stats self)
    + Z.of_nat (length (PyDict.items (current_tasks env self))) /\
  num_cpus self_end = num_cpus self /\
  buffer_size self_end = buffer_size self.
Proof.
  unfold observe_all, current_tasks, scanned_info.
  destruct (scan env self) as [[cur counts] info]. cbn [fst snd].
  intros HP.
  destruct (observe_fold P env (env_cpu_times env) counts (PyDict.items cur)
              (with_task_info self info) HP)
    as (Hem & Htot & _ & _ & Hn & _ & Hbs).
  auto.
Qed.

(** What a snapshot leaves behind. *)
Lemma take_snapshot_effect env self log :
  let w := take_snapshot env (self, log) in
  persisted w = log ++ data_buffer (observe_all env self) /\
  task_locations w.1 = current_tasks env self /\
  stats w.1 = stats (observe_all env self) /\
  prev_cpu_times w.1 = env_cpu_times env.
Proof.
  unfold take_snapshot, current_tasks.
  destruct (scan env self) as [[cur counts] info] eqn:Escan. cbn [fst snd].
  match goal with
  | |- context [if ?c then flush_buffer ?w else _] =>
      destruct c; [|unfold persisted; simpl; auto];
      rewrite (flush_buffer_persisted w);
      destruct (flush_buffer_fields w.1 w.2) as (E1 & _ & E3 & _ & E5 & _);
      cbn [fst snd] in E1, E3, E5; rewrite E1, E3, E5;
      unfold persisted; simpl; auto
  end.
Qed.

Lemma take_snapshot_num_cpus env (w : World F) :
  num_cpus (take_snapshot env w).1 = num_cpus w.1.
Proof.
  destruct w as [self log]. unfold take_snapshot.
  destruct (scan env self) as [[cur counts] info].
  destruct (observe_all_fold (fun _ => True) env self) as (_ & _ & Hn & _);
    [auto|].
  match goal with
  | |- context [if ?c then flush_buffer ?w else _] =>
      destruct c; [|simpl; exact Hn];
      destruct (flush_buffer_fields w.1 w.2) as (_ & _ & _ & E4 & _);
      cbn [fst snd] in E4; rewrite E4; simpl; exact Hn
  end.
Qed.

(** The records of one snapshot, each satisfying what [observe] ensures. *)
Lemma take_snapshot_emitted (P : MigrationRecord F -> Prop) env
    (w : World F) :
  (forall self' item r,
     In item (PyDict.items (current_tasks env w.1)) ->
     task_locations self' = task_locations w.1 ->
     task_info self' = scanned_info env w.1 ->
     num_cpus self' = num_cpus w.1 ->
     prev_cpu_times self' = prev_cpu_times w.1 ->
     observed_record env (env_cpu_times env) (scan env w.1).1.2 self' item
       = Some r -> P r) ->
  exists emitted,
    persisted (take_snapshot env w) = persisted w ++ emitted /\
    Forall P emitted.
Proof.
  destruct w as [self log]. cbn [fst snd]. intros HP.
  destruct (observe_all_fold P env self HP) as ((emitted & Hbuf & HPe) & _).
  exists emitted. split; [|exact HPe].
  destruct (take_snapshot_effect env self log) as (Hp & _).
  rewrite Hp, Hbuf. unfold persisted. simpl. apply app_assoc.
Qed.

Lemma observed_record_cases env times counts self p c r :
  observed_record env times counts self (p, c) = Some r ->
  exists prev,
    PyDict.get (task_locations self) p = Some prev /\
    pid r = p /\
    comm r = match task_info self !! p with
             | Some entry => ti_name entry
             | None => Some "unknown"%string
             end /\
    ((prev <> c /\ decision r = 1 /\ src_cpu r = prev /\ dst_cpu r = c) \/
     (prev = c /\ total (stats self) mod 5 = 0 /\ decision r = 0 /\
      src_cpu r = c /\ dst_cpu r = (c + 1) mod num_cpus self)).
Proof.
  unfold observed_record. cbn [fst snd].
  destruct (PyDict.get (task_locations self) p) as [prev|]; [|discriminate].
  intros Hr. exists prev. split; [reflexivity|].
  destruct (Z.eqb prev c) eqn:Ecpu; cbn [negb] in Hr.
  - apply Z.eqb_eq in Ecpu.
    destruct (Z.eqb (total (stats self) mod 5) 0) eqn:Emod;
      [|discriminate].
    apply Z.eqb_eq in Emod.
    apply create_record_fields in Hr as (E1 & E2 & E3 & E4 & E5).
    repeat split; auto. right. auto.
  - apply Z.eqb_neq in Ecpu.
    apply create_record_fields in Hr as (E1 & E2 & E3 & E4 & E5).
    repeat split; auto.
Qed.

(** The items of [current_tasks] are its lookups, and come from admitted
    processes of the sample. *)
Lemma current_tasks_item env self p c :
  In (p, c) (PyDict.items (current_tasks env self)) ->
  PyDict.get (current_tasks env self) p = Some c /\
  0 <= c < num_cpus self /\
  is_Some (scanned_info env self !! p).
Proof.
  unfold current_tasks, scanned_info, scan.
  destruct (scan_invariant env (num_cpus self) (task_info self)
              (env_processes env)) as (Hnd & Hcur & Hinfo & _).
  intros Hin. apply (PyDict_In_get _ _ _ Hnd) in Hin.
  split; [exact Hin|].
  destruct (Hcur p c Hin) as (proc & _ & _ & Hcpu & Hadm).
  split; [exact (admitted_range _ _ _ Hcpu Hadm)|eauto].
Qed.

Lemma succ_mod_fixed c n : 0 <= c < n -> (c + 1) mod n = c -> n = 1.
Proof.
  intros Hc Hmod.
  destruct (Z_lt_le_dec (c + 1) n) as [Hlt|Hge].
  - rewrite Z.mod_small in Hmod by lia. lia.
  - assert (c + 1 = n) as Heq by lia.
    rewrite Heq, Z_mod_same_full in Hmod. lia.
Qed.

(** Over any run, the records produced satisfy what each snapshot
    ensures. *)
Lemma snapshots_emitted (P : MigrationRecord F -> Prop) envs :
  forall w : World F,
  (forall env (w' : World F),
     num_cpus w'.1 = num_cpus w.1 ->
     exists emitted,
       persisted (take_snapshot env w') = persisted w' ++ emitted /\
       Forall P emitted) ->
  exists emitted,
    persisted (snapshots envs w) = persisted w ++ emitted /\
    Forall P emitted.
Proof.
  unfold snapshots.
  induction envs as [|env envs IH]; intros w Hstep; cbn [fold_left].
  - exists []. rewrite app_nil_r. auto.
  - destruct (Hstep env w eq_refl) as (e1 & Hp1 & HP1).
    destruct (IH (take_snapshot env w)) as (e2 & Hp2 & HP2).
    { intros env' w' Hn. apply Hstep.
      rewrite Hn. apply take_snapshot_num_cpus. }
    exists (e1 ++ e2). split; [|apply Forall_app; auto].
    rewrite Hp2, Hp1, app_assoc. reflexivity.
Qed.

Lemma snapshots_num_cpus envs : forall w : World F,
  num_cpus (snapshots envs w).1 = num_cpus w.1.
Proof.
  unfold snapshots.
  induction envs as [|env envs IH]; intros w; cbn [fold_left];
    [reflexivity|].
  rewrite IH. apply take_snapshot_num_cpus.
Qed.

(** C6.  Over any run of snapshots, every record produced with
    [decision = 0] has [dst_cpu = (src_cpu + 1) mod num_cpus], and its
    [src_cpu] equals its [dst_cpu] only when [num_cpus = 1]. *)
Theorem negative_record_candidate envs (w : World F) :
  exists emitted,
    persisted (snapshots envs w) = persisted w ++ emitted /\
    Forall (fun r =>
              decision r = 0 ->
              dst_cpu r = (src_cpu r + 1) mod num_cpus w.1 /\
              (src_cpu r = dst_cpu r -> num_cpus w.1 = 1))
           emitted.
Proof.
  apply snapshots_emitted. intros env w' Hn. rewrite <- Hn.
  apply take_snapshot_emitted.
  intros self' [p c] r Hin _ _ Hn' _ Hr.
  apply current_tasks_item in Hin as (_ & Hrange & _).
  apply observed_record_cases in Hr
    as (prev & Hprev & Hpid & Hcomm
        & [(Hne & Hd & Hmig)|(Heq & Hmod & Hd & Hsrc & Hdst)]);
    intros Hdec; [congruence|].
  rewrite Hn' in Hdst. rewrite Hsrc, Hdst. split; [reflexivity|].
  intros Hsame. symmetry in Hsame. exact (succ_mod_fixed c _ Hrange Hsame).
Qed.

(** Every admitted process of the sample has its pid in
    [current_tasks]. *)
Lemma scan_complete env ncpus (info0 : gmap Z (task_entry F)) processes :
  forall proc, In proc processes -> admitted ncpus proc = true ->
  is_Some (PyDict.get
             (fold_left (scan_proc env ncpus) processes
                        (PyDict.empty, ∅, info0)).1.1
             (pi_pid proc)).
Proof.
  induction processes as [|q processes IH] using rev_ind;
    intros proc Hin Hadm; [destruct Hin|].
  rewrite fold_left_app. cbn [fold_left].
  destruct (fold_left _ processes _) as [[cur counts] info] eqn:Efold.
  cbn [fst snd] in IH.
  apply in_app_or in Hin as [Hin|[->|[]]].
  - specialize (IH proc Hin Hadm). unfold scan_proc.
    destruct (pi_cpu_num q) as [c0|]; [|exact IH].
    destruct ((c0 <? 0) || (ncpus <=? c0)); [exact IH|].
    destruct (status_admitted (pi_status q)); [|exact IH].
    cbn [negb fst snd].
    destruct (Z.eq_dec (pi_pid q) (pi_pid proc)) as [<-|Hne].
    + rewrite PyDict_get_set_eq. eauto.
    + rewrite PyDict_get_set_ne by exact Hne. exact IH.
  - unfold scan_proc. unfold admitted in Hadm.
    destruct (pi_cpu_num proc) as [c0|]; [|discriminate].
    apply andb_true_iff in Hadm as [Hr Hs].
    apply negb_true_iff in Hr. rewrite Hr, Hs. cbn [negb fst snd].
    rewrite PyDict_get_set_eq. eauto.
Qed.

(** C7.  Every record a snapshot produces is for a pid that is both in
    the tracker's previous map and in the current sample's map; it is a
    [decision = 1] record, from the previous cpu to the current one,
    exactly when the two cpus differ.  So a pid that appeared or
    disappeared produces nothing.  Afterwards the tracker's map is the
    current sample's map, whose entries are the admitted processes of the
    sample. *)
Theorem task_diff_transitions env (w : World F) :
  (exists emitted,
     persisted (take_snapshot env w) = persisted w ++ emitted /\
     Forall (fun r =>
               exists prev_cpu curr_cpu,
                 PyDict.get (task_locations w.1) (pid r) = Some prev_cpu /\
                 PyDict.get (current_tasks env w.1) (pid r) = Some curr_cpu /\
                 ((decision r = 1 /\ prev_cpu <> curr_cpu /\
                   src_cpu r = prev_cpu /\ dst_cpu r = curr_cpu) \/
                  (decision r = 0 /\ prev_cpu = curr_cpu)))
            emitted) /\
  task_locations (take_snapshot env w).1 = current_tasks env w.1 /\
  (forall p c,
     PyDict.get (current_tasks env w.1) p = Some c ->
     exists proc, In proc (env_processes env) /\ pi_pid proc = p /\
                  pi_cpu_num proc = Some c /\
                  admitted (num_cpus w.1) proc = true) /\
  (forall proc,
     In proc (env_processes env) -> admitted (num_cpus w.1) proc = true ->
     is_Some (PyDict.get (current_tasks env w.1) (pi_pid proc))).
Proof.
  split; [|split; [|split]].
  - apply take_snapshot_emitted.
    intros self' [p c] r Hin Htl _ _ _ Hr.
    apply current_tasks_item in Hin as (Hcur & _ & _).
    apply observed_record_cases in Hr
      as (prev & Hprev & Hpid & _
          & [(Hne & Hd & Hsrc & Hdst)|(Heq & _ & Hd & _ & _)]);
      exists prev, c; rewrite Hpid, <- Htl; auto 10.
  - destruct w as [self log]. apply take_snapshot_effect.
  - unfold current_tasks, scan.
    apply (scan_invariant env (num_cpus w.1) (task_info w.1)
             (env_processes env)).
  - unfold current_tasks, scan. apply scan_complete.
Qed.

Lemma take_snapshot_task_info env (w : World F) p e :
  task_info (take_snapshot env w).1 !! p = Some e ->
  scanned_info env w.1 !! p = Some e.
Proof.
  destruct w as [self log]. unfold take_snapshot, scanned_info.
  cbn [fst].
  assert (Hti : task_info (observe_all env self) = (scan env self).2).
  { unfold observe_all.
    destruct (scan env self) as [[cur counts] info]. cbn [fst snd].
    apply (observe_fold (fun _ => True) env (env_cpu_times env) counts
             (PyDict.items cur) (with_task_info self info)). auto. }
  destruct (scan env self) as [[cur counts] info]. cbn [fst snd] in *.
  match goal with
  | |- context [if ?c then flush_buffer ?w else _] =>
      destruct c;
      [destruct (flush_buffer_fields w.1 w.2) as (_ & E2 & _);
       cbn [fst snd] in E2; rewrite E2|];
      cbn [fst snd task_info with_prev_cpu_times with_task_info
           with_task_locations];
      rewrite Hti; intros Hf;
      apply map_lookup_filter_Some in Hf as [Hf _]; exact Hf
  end.
Qed.

Lemma comm_from_scanned_info env (w : World F) :
  exists emitted,
    persisted (take_snapshot env w) = persisted w ++ emitted /\
    Forall (fun r =>
              exists entry,
                scanned_info env w.1 !! pid r = Some entry /\
                comm r = ti_name entry /\
                (task_info w.1 !! pid r = Some entry \/
                 (task_info w.1 !! pid r = None /\
                  exists proc,
                    In proc (env_processes env) /\ pi_pid proc = pid r /\
                    admitted (num_cpus w.1) proc = true /\
                    pi_name proc = ti_name entry)))
           emitted.
Proof.
  apply take_snapshot_emitted.
  intros self' [p c] r Hin _ Hti _ _ Hr.
  apply current_tasks_item in Hin as (_ & _ & [entry Hentry]).
  apply observed_record_cases in Hr as (prev & _ & Hpid & Hcomm & _).
  rewrite Hti, Hentry in Hcomm. rewrite Hpid.
  exists entry. split; [exact Hentry|]. split; [exact Hcomm|].
  unfold scanned_info, scan in Hentry.
  destruct (scan_invariant env (num_cpus w.1) (task_info w.1)
              (env_processes env)) as (_ & _ & _ & Hprov & _).
  destruct (Hprov p entry Hentry) as [Hold|(Hnone & q & Hq & E1 & E2 & E3)];
    [auto|].
  right. split; [exact Hnone|]. exists q. auto.
Qed.

(** Names in [task_info] and in the records stay among the names seen:
    [Obs] is any property that holds of the name of every admitted process
    of the run and of the names already in [task_info]. *)
Lemma snapshots_comm_observed (Obs : Z -> option string -> Prop) envs :
  forall w : World F,
  (forall env proc,
     In env envs -> In proc (env_processes env) ->
     admitted (num_cpus w.1) proc = true ->
     Obs (pi_pid proc) (pi_name proc)) ->
  (forall p e, task_info w.1 !! p = Some e -> Obs p (ti_name e)) ->
  exists emitted,
    persisted (snapshots envs w) = persisted w ++ emitted /\
    Forall (fun r => Obs (pid r) (comm r)) emitted.
Proof.
  unfold snapshots.
  induction envs as [|env envs IH]; intros w Hobs Hinv; cbn [fold_left].
  - exists []. rewrite app_nil_r. auto.
  - assert (Hscanned : forall p e,
              scanned_info env w.1 !! p = Some e -> Obs p (ti_name e)).
    { intros p e He. unfold scanned_info, scan in He.
      destruct (scan_invariant env (num_cpus w.1) (task_info w.1)
                  (env_processes env)) as (_ & _ & _ & Hprov & _).
      destruct (Hprov p e He) as [Hold|(_ & q & Hq & <- & Hadm & ->)];
        [auto|].
      apply (Hobs env q); auto. left. reflexivity. }
    destruct (comm_from_scanned_info env w) as (e1 & Hp1 & HP1).
    destruct (IH (take_snapshot env w)) as (e2 & Hp2 & HP2).
    + intros env' q Hin Hq. rewrite take_snapshot_num_cpus. intros Hadm.
      apply (Hobs env' q); [right; exact Hin|exact Hq|exact Hadm].
    + intros p e He. apply take_snapshot_task_info in He. auto.
    + exists (e1 ++ e2). split; [rewrite Hp2, Hp1, app_assoc; reflexivity|].
      apply Forall_app. split; [|exact HP2].
      eapply Forall_impl; [exact HP1|].
      intros r (entry & Hentry & -> & _). cbn beta. auto.
Qed.

(** C10.  Whenever a snapshot builds a record, [task_info] as the first
    loop left it has an entry for the record's pid, and [comm] is the name
    in that entry, so the ["unknown"] default is not used.  The entry is
    the one the map already had or, failing that, one made from the name
    of an admitted process of the current sample with that pid.  Hence,
    from a new collector on, [comm] is always a name observed for the
    record's pid in the run. *)
Theorem comm_never_defaults :
  (forall env (w : World F),
     exists emitted,
       persisted (take_snapshot env w) = persisted w ++ emitted /\
       Forall (fun r =>
                 exists entry,
                   scanned_info env w.1 !! pid r = Some entry /\
                   comm r = ti_name entry /\
                   (task_info w.1 !! pid r = Some entry \/
                    (task_info w.1 !! pid r = None /\
                     exists proc,
                       In proc (env_processes env) /\
                       pi_pid proc = pid r /\
                       admitted (num_cpus w.1) proc = true /\
                       pi_name proc = ti_name entry)))
              emitted) /\
  (forall ncpus times envs,
     Forall (fun r =>
               exists env proc,
                 In env envs /\ In proc (env_processes env) /\
                 pi_pid proc = pid r /\ admitted ncpus proc = true /\
                 comm r = pi_name proc)
            (persisted (snapshots envs (init ncpus times, [])))).
Proof.
  split; [exact comm_from_scanned_info|].
  intros ncpus times envs.
  destruct (snapshots_comm_observed
              (fun p nm =>
                 exists env proc,
                   In env envs /\ In proc (env_processes env) /\
                   pi_pid proc = p /\ admitted ncpus proc = true /\
                   nm = pi_name proc)
              envs (init ncpus times, []))
    as (emitted & Hp & HP).
  - intros env proc Hin Hproc Hadm. exists env, proc. auto.
  - intros p e He. cbn in He. rewrite lookup_empty in He. discriminate.
  - rewrite Hp. exact HP.
Qed.

(** *** The stride of the negative examples *)

(** Among the counter values [t, ..., t + n - 1] there are
    [(t + n + 4) / 5 - (t + 4) / 5] multiples of 5. *)
Lemma stride_one t :
  (t + 1 + 4) / 5 - (t + 4) / 5 = if Z.eqb (t mod 5) 0 then 1 else 0.
Proof.
  destruct (Z.eqb_spec (t mod 5) 0); Z.to_euclidean_division_equations; lia.
Qed.

Lemma negatives_all (records : list (MigrationRecord F)) :
  Forall (fun r => decision r = 0) records ->
  negatives records = Z.of_nat (length records).
Proof.
  intros Hall. unfold negatives. f_equal.
  induction Hall as [|r records Hr _ IH]; [reflexivity|].
  rewrite filter_cons_True by exact Hr. simpl. f_equal. exact IH.
Qed.

Lemma observe_fold_non_migrating `{!PyFloatLaws F} env times counts items :
  forall self,
  (forall p c, In (p, c) items ->
     0 <= c < num_cpus self /\
     PyDict.get (task_locations self) p = Some c) ->
  exists emitted,
    data_buffer (fold_left (observe env times counts) items self)
      = data_buffer self ++ emitted /\
    Forall (fun r => decision r = 0) emitted /\
    Z.of_nat (length emitted) =
      (total (stats self) + Z.of_nat (length items) + 4) / 5
      - (total (stats self) + 4) / 5.
Proof.
  induction items as [|[p c] items IH]; intros self Hitems;
    cbn [fold_left].
  - exists []. rewrite app_nil_r. cbn [length].
    repeat split; [constructor|].
    replace (total (stats self) + Z.of_nat 0 + 4)
      with (total (stats self) + 4) by lia. lia.
  - destruct (observe_effect env times counts self (p, c))
      as (Hbuf & Htot & Htl & _ & Hn & _).
    destruct (IH (observe env times counts self (p, c)))
      as (emitted & Hbuf' & Hdec & Hlen).
    { intros p' c' Hin. rewrite Hn, Htl. apply Hitems. right. exact Hin. }
    destruct (Hitems p c) as [Hrange Hprev]; [left; reflexivity|].
    exists (option_list (observed_record env times counts self (p, c))
            ++ emitted).
    rewrite Hbuf', Hbuf, <- app_assoc. split; [reflexivity|].
    rewrite Htot in Hlen.
    pose proof (stride_one (total (stats self))) as Hone.
    replace (total (stats self) + Z.of_nat (length ((p, c) :: items)) + 4)
      with (total (stats self) + 1 + Z.of_nat (length items) + 4)
      by (cbn [length]; lia).
    unfold observed_record. cbn [fst snd]. rewrite Hprev, Z.eqb_refl.
    cbn [negb].
    destruct (Z.eqb (total (stats self) mod 5) 0); cbn iota in Hone.
    + destruct (create_record_total env self p c
                  ((c + 1) mod num_cpus self) false times counts)
        as [r Hr]; [lia|apply Z.mod_pos_bound; lia|].
      rewrite Hr. change (option_list (Some r) ++ emitted) with (r :: emitted).
      cbn [length]. split; [|lia].
      constructor; [|exact Hdec].
      apply create_record_fields in Hr. tauto.
    + change (option_list None ++ emitted) with emitted.
      split; [exact Hdec|lia].
Qed.

Lemma non_migrating_items env self p c :
  non_migrating env self = true ->
  In (p, c) (PyDict.items (current_tasks env self)) ->
  0 <= c < num_cpus self /\ PyDict.get (task_locations self) p = Some c.
Proof.
  unfold non_migrating. intros Hall Hin.
  rewrite forallb_forall in Hall. specialize (Hall (p, c) Hin).
  cbn [fst snd] in Hall.
  apply current_tasks_item in Hin as (_ & Hrange & _).
  split; [exact Hrange|].
  destruct (PyDict.get (task_locations self) p) as [prev|];
    [|discriminate].
  apply Z.eqb_eq in Hall. congruence.
Qed.

(** One snapshot in which no task moved. *)
Lemma take_snapshot_non_migrating `{!PyFloatLaws F} env (w : World F) :
  non_migrating env w.1 = true ->
  let n := Z.of_nat (length (PyDict.items (current_tasks env w.1))) in
  (exists emitted,
     persisted (take_snapshot env w) = persisted w ++ emitted /\
     Forall (fun r => decision r = 0) emitted /\
     Z.of_nat (length emitted) =
       (total (stats w.1) + n + 4) / 5 - (total (stats w.1) + 4) / 5) /\
  total (stats (take_snapshot env w).1) = total (stats w.1) + n.
Proof.
  destruct w as [self log]. intros Hnm n. cbn [fst] in Hnm, n |- *.
  destruct (take_snapshot_effect env self log) as (Hp & _ & Hstats & _).
  destruct (observe_all_fold (fun _ => True) env self) as (_ & Htot & _);
    [auto|].
  split; [|rewrite Hstats; exact Htot].
  assert (Hfold : exists emitted,
            data_buffer (observe_all env self) = data_buffer self ++ emitted
            /\ Forall (fun r => decision r = 0) emitted
            /\ Z.of_nat (length emitted) =
                 (total (stats self) + n + 4) / 5
                 - (total (stats self) + 4) / 5).
  { subst n.
    pose proof (fun p c => non_migrating_items env self p c Hnm) as Hitems.
    unfold observe_all, current_tasks in *.
    destruct (scan env self) as [[cur counts] info]. cbn [fst snd] in *.
    apply (observe_fold_non_migrating env (env_cpu_times env) counts
             (PyDict.items cur) (with_task_info self info)).
    intros p c Hin. apply Hitems. exact Hin. }
  destruct Hfold as (emitted & Hbuf & Hdec & Hlen).
  exists emitted. split; [|auto].
  rewrite Hp, Hbuf. unfold persisted. cbn [fst snd]. apply app_assoc.
Qed.

Lemma observations_nonneg envs : forall w : World F,
  0 <= observations envs w.
Proof.
  induction envs as [|env envs IH]; intros w; cbn [observations]; [lia|].
  specialize (IH (take_snapshot env w)). lia.
Qed.

Lemma snapshots_non_migrating `{!PyFloatLaws F} envs : forall w : World F,
  non_migrating_run envs w = true ->
  (exists emitted,
     persisted (snapshots envs w) = persisted w ++ emitted /\
     Forall (fun r => decision r = 0) emitted /\
     Z.of_nat (length emitted) =
       (total (stats w.1) + observations envs w + 4) / 5
       - (total (stats w.1) + 4) / 5).
Proof.
  unfold snapshots.
  induction envs as [|env envs IH]; intros w Hrun;
    cbn [fold_left observations non_migrating_run] in *.
  - exists []. rewrite app_nil_r. cbn [length].
    repeat split; [constructor|].
    replace (total (stats w.1) + 0 + 4) with (total (stats w.1) + 4) by lia.
    lia.
  - apply andb_true_iff in Hrun as [Hnm Hrun].
    destruct (take_snapshot_non_migrating env w Hnm)
      as ((e1 & Hp1 & Hd1 & Hl1) & Htot).
    destruct (IH _ Hrun) as (e2 & Hp2 & Hd2 & Hl2).
    exists (e1 ++ e2). rewrite Hp2, Hp1, <- app_assoc.
    split; [reflexivity|]. split; [apply Forall_app; auto|].
    rewrite length_app, Nat2Z.inj_add, Hl1, Hl2, Htot.
    rewrite Z.add_assoc. lia.
Qed.

(** C1, as the code has it.  Over a run of snapshots in which no task
    moved, started with the total counter at [t0] and making [N]
    observations, only [decision = 0] records are produced, and their
    number is that of the multiples of 5 among [t0, ..., t0 + N - 1],
    namely [(t0 + N + 4) / 5 - (t0 + 4) / 5]: that is [floor(N / 5)] or one
    more, and [ceil(N / 5)] when [t0 = 0]. *)
Theorem negatives_per_stride `{!PyFloatLaws F} envs (w : World F) :
  non_migrating_run envs w = true ->
  exists emitted,
    persisted (snapshots envs w) = persisted w ++ emitted /\
    Forall (fun r => decision r = 0) emitted /\
    negatives emitted =
      (total (stats w.1) + observations envs w + 4) / 5
      - (total (stats w.1) + 4) / 5 /\
    observations envs w / 5 <= negatives emitted
      <= observations envs w / 5 + 1 /\
    (total (stats w.1) = 0 ->
     negatives emitted = (observations envs w + 4) / 5).
Proof.
  intros Hrun.
  destruct (snapshots_non_migrating envs w Hrun) as (emitted & Hp & Hd & Hl).
  exists emitted. split; [exact Hp|]. split; [exact Hd|].
  rewrite (negatives_all emitted Hd), Hl.
  pose proof (observations_nonneg envs w) as Hn.
  split; [reflexivity|]. split.
  - Z.to_euclidean_division_equations. lia.
  - intros ->. Z.to_euclidean_division_equations. lia.
Qed.

End Snapshot.

(** Task 42 seen on cpu 0 and then on cpu 9 of a machine with nodes of
    eight cpus: one record, a migration across nodes. *)
Example two_tick_migration :
  map (fun r =>
         (StateCollector.pid r, StateCollector.comm r,
          StateCollector.src_cpu r, StateCollector.dst_cpu r,
          StateCollector.cross_node r, StateCollector.decision r))
      (StateCollector.persisted
         (StateCollector.snapshots Examples.moved Examples.sixteen_cpus))
    = [(42, Some "worker"%string, 0, 9, 1, 1)].
Proof. vm_compute. reflexivity. Qed.

(** The negative record of the run of [Examples.four_stay]: task 1 stays
    on cpu 0 and the candidate is cpu 1. *)
Example one_negative_record :
  map (fun r =>
         (StateCollector.pid r, StateCollector.src_cpu r,
          StateCollector.dst_cpu r, StateCollector.decision r))
      (StateCollector.persisted
         (StateCollector.take_snapshot Examples.four_stay
            Examples.after_five))
    = [(1, 0, 1, 0)].
Proof. vm_compute. reflexivity. Qed.

(** After five first sightings the counter is at 5; the four observations
    that follow are covered by the theorem. *)
Lemma negatives_per_stride_witness :
  StateCollector.non_migrating_run [Examples.four_stay] Examples.after_five
    = true /\
  exists emitted,
    StateCollector.persisted
      (StateCollector.snapshots [Examples.four_stay] Examples.after_five)
      = StateCollector.persisted Examples.after_five ++ emitted /\
    Forall (fun r => StateCollector.decision r = 0) emitted /\
    StateCollector.negatives emitted =
      (StateCollector.total (StateCollector.stats Examples.after_five.1)
       + StateCollector.observations [Examples.four_stay]
           Examples.after_five + 4) / 5
      - (StateCollector.total (StateCollector.stats Examples.after_five.1)
         + 4) / 5 /\
    StateCollector.observations [Examples.four_stay] Examples.after_five / 5
      <= StateCollector.negatives emitted
      <= StateCollector.observations [Examples.four_stay]
           Examples.after_five / 5 + 1 /\
    (StateCollector.total (StateCollector.stats Examples.after_five.1) = 0 ->
     StateCollector.negatives emitted =
       (StateCollector.observations [Examples.four_stay]
          Examples.after_five + 4) / 5).
Proof.
  split; [vm_compute; reflexivity|].
  apply (negatives_per_stride [Examples.four_stay] Examples.after_five).
  vm_compute. reflexivity.
Defined.

(** C1 as stated fails.  From a new collector, five tasks are seen once
    (nothing is recorded) and four of them are seen again in place: that
    is N = 4 non-migrating observations, and one negative record, not
    [floor(4 / 5) = 0].  The same happens in a collector whose counter is 0
    when the four observations start. *)
Lemma negatives_floor_counterexample :
  let w1 := Examples.after_five in
  let w2 := StateCollector.take_snapshot Examples.four_stay w1 in
  let w' := StateCollector.take_snapshot Examples.four_stay
              Examples.seeded in
  (StateCollector.total (StateCollector.stats Examples.two_cpus.1) = 0 /\
   StateCollector.persisted w1 = [] /\
   StateCollector.non_migrating Examples.four_stay w1.1 = true /\
   StateCollector.observations [Examples.four_stay] w1 = 4 /\
   StateCollector.negatives (StateCollector.persisted w2) = 1) /\
  (StateCollector.total (StateCollector.stats Examples.seeded.1) = 0 /\
   StateCollector.non_migrating Examples.four_stay Examples.seeded.1
     = true /\
   StateCollector.observations [Examples.four_stay] Examples.seeded = 4 /\
   StateCollector.negatives (StateCollector.persisted w') = 1) /\
  4 / 5 = 0.
Proof. vm_compute. repeat split; reflexivity. Qed.

(** ** The loop of the state collector *)

Section CollectLoop.
Import StateCollector.
Context {F : Type} `{PyFloat F}.

Lemma take_snapshot_log env (w : World F) :
  exists suffix, (take_snapshot env w).2 = w.2 ++ suffix.
Proof.
  destruct w as [self log]. unfold take_snapshot.
  destruct (scan env self) as [[cur counts] info].
  match goal with
  | |- context [if ?c then flush_buffer (?x, ?l) else _] =>
      destruct c; [rewrite (flush_buffer_log x l); eauto|]
  end.
  exists []. cbn [snd]. rewrite app_nil_r. reflexivity.
Qed.

Lemma snapshots_log envs : forall w : World F,
  exists suffix, (snapshots envs w).2 = w.2 ++ suffix.
Proof.
  unfold snapshots.
  induction envs as [|env envs IH]; intros w; cbn [fold_left].
  - exists []. rewrite app_nil_r. reflexivity.
  - destruct (take_snapshot_log env w) as (s1 & H1).
    destruct (IH (take_snapshot env w)) as (s2 & H2).
    exists (s1 ++ s2). rewrite H2, H1, app_assoc. reflexivity.
Qed.

Lemma collect_loop_left duration start_time ticks : forall w : World F,
  (collect_loop duration start_time ticks w).1
    = existsb (tick_stops duration start_time) ticks.
Proof.
  induction ticks as [|tk ticks IH]; intros w;
    cbn [collect_loop existsb]; [reflexivity|].
  unfold tick_stops at 1.
  destruct (duration_elapsed duration start_time (tick_now tk));
    [reflexivity|].
  destruct (tick_interrupt tk); [reflexivity|]. apply IH.
Qed.

Lemma collect_loop_persisted duration start_time ticks : forall w : World F,
  exists emitted,
    persisted (collect_loop duration start_time ticks w).2
      = persisted w ++ emitted.
Proof.
  induction ticks as [|tk ticks IH]; intros w; cbn [collect_loop].
  - exists []. rewrite app_nil_r. reflexivity.
  - destruct (take_snapshot_emitted (fun _ => True) (tick_env tk) w)
      as (e1 & H1 & _); [auto|].
    destruct (duration_elapsed duration start_time (tick_now tk));
      [eauto|].
    destruct (tick_interrupt tk); [eauto|].
    destruct (IH (take_snapshot (tick_env tk) w)) as (e2 & H2).
    exists (e1 ++ e2). rewrite H2, H1, app_assoc. reflexivity.
Qed.

(** C9.  [flush_buffer] writes the whole buffer behind the log and
    empties it, whatever the size of the buffer.  When a turn of the loop
    ends it, by the duration or by an interrupt, [collect] stops after one
    more [flush_buffer]: the buffer ends empty and the log ends with the
    whole buffer of that moment behind what it held; with the flushes made
    on the way, every record produced since the start is in the log.
    Without such a turn the loop is still running. *)
Theorem final_flush_keeps_all duration start_time ticks (w : World F) :
  let at_stop := (collect_loop duration start_time ticks w).2 in
  (forall w0 : World F,
     (flush_buffer w0).2 = w0.2 ++ data_buffer w0.1 /\
     data_buffer (flush_buffer w0).1 = []) /\
  (existsb (tick_stops duration start_time) ticks = true ->
   exists w',
     collect duration start_time ticks w = Stopped w' /\
     data_buffer w'.1 = [] /\
     w'.2 = at_stop.2 ++ data_buffer at_stop.1 /\
     exists emitted, w'.2 = persisted w ++ emitted) /\
  (existsb (tick_stops duration start_time) ticks = false ->
   collect duration start_time ticks w = Running at_stop).
Proof.
  intros at_stop. subst at_stop.
  split; [intros [self0 log0]; split;
          [apply flush_buffer_log|apply flush_buffer_buffer]|].
  unfold collect.
  pose proof (collect_loop_left duration start_time ticks w) as Hleft.
  destruct (collect_loop_persisted duration start_time ticks w)
    as (emitted & Hp).
  destruct (collect_loop duration start_time ticks w) as [left [self log]].
  cbn [fst snd] in *. split; intros Hstop; rewrite Hstop in Hleft; subst left.
  - exists (flush_buffer (self, log)). split; [reflexivity|].
    rewrite flush_buffer_buffer, flush_buffer_log.
    repeat split. exists emitted. exact Hp.
  - reflexivity.
Qed.

End CollectLoop.

(** Two turns, the second one interrupted: the one record in the buffer,
    far below the threshold of 50, reaches the log. *)
Lemma final_flush_keeps_all_witness :
  existsb (StateCollector.tick_stops None 0%Q) Examples.two_turns = true /\
  exists w',
    StateCollector.collect None 0%Q Examples.two_turns Examples.two_cpus
      = StateCollector.Stopped w' /\
    StateCollector.data_buffer w'.1 = [] /\
    w'.2 =
      (StateCollector.collect_loop None 0%Q Examples.two_turns
         Examples.two_cpus).2.2
      ++ StateCollector.data_buffer
           (StateCollector.collect_loop None 0%Q Examples.two_turns
              Examples.two_cpus).2.1 /\
    exists emitted,
      w'.2 = StateCollector.persisted Examples.two_cpus ++ emitted.
Proof.
  split; [vm_compute; reflexivity|].
  apply (final_flush_keeps_all None 0%Q Examples.two_turns
           Examples.two_cpus).
  vm_compute. reflexivity.
Defined.

(** ** The energy collector *)

Section EnergyCounter.
Import Rapl.

(** C4.  A domain found by discovery starts with both accumulators at 0.
    Sampled with raw readings 100, 900 and 50 and a range of 1000, its
    deltas are 100, 800 and (1000 - 900) + 50 = 150, and its totals 100,
    900 and 100 + 800 + 150 = 1050. *)
Theorem wraparound_example :
  map prev_energy Examples.found = [0] /\
  map total_energy Examples.found = [0] /\
  exists packages samples,
    collect_samples Examples.wrapping Examples.found
      = Some (packages, samples) /\
    map (map energy_uj) samples = [[100]; [900]; [50]] /\
    map (map delta_uj) samples = [[100]; [800]; [(1000 - 900) + 50]] /\
    (1000 - 900) + 50 = 150 /\
    map (map total_uj) samples = [[100]; [900]; [100 + 800 + 150]] /\
    100 + 800 + 150 = 1050 /\
    map total_energy packages = [1050].
Proof.
  split; [reflexivity|]. split; [reflexivity|].
  destruct (collect_samples Examples.wrapping Examples.found)
    as [[packages samples]|] eqn:E; vm_compute in E; [|discriminate].
  injection E as <- <-. eexists _, _. split; [reflexivity|].
  repeat split.
Qed.

Lemma sample_package_in_range maxv env pkg :
  accumulator_in_range maxv pkg = true ->
  reading_in_range maxv env pkg = true ->
  exists pkg' r,
    sample_package env pkg = Some (pkg', r) /\
    total_energy pkg <= total_uj r /\
    total_energy pkg' = total_uj r /\
    package r = name pkg /\ name pkg' = name pkg /\
    energy_file pkg' = energy_file pkg /\
    max_energy_file pkg' = max_energy_file pkg /\
    accumulator_in_range maxv pkg' = true.
Proof.
  unfold accumulator_in_range, reading_in_range, sample_package.
  intros Hacc Hread.
  destruct (env_read_int env (max_energy_file pkg)) as [m|];
    [|discriminate].
  apply andb_true_iff in Hacc as [Hp0 Hp1].
  apply andb_true_iff in Hread as [Hread Hr1].
  apply andb_true_iff in Hread as [Hm Hr0].
  apply Z.eqb_eq in Hm. subst m.
  destruct (read_energy env pkg <? prev_energy pkg) eqn:Hwrap;
    cbn [mbind option_bind mret option_ret];
    eexists _, _; (split; [reflexivity|]); cbn;
    repeat split; try apply andb_true_iff; lia.
Qed.

Lemma collect_sample_in_range maxv env packages :
  forallb (accumulator_in_range maxv) packages = true ->
  forallb (reading_in_range maxv env) packages = true ->
  exists packages' records,
    collect_sample env packages = Some (packages', records) /\
    totals_le (map (fun p => (name p, total_energy p)) packages) records
      = true /\
    map (fun r => (package r, total_uj r)) records
      = map (fun p => (name p, total_energy p)) packages' /\
    forallb (accumulator_in_range maxv) packages' = true /\
    map energy_file packages' = map energy_file packages /\
    map max_energy_file packages' = map max_energy_file packages.
Proof.
  induction packages as [|pkg packages IH]; cbn [forallb collect_sample].
  - intros _ _. exists [], []. repeat split.
  - intros Hacc Hread.
    apply andb_true_iff in Hacc as [Hacc1 Hacc].
    apply andb_true_iff in Hread as [Hread1 Hread].
    destruct (sample_package_in_range maxv env pkg Hacc1 Hread1)
      as (pkg' & r & -> & Hle & Htot & Hname & Hname' & Hf1 & Hf2 & Hacc').
    destruct (IH Hacc Hread)
      as (pkgs' & rs & -> & Hles & Htots & Haccs & Hfs1 & Hfs2).
    exists (pkg' :: pkgs'), (r :: rs). split; [reflexivity|].
    cbn [map totals_le forallb].
    rewrite Hles, Haccs, Hacc', Htots, Hfs1, Hfs2, Hf1, Hf2, Hname, Hname',
      Htot, String.eqb_refl.
    repeat split. apply andb_true_iff. split; [|reflexivity].
    apply Z.leb_le. lia.
Qed.

Lemma reading_in_range_files maxv env (packages packages' : list Package) :
  map energy_file packages' = map energy_file packages ->
  map max_energy_file packages' = map max_energy_file packages ->
  forallb (reading_in_range maxv env) packages'
    = forallb (reading_in_range maxv env) packages.
Proof.
  revert packages'.
  induction packages as [|p packages IH]; intros [|p' packages'];
    cbn [map forallb]; try discriminate; [reflexivity|].
  intros H1 H2. injection H1 as E1 H1. injection H2 as E2 H2.
  rewrite (IH packages' H1 H2). f_equal.
  unfold reading_in_range, read_energy. rewrite E1, E2. reflexivity.
Qed.

Lemma readings_in_range_files maxv envs (packages packages' : list Package) :
  map energy_file packages' = map energy_file packages ->
  map max_energy_file packages' = map max_energy_file packages ->
  forallb (fun env => forallb (reading_in_range maxv env) packages') envs
    = forallb (fun env => forallb (reading_in_range maxv env) packages) envs.
Proof.
  intros H1 H2. induction envs as [|env envs IH]; cbn [forallb];
    [reflexivity|].
  rewrite IH, (reading_in_range_files maxv env packages packages' H1 H2).
  reflexivity.
Qed.

(** C5.  As long as the accumulated previous reading and the raw readings
    of every domain lie between 0 and the range of the domain, sampling
    never raises and, domain by domain, [total_uj] never decreases from
    what it was before the first sample and from one sample to the next;
    nothing is asked of the order of the readings, so the counter may
    wrap. *)
Theorem total_uj_non_decreasing maxv envs : forall packages,
  forallb (accumulator_in_range maxv) packages = true ->
  forallb (fun env => forallb (reading_in_range maxv env) packages) envs
    = true ->
  exists packages' samples,
    collect_samples envs packages = Some (packages', samples) /\
    non_decreasing (map (fun p => (name p, total_energy p)) packages)
                   samples = true.
Proof.
  induction envs as [|env envs IH]; intros packages Hacc Hread;
    cbn [forallb collect_samples non_decreasing] in *.
  - exists packages, []. split; reflexivity.
  - apply andb_true_iff in Hread as [Hread1 Hread].
    destruct (collect_sample_in_range maxv env packages Hacc Hread1)
      as (pkgs1 & rs & Hsample & Hle & Htots & Hacc1 & Hf1 & Hf2).
    destruct (IH pkgs1 Hacc1) as (pkgs2 & later & Hlater & Hmono).
    { rewrite <- Hread. apply readings_in_range_files; assumption. }
    exists pkgs2, (rs :: later).
    rewrite Hsample. cbn [mbind option_bind]. rewrite Hlater.
    split; [reflexivity|].
    cbn [non_decreasing]. rewrite Hle, Htots. exact Hmono.
Qed.

End EnergyCounter.

(** The readings 100, 900 and 50 with a range of 1000 include a wrap. *)
Lemma total_uj_non_decreasing_witness :
  forallb (Rapl.accumulator_in_range (fun _ => 1000)) Examples.found
    = true /\
  forallb (fun env =>
             forallb (Rapl.reading_in_range (fun _ => 1000) env)
                     Examples.found)
          Examples.wrapping = true /\
  exists packages' samples,
    Rapl.collect_samples Examples.wrapping Examples.found
      = Some (packages', samples) /\
    Rapl.non_decreasing
      (map (fun p => (Rapl.name p, Rapl.total_energy p)) Examples.found)
      samples = true.
Proof.
  split; [reflexivity|]. split; [reflexivity|].
  apply (total_uj_non_decreasing (fun _ => 1000) Examples.wrapping
           Examples.found); reflexivity.
Defined.

(** ** The logs only grow *)

Section Logs.
Context {F : Type} `{PyFloat F}.

Lemma write_sample_appends env (st st' : Rapl.LoopState) :
  LogFile.h_pos st.2.1 = length st.2.2 ->
  Rapl.write_sample env st = Some st' ->
  exists records,
    Rapl.collect_sample env st.1 = Some (st'.1, records) /\
    st'.2.2 = st.2.2 ++ records /\
    LogFile.h_pos st'.2.1 = length st'.2.2.
Proof.
  destruct st as [packages [h content]]. cbn [fst snd]. intros Hpos.
  unfold Rapl.write_sample.
  destruct (Rapl.collect_sample env packages) as [[packages' records]|];
    [|discriminate].
  cbn [mbind option_bind]. intros Hst. injection Hst as <-. cbn [fst snd].
  exists records. split; [reflexivity|].
  apply write_all_at_end. exact Hpos.
Qed.

(** The loop over the turns [ticks ++ more] goes on with [more] where the
    loop over [ticks] is still turning, and is that loop otherwise. *)
Lemma collect_loop_app duration start_time ticks more :
  forall st : Rapl.LoopState,
  Rapl.collect_loop duration start_time (ticks ++ more) st =
    match Rapl.collect_loop duration start_time ticks st with
    | (Rapl.Turning, st') => Rapl.collect_loop duration start_time more st'
    | ended => ended
    end.
Proof.
  induction ticks as [|tk ticks IH]; intros st;
    cbn [app Rapl.collect_loop]; [reflexivity|].
  destruct (Rapl.write_sample (Rapl.tick_env tk) st) as [st1|];
    [|reflexivity].
  destruct (Rapl.duration_elapsed duration start_time (Rapl.tick_now tk));
    [reflexivity|].
  destruct (Rapl.tick_interrupt tk); [reflexivity|].
  apply IH.
Qed.

(** However the loop of [collect] goes, the file it holds open keeps what
    it held and the handle stays at its end. *)
Lemma collect_loop_extends duration start_time ticks :
  forall st : Rapl.LoopState,
  LogFile.h_pos st.2.1 = length st.2.2 ->
  exists suffix,
    (Rapl.collect_loop duration start_time ticks st).2.2.2
      = st.2.2 ++ suffix /\
    LogFile.h_pos (Rapl.collect_loop duration start_time ticks st).2.2.1
      = length (Rapl.collect_loop duration start_time ticks st).2.2.2.
Proof.
  induction ticks as [|tk ticks IH]; intros st Hpos;
    cbn [Rapl.collect_loop].
  - exists []. rewrite app_nil_r. auto.
  - destruct (Rapl.write_sample (Rapl.tick_env tk) st) as [st1|] eqn:E1.
    + destruct (write_sample_appends _ st st1 Hpos E1)
        as (records & _ & Happ & Hpos1).
      assert (Hone : exists suffix,
                st1.2.2 = st.2.2 ++ suffix /\
                LogFile.h_pos st1.2.1 = length st1.2.2) by eauto.
      destruct (Rapl.duration_elapsed duration start_time
                  (Rapl.tick_now tk)); [exact Hone|].
      destruct (Rapl.tick_interrupt tk); [exact Hone|].
      destruct (IH st1 Hpos1) as (suffix & Hs & Hp).
      exists (records ++ suffix). split; [|exact Hp].
      rewrite Hs, Happ, app_assoc. reflexivity.
    + cbn [fst snd]. exists []. rewrite app_nil_r. auto.
Qed.

(** [collect] opens its output file with mode ['w']: what the file held
    before does not matter to what it holds afterwards. *)
Lemma collect_starts_afresh duration start_time env0 ticks pkg packages
    (log : list Rapl.EnergyRecord) :
  Rapl.collect duration start_time env0 ticks (pkg :: packages) log
    = Rapl.collect duration start_time env0 ticks (pkg :: packages) [].
Proof. reflexivity. Qed.

(** C2, as amended.  A flush of the state collector leaves the log as it
    was and puts the buffer behind it, so over any run of snapshots the log
    only grows at its end.  In the energy collector, while the loop of
    [collect] is turning, one more turn leaves the content of the output
    file as it was and puts the records of its sample behind it (nothing
    when the sample raises); so the content of the file at any moment of a
    run of [collect] is still there, in place, at any later moment of that
    run.  What the file held before [collect] opened it is not spoken of
    here ([collect_starts_afresh]). *)
Theorem logs_append_only :
  (forall w : StateCollector.World F,
     (StateCollector.flush_buffer w).2
       = w.2 ++ StateCollector.data_buffer w.1) /\
  (forall envs (w : StateCollector.World F),
     exists suffix, (StateCollector.snapshots envs w).2 = w.2 ++ suffix) /\
  (forall duration (start_time : F) env0 ticks tk packages log,
     (Rapl.collect duration start_time env0 ticks packages log).1
       = Rapl.Turning ->
     (Rapl.collect duration start_time env0 (ticks ++ [tk]) packages log).2.2
       = (Rapl.collect duration start_time env0 ticks packages log).2.2
         ++ match Rapl.collect_sample
                    (Rapl.tick_env tk)
                    (Rapl.collect duration start_time env0 ticks
                                  packages log).2.1
            with
            | Some (_, records) => records
            | None => []
            end) /\
  (forall duration (start_time : F) env0 ticks more packages log,
     exists suffix,
       (Rapl.collect duration start_time env0 (ticks ++ more)
                     packages log).2.2
         = (Rapl.collect duration start_time env0 ticks packages log).2.2
           ++ suffix).
Proof.
  split; [|split; [|split]].
  - intros [self log]. apply flush_buffer_log.
  - apply snapshots_log.
  - intros duration start_time env0 ticks tk packages log.
    unfold Rapl.collect.
    destruct packages as [|pkg packages]; [discriminate|].
    rewrite collect_loop_app.
    match goal with
    | |- context [Rapl.collect_loop duration start_time ticks ?st0] =>
        destruct (collect_loop_extends duration start_time ticks st0)
          as (_ & _ & Hpos); [reflexivity|];
        destruct (Rapl.collect_loop duration start_time ticks st0)
          as [status [pkgs f]]
    end.
    cbn [fst snd] in *. intros ->. cbn [Rapl.collect_loop].
    destruct (Rapl.write_sample (Rapl.tick_env tk) (pkgs, f))
      as [[pkgs1 f1]|] eqn:E1.
    + destruct (write_sample_appends _ (pkgs, f) (pkgs1, f1) Hpos E1)
        as (records & Hrec & Happ & _).
      cbn [fst snd] in Hrec, Happ. rewrite Hrec.
      destruct (Rapl.duration_elapsed duration start_time
                  (Rapl.tick_now tk));
        [|destruct (Rapl.tick_interrupt tk)]; exact Happ.
    + unfold Rapl.write_sample in E1.
      destruct (Rapl.collect_sample (Rapl.tick_env tk) pkgs)
        as [[pkgs1 records]|]; [discriminate|].
      cbn [fst snd]. rewrite app_nil_r. reflexivity.
  - intros duration start_time env0 ticks more packages log.
    unfold Rapl.collect.
    destruct packages as [|pkg packages];
      [exists []; rewrite app_nil_r; reflexivity|].
    rewrite collect_loop_app.
    match goal with
    | |- context [Rapl.collect_loop duration start_time ticks ?st0] =>
        destruct (collect_loop_extends duration start_time ticks st0)
          as (_ & _ & Hpos); [reflexivity|];
        destruct (Rapl.collect_loop duration start_time ticks st0)
          as [status [pkgs f]]
    end.
    cbn [fst snd] in Hpos.
    destruct status;
      try (exists []; cbn [fst snd]; rewrite app_nil_r; reflexivity).
    destruct (collect_loop_extends duration start_time more (pkgs, f) Hpos)
      as (suffix & Hs & _).
    destruct (Rapl.collect_loop duration start_time more (pkgs, f))
      as [status' [pkgs' f']].
    exists suffix. exact Hs.
Qed.

End Logs.

(** With two samples of a run written, the loop still turning, the third
    sample is put behind them. *)
Lemma logs_append_only_witness :
  (Rapl.collect None 0%Q (Rapl.reading_env 1000 0)
                (firstn 2 Examples.energy_turns) Examples.found
                Examples.earlier_run).1 = Rapl.Turning /\
  (Rapl.collect None 0%Q (Rapl.reading_env 1000 0)
                (firstn 2 Examples.energy_turns
                 ++ skipn 2 Examples.energy_turns)
                Examples.found Examples.earlier_run).2.2
    = (Rapl.collect None 0%Q (Rapl.reading_env 1000 0)
                    (firstn 2 Examples.energy_turns) Examples.found
                    Examples.earlier_run).2.2
      ++ match Rapl.collect_sample
                 (Rapl.reading_env 1000 50)
                 (Rapl.collect None 0%Q (Rapl.reading_env 1000 0)
                               (firstn 2 Examples.energy_turns)
                               Examples.found Examples.earlier_run).2.1
         with
         | Some (_, records) => records
         | None => []
         end.
Proof.
  split; [vm_compute; reflexivity|].
  destruct (@logs_append_only Q _) as (_ & _ & Hturn & _).
  apply (Hturn None 0%Q (Rapl.reading_env 1000 0)
           (firstn 2 Examples.energy_turns)
           {| Rapl.tick_env := Rapl.reading_env 1000 50;
              Rapl.tick_now := 0%Q; Rapl.tick_interrupt := false |}
           Examples.found Examples.earlier_run).
  vm_compute; reflexivity.
Defined.

(** The record that an earlier run left in the output file is gone once
    [collect] has run for one turn on it: the file holds the record of that
    turn and nothing else, so it is not the earlier content with something
    behind it. *)
Lemma logs_truncated_counterexample :
  (Rapl.collect None 0%Q (Rapl.reading_env 1000 0)
                (firstn 1 Examples.energy_turns) Examples.found
                Examples.earlier_run).2.2
    = [{| Rapl.timestamp := 0; Rapl.package := "package-0"%string;
          Rapl.energy_uj := 100; Rapl.delta_uj := 100;
          Rapl.total_uj := 100 |}] /\
  ~ (exists suffix,
       (Rapl.collect None 0%Q (Rapl.reading_env 1000 0)
                     (firstn 1 Examples.energy_turns) Examples.found
                     Examples.earlier_run).2.2
         = Examples.earlier_run ++ suffix).
Proof.
  split; [vm_compute; reflexivity|].
  intros [suffix Hs]. vm_compute in Hs. discriminate Hs.
Qed.

(** ** The merge stage *)

Section NearestJoin.
Import Merge.
Context {C : Type}.
Implicit Types (r x e : Row C) (l right : list (Row C)) (t : Z).

Lemma insert_row_In r x l : In x (insert_row r l) <-> x = r \/ In x l.
Proof.
  induction l as [|y l IH]; cbn [insert_row]; [simpl; intuition|].
  destruct (ts r <? ts y); simpl in *; intuition.
Qed.

Lemma sort_values_In x l : In x (sort_values l) <-> In x l.
Proof.
  unfold sort_values.
  induction l as [|y l IH]; cbn [fold_right]; [reflexivity|].
  rewrite insert_row_In, IH. simpl. intuition.
Qed.

Lemma insert_row_sorted r l :
  StronglySorted by_ts l -> StronglySorted by_ts (insert_row r l).
Proof.
  induction 1 as [|y l Hs IH Hall]; cbn [insert_row].
  - repeat constructor.
  - destruct (Z.ltb_spec (ts r) (ts y)) as [Hlt|Hge].
    + constructor; [constructor; assumption|].
      constructor; [unfold by_ts; lia|].
      eapply Forall_impl; [exact Hall|]. unfold by_ts. intros; simpl in *; lia.
    + constructor; [exact IH|].
      apply List.Forall_forall. intros e He.
      apply insert_row_In in He as [->|He].
      * exact Hge.
      * rewrite List.Forall_forall in Hall. apply Hall, He.
Qed.

Lemma sort_values_sorted l : StronglySorted by_ts (sort_values l).
Proof.
  unfold sort_values.
  induction l as [|y l IH]; cbn [fold_right]; [constructor|].
  apply insert_row_sorted, IH.
Qed.

Lemma insert_row_length r l : length (insert_row r l) = S (length l).
Proof.
  induction l as [|y l IH]; cbn [insert_row]; [reflexivity|].
  destruct (ts r <? ts y); simpl; auto.
Qed.

Lemma sort_values_length l : length (sort_values l) = length l.
Proof.
  unfold sort_values.
  induction l as [|y l IH]; cbn [fold_right]; [reflexivity|].
  rewrite insert_row_length, IH. reflexivity.
Qed.

Lemma forward_match_spec t right :
  StronglySorted by_ts right ->
  match forward_match t right with
  | Some f =>
      In f right /\ t <= ts f /\
      forall e, In e right -> t <= ts e -> ts f <= ts e
  | None => forall e, In e right -> ts e < t
  end.
Proof.
  unfold forward_match.
  induction 1 as [|x l Hs IH Hall]; cbn [List.filter]; [intros e []|].
  rewrite List.Forall_forall in Hall. unfold by_ts in Hall.
  destruct (Z.leb_spec t (ts x)) as [Hle|Hgt].
  - cbn [head]. split; [left; reflexivity|]. split; [exact Hle|].
    intros e [<-|He] _; [lia|]. apply Hall, He.
  - destruct (head (List.filter (fun r => t <=? ts r) l)) as [f|].
    + destruct IH as (Hin & Hf & Hmin). split; [right; exact Hin|].
      split; [exact Hf|]. intros e [<-|He] Hte; [lia|]. auto.
    + intros e [<-|He]; [lia|]. auto.
Qed.

Lemma backward_match_spec t right :
  StronglySorted by_ts right ->
  match backward_match t right with
  | Some b =>
      In b right /\ ts b <= t /\
      forall e, In e right -> ts e <= t -> ts e <= ts b
  | None => forall e, In e right -> t < ts e
  end.
Proof.
  unfold backward_match.
  induction 1 as [|x l Hs IH Hall]; cbn [List.filter]; [intros e []|].
  rewrite List.Forall_forall in Hall. unfold by_ts in Hall.
  destruct (Z.leb_spec (ts x) t) as [Hle|Hgt].
  - rewrite last_cons.
    destruct (last (List.filter (fun r => ts r <=? t) l)) as [b|].
    + destruct IH as (Hin & Hb & Hmax). split; [right; exact Hin|].
      split; [exact Hb|]. intros e [<-|He] Het; [apply Hall, Hin|auto].
    + split; [left; reflexivity|]. split; [exact Hle|].
      intros e [<-|He] Het; [lia|]. specialize (IH e He). lia.
  - destruct (last (List.filter (fun r => ts r <=? t) l)) as [b|].
    + destruct IH as (Hin & Hb & Hmax). split; [right; exact Hin|].
      split; [exact Hb|]. intros e [<-|He] Het; [lia|auto].
    + intros e [<-|He]; [lia|auto].
Qed.

(** In a sorted frame the row selected is at the least distance. *)
Lemma nearest_match_spec t right :
  StronglySorted by_ts right ->
  match nearest_match t right with
  | Some m =>
      In m right /\
      forall e, In e right -> Z.abs (ts m - t) <= Z.abs (ts e - t)
  | None => right = []
  end.
Proof.
  intros Hs. unfold nearest_match.
  pose proof (backward_match_spec t right Hs) as Hb.
  pose proof (forward_match_spec t right Hs) as Hf.
  destruct (backward_match t right) as [b|], (forward_match t right) as [f|].
  - destruct Hb as (Hbin & Hbt & Hbmax), Hf as (Hfin & Hft & Hfmin).
    destruct (Z.leb_spec (t - ts b) (ts f - t)) as [Hle|Hgt];
      (split; [assumption|]); intros e He;
      destruct (Z_le_gt_dec (ts e) t) as [Het|Het];
      [ specialize (Hbmax e He Het) | specialize (Hfmin e He ltac:(lia))
      | specialize (Hbmax e He Het) | specialize (Hfmin e He ltac:(lia)) ];
      lia.
  - destruct Hb as (Hbin & Hbt & Hbmax). split; [assumption|].
    intros e He. specialize (Hf e He). specialize (Hbmax e He ltac:(lia)).
    lia.
  - destruct Hf as (Hfin & Hft & Hfmin). split; [assumption|].
    intros e He. specialize (Hb e He). specialize (Hfmin e He ltac:(lia)).
    lia.
  - destruct right as [|e right]; [reflexivity|].
    specialize (Hb e ltac:(left; reflexivity)).
    specialize (Hf e ltac:(left; reflexivity)). lia.
Qed.

End NearestJoin.

Section MergeMain.
Import Merge.
Context {S P R : Type}.

Lemma main_rows (state : list (Row S)) (pmc : list (Row P))
    (rapl : list (Row R)) :
  main state pmc rapl =
    map (fun s =>
           {| ts := ts s;
              columns := (columns s,
                          nearest_match (ts s) (sort_values pmc),
                          nearest_match (ts s) (sort_values rapl)) |})
        (sort_values state).
Proof.
  unfold main, merge_asof. rewrite map_map. reflexivity.
Qed.

End MergeMain.

(** C8.  [main] yields one row per state record, in the order of their
    timestamps, each with the record of the counter stream and the record
    of the energy stream whose timestamp is at the least distance from its
    own (none only when that stream is empty).  For state timestamps 10, 20
    and 30 and energy timestamps 9 and 21, the energy records selected are
    those at 9, 21 and 21, whatever the counter stream. *)
Theorem nearest_timestamp_join :
  (forall (S P R : Type) (state : list (Merge.Row S))
          (pmc : list (Merge.Row P)) (rapl : list (Merge.Row R)),
     let merged := Merge.main state pmc rapl in
     map (fun row => (Merge.ts row, (Merge.columns row).1.1)) merged
       = map (fun s => (Merge.ts s, Merge.columns s))
             (Merge.sort_values state) /\
     Forall (fun row =>
               match (Merge.columns row).1.2 with
               | Some m =>
                   In m pmc /\
                   forall e, In e pmc ->
                     Z.abs (Merge.ts m - Merge.ts row)
                       <= Z.abs (Merge.ts e - Merge.ts row)
               | None => pmc = []
               end /\
               match (Merge.columns row).2 with
               | Some m =>
                   In m rapl /\
                   forall e, In e rapl ->
                     Z.abs (Merge.ts m - Merge.ts row)
                       <= Z.abs (Merge.ts e - Merge.ts row)
               | None => rapl = []
               end)
            merged) /\
  (forall (P : Type) (pmc : list (Merge.Row P)),
     map (fun row =>
            (Merge.ts row, option_map Merge.ts (Merge.columns row).2))
         (Merge.main Examples.state_stream pmc Examples.energy_stream)
       = [(10, Some 9); (20, Some 21); (30, Some 21)]).
Proof.
  split.
  - intros S P R state pmc rapl merged. subst merged.
    rewrite main_rows, map_map. split; [reflexivity|].
    apply List.Forall_forall. intros row Hrow.
    apply in_map_iff in Hrow as (s & <- & _). cbn [Merge.ts Merge.columns fst snd].
    pose proof (nearest_match_spec (Merge.ts s) (Merge.sort_values pmc)
                  (sort_values_sorted pmc)) as Hp.
    pose proof (nearest_match_spec (Merge.ts s) (Merge.sort_values rapl)
                  (sort_values_sorted rapl)) as Hr.
    split.
    + destruct (Merge.nearest_match (Merge.ts s) (Merge.sort_values pmc))
        as [m|].
      * destruct Hp as [Hin Hmin]. split; [apply sort_values_In, Hin|].
        intros e He. apply Hmin, sort_values_In, He.
      * destruct pmc as [|x pmc]; [reflexivity|].
        pose proof (sort_values_length (x :: pmc)) as Hlen.
        rewrite Hp in Hlen. discriminate.
    + destruct (Merge.nearest_match (Merge.ts s) (Merge.sort_values rapl))
        as [m|].
      * destruct Hr as [Hin Hmin]. split; [apply sort_values_In, Hin|].
        intros e He. apply Hmin, sort_values_In, He.
      * destruct rapl as [|x rapl]; [reflexivity|].
        pose proof (sort_values_length (x :: rapl)) as Hlen.
        rewrite Hr in Hlen. discriminate.
  - intros P pmc. rewrite main_rows, map_map. reflexivity.
Qed.

(** ** More about the snapshot *)

Section SnapshotRecords.
Import StateCollector Measures.
Context {F : Type} `{PyFloat F}.
Implicit Types (self : Collector F) (env : SnapshotEnv F)
  (r : MigrationRecord F) (records : list (MigrationRecord F)).

Lemma observe_fold_emitted_by env times counts items : forall self,
  data_buffer (fold_left (observe env times counts) items self)
    = data_buffer self ++ emitted_by env times counts self items.
Proof.
  induction items as [|item items IH]; intros self;
    cbn [fold_left emitted_by].
  - rewrite app_nil_r. reflexivity.
  - rewrite IH.
    destruct (observe_effect env times counts self item) as (-> & _).
    rewrite <- app_assoc. reflexivity.
Qed.

Lemma observe_all_records env self :
  data_buffer (observe_all env self)
    = data_buffer self ++ snapshot_records env self.
Proof.
  unfold observe_all, snapshot_records, current_tasks, scanned_info.
  destruct (scan env self) as [[cur counts] info]. cbn [fst snd].
  exact (observe_fold_emitted_by env (env_cpu_times env) counts
           (PyDict.items cur) (with_task_info self info)).
Qed.

(** The records of a snapshot are what it adds to the log and buffer. *)
Lemma take_snapshot_records env (w : World F) :
  persisted (take_snapshot env w) = persisted w ++ snapshot_records env w.1.
Proof.
  destruct w as [self log].
  destruct (take_snapshot_effect env self log) as (-> & _).
  rewrite observe_all_records. unfold persisted. cbn [fst snd].
  apply app_assoc.
Qed.

Lemma positives_app records1 records2 :
  positives (records1 ++ records2) = positives records1 + positives records2.
Proof.
  unfold positives. rewrite filter_app, length_app. lia.
Qed.

Lemma negatives_app records1 records2 :
  negatives (records1 ++ records2) = negatives records1 + negatives records2.
Proof.
  unfold negatives. rewrite filter_app, length_app. lia.
Qed.

Lemma observed_record_counts env times counts self item :
  let new := option_list (observed_record env times counts self item) in
  positives new + negatives new = Z.of_nat (length new) /\
  (positives new = 1 /\ negatives new = 0 \/
   positives new = 0 /\ negatives new = 1 \/ new = []).
Proof.
  cbv zeta.
  destruct (observed_record env times counts self item) as [r|] eqn:Er.
  - change (option_list (Some r)) with [r].
    destruct item as [p c].
    apply observed_record_cases in Er
      as (prev & Hprev & Hpid & Hcomm
          & [(Hne & Hd & Hrest)|(Heq & Hmod & Hd & Hrest)]);
      unfold positives, negatives; rewrite !filter_cons, !filter_nil;
      repeat case_decide; try lia; cbn [length]; split; auto; lia.
  - change (option_list None) with (@nil (MigrationRecord F)).
    split; [reflexivity|auto].
Qed.

Lemma observe_counts env times counts self item :
  let self' := observe env times counts self item in
  let new := option_list (observed_record env times counts self item) in
  positive (stats self') = positive (stats self) + positives new /\
  negative (stats self') = negative (stats self) + negatives new.
Proof.
  cbv zeta.
  assert (Hnone : forall s : Stats,
            positive (bump_total s)
              = positive s + positives (@nil (MigrationRecord F)) /\
            negative (bump_total s)
              = negative s + negatives (@nil (MigrationRecord F))).
  { intros s. unfold positives, negatives. rewrite !filter_nil.
    cbn. split; lia. }
  destruct item as [p c]. unfold observe, observed_record. cbn [fst snd].
  destruct (PyDict.get (task_locations self) p) as [prev|];
    [|apply Hnone].
  destruct (negb (prev =? c)).
  - destruct (create_record env self p prev c true times counts) as [r|]
      eqn:Er; [|apply Hnone].
    apply create_record_fields in Er as (_ & _ & _ & Hd & _).
    change (option_list (Some r)) with [r].
    cbn [emit stats with_stats with_buffer positive negative
         bump_total bump_positive].
    unfold positives, negatives. rewrite !filter_cons, !filter_nil.
    repeat case_decide; try lia; cbn [length]; split; lia.
  - destruct (total (stats self) mod 5 =? 0); [|apply Hnone].
    destruct (create_record env self p c _ false times counts) as [r|]
      eqn:Er; [|apply Hnone].
    apply create_record_fields in Er as (_ & _ & _ & Hd & _).
    change (option_list (Some r)) with [r].
    cbn [emit stats with_stats with_buffer positive negative
         bump_total bump_negative].
    unfold positives, negatives. rewrite !filter_cons, !filter_nil.
    repeat case_decide; try lia; cbn [length]; split; lia.
Qed.

Lemma emitted_by_counts env times counts items : forall self,
  let self' := fold_left (observe env times counts) items self in
  let emitted := emitted_by env times counts self items in
  positive (stats self') = positive (stats self) + positives emitted /\
  negative (stats self') = negative (stats self) + negatives emitted /\
  positives emitted + negatives emitted = Z.of_nat (length emitted) /\
  Z.of_nat (length emitted) <= Z.of_nat (length items).
Proof.
  induction items as [|item items IH]; intros self;
    cbn [fold_left emitted_by]; cbv zeta.
  - unfold positives, negatives. rewrite !filter_nil. cbn [length].
    repeat split; lia.
  - destruct (IH (observe env times counts self item))
      as (Hp & Hn & Hsum & Hlen).
    destruct (observe_counts env times counts self item) as (Hp1 & Hn1).
    destruct (observed_record_counts env times counts self item)
      as (Hsum1 & Hone).
    rewrite Hp, Hn, Hp1, Hn1, positives_app, negatives_app, length_app.
    cbn [length].
    assert (Z.of_nat
              (length (option_list
                         (observed_record env times counts self item))) <= 1).
    { destruct (observed_record env times counts self item) as [m|];
        [change (option_list (Some m)) with [m]
        |change (option_list None) with (@nil (MigrationRecord F))];
        cbn [length]; lia. }
    repeat split; lia.
Qed.

Lemma take_snapshot_counts env (w : World F) :
  let w' := take_snapshot env w in
  let emitted := snapshot_records env w.1 in
  positive (stats w'.1) = positive (stats w.1) + positives emitted /\
  negative (stats w'.1) = negative (stats w.1) + negatives emitted /\
  positives emitted + negatives emitted = Z.of_nat (length emitted) /\
  Z.of_nat (length emitted)
    <= Z.of_nat (length (PyDict.items (current_tasks env w.1))) /\
  total (stats w'.1) =
    total (stats w.1)
    + Z.of_nat (length (PyDict.items (current_tasks env w.1))).
Proof.
  destruct w as [self log]. cbv zeta. cbn [fst].
  destruct (take_snapshot_effect env self log) as (_ & _ & -> & _).
  destruct (observe_all_fold (fun _ => True) env self) as (_ & Htot & _);
    [auto|].
  rewrite Htot. clear Htot.
  unfold observe_all, snapshot_records, current_tasks, scanned_info.
  destruct (scan env self) as [[cur counts] info]. cbn [fst snd].
  destruct (emitted_by_counts env (env_cpu_times env) counts
              (PyDict.items cur) (with_task_info self info))
    as (Hp & Hn & Hsum & Hlen).
  repeat split; assumption.
Qed.

(** X1.  Over any run of snapshots the counters [positive] and [negative]
    grow by the numbers of [decision = 1] and of [decision = 0] records
    produced, and every record produced is of one of the two kinds. *)
Theorem counters_match_records envs : forall w : World F,
  exists emitted,
    persisted (snapshots envs w) = persisted w ++ emitted /\
    positive (stats (snapshots envs w).1)
      = positive (stats w.1) + positives emitted /\
    negative (stats (snapshots envs w).1)
      = negative (stats w.1) + negatives emitted /\
    positives emitted + negatives emitted = Z.of_nat (length emitted).
Proof.
  unfold snapshots.
  induction envs as [|env envs IH]; intros w; cbn [fold_left].
  - exists []. rewrite app_nil_r. unfold positives, negatives.
    rewrite !filter_nil. cbn [length]. repeat split; lia.
  - destruct (IH (take_snapshot env w)) as (e2 & Hp2 & Hpos & Hneg & Hsum).
    destruct (take_snapshot_counts env w) as (Hpos1 & Hneg1 & Hsum1 & _).
    exists (snapshot_records env w.1 ++ e2).
    rewrite Hp2, take_snapshot_records, <- app_assoc.
    rewrite Hpos, Hneg, Hpos1, Hneg1, positives_app, negatives_app,
      length_app.
    repeat split; lia.
Qed.

(** X2.  Over any run of snapshots the counter [total] grows by the number
    of turns of the second loop, one for each task of each sample, and at
    most one record is produced for each of them. *)
Theorem total_counts_observations envs : forall w : World F,
  total (stats (snapshots envs w).1)
    = total (stats w.1) + observations envs w /\
  exists emitted,
    persisted (snapshots envs w) = persisted w ++ emitted /\
    Z.of_nat (length emitted) <= observations envs w.
Proof.
  unfold snapshots.
  induction envs as [|env envs IH]; intros w;
    cbn [fold_left observations].
  - split; [lia|]. exists []. rewrite app_nil_r. cbn [length].
    split; [reflexivity|lia].
  - destruct (IH (take_snapshot env w)) as (Htot & e2 & Hp2 & Hlen).
    destruct (take_snapshot_counts env w) as (_ & _ & _ & Hlen1 & Htot1).
    split; [rewrite Htot, Htot1; lia|].
    exists (snapshot_records env w.1 ++ e2).
    rewrite Hp2, take_snapshot_records, <- app_assoc, length_app.
    split; [reflexivity|lia].
Qed.

Lemma observe_all_fields env self :
  task_info (observe_all env self) = scanned_info env self /\
  buffer_size (observe_all env self) = buffer_size self /\
  num_cpus (observe_all env self) = num_cpus self.
Proof.
  unfold observe_all, scanned_info.
  destruct (scan env self) as [[cur counts] info]. cbn [fst snd].
  destruct (observe_fold (fun _ => True) env (env_cpu_times env) counts
              (PyDict.items cur) (with_task_info self info))
    as (_ & _ & _ & Hti & Hn & _ & Hbs); auto.
Qed.

(** The collector and the log after a snapshot, field by field. *)
Lemma take_snapshot_fields env self log :
  let w' := take_snapshot env (self, log) in
  let b := data_buffer self ++ snapshot_records env self in
  task_locations w'.1 = current_tasks env self /\
  task_info w'.1 =
    filter (fun kv : Z * task_entry F =>
              PyDict.mem (current_tasks env self) kv.1 = true)
           (scanned_info env self) /\
  buffer_size w'.1 = buffer_size self /\
  data_buffer w'.1 =
    (if buffer_size self <=? Z.of_nat (length b) then [] else b) /\
  w'.2 = (if buffer_size self <=? Z.of_nat (length b) then log ++ b
          else log).
Proof.
  cbv zeta.
  destruct (observe_all_fields env self) as (Hti & Hbs & _).
  pose proof (observe_all_records env self) as Hbuf.
  unfold take_snapshot, current_tasks.
  destruct (scan env self) as [[cur counts] info] eqn:Escan.
  cbn [fst snd buffer_size data_buffer task_info with_prev_cpu_times
       with_task_info with_task_locations].
  rewrite Hti, Hbs, Hbuf, Z.geb_leb.
  destruct (buffer_size self
              <=? Z.of_nat (length (data_buffer self
                                    ++ snapshot_records env self))).
  - match goal with
    | |- context [flush_buffer (?x, ?l)] =>
        destruct (flush_buffer_fields x l) as (E1 & E2 & _ & _ & _ & E6);
        rewrite E1, E2, E6, (flush_buffer_buffer x l),
          (flush_buffer_log x l)
    end.
    cbn [fst snd buffer_size data_buffer task_info task_locations
         with_prev_cpu_times with_task_info with_task_locations].
    rewrite ?Hbs, ?Hbuf. auto.
  - cbn [fst snd buffer_size data_buffer task_info task_locations
         with_prev_cpu_times with_task_info with_task_locations].
    rewrite ?Hbs, ?Hbuf. auto.
Qed.

(** X3.  [take_snapshot] flushes exactly when the buffer, with the records
    of the snapshot added, has reached [buffer_size]: then the whole buffer
    goes behind the log and the buffer is left empty; otherwise the log is
    untouched and the records stay in the buffer. *)
Theorem flush_at_threshold env (w : World F) :
  exists emitted,
    persisted (take_snapshot env w) = persisted w ++ emitted /\
    (buffer_size w.1 <= Z.of_nat (length (data_buffer w.1 ++ emitted)) ->
     (take_snapshot env w).2 = w.2 ++ data_buffer w.1 ++ emitted /\
     data_buffer (take_snapshot env w).1 = []) /\
    (Z.of_nat (length (data_buffer w.1 ++ emitted)) < buffer_size w.1 ->
     (take_snapshot env w).2 = w.2 /\
     data_buffer (take_snapshot env w).1 = data_buffer w.1 ++ emitted).
Proof.
  exists (snapshot_records env w.1).
  split; [apply take_snapshot_records|].
  destruct w as [self log]. cbn [fst snd].
  destruct (take_snapshot_fields env self log) as (_ & _ & _ & Hb & Hl).
  rewrite Hb, Hl.
  split; intros Hsize.
  - apply Z.leb_le in Hsize. rewrite Hsize. auto.
  - apply Z.leb_gt in Hsize. rewrite Hsize. auto.
Qed.

Lemma take_snapshot_buffer_bound env (w : World F) :
  0 < buffer_size w.1 ->
  buffer_size (take_snapshot env w).1 = buffer_size w.1 /\
  Z.of_nat (length (data_buffer (take_snapshot env w).1)) < buffer_size w.1.
Proof.
  destruct w as [self log]. cbn [fst]. intros Hpos.
  destruct (take_snapshot_fields env self log) as (_ & _ & Hbs & Hb & _).
  rewrite Hbs, Hb. split; [reflexivity|].
  destruct (Z.leb_spec (buffer_size self)
              (Z.of_nat (length (data_buffer self
                                 ++ snapshot_records env self))));
    [cbn [length]; lia|lia].
Qed.

(** X4.  A collector made by [__init__] never holds 50 records or more in
    its buffer between two snapshots. *)
Theorem buffer_below_threshold ncpus times log envs :
  Z.of_nat (length (data_buffer (snapshots envs (init ncpus times, log)).1))
    < 50.
Proof.
  assert (Hgen : forall (w : World F),
            buffer_size w.1 = 50 ->
            Z.of_nat (length (data_buffer w.1)) < 50 ->
            Z.of_nat (length (data_buffer (snapshots envs w).1)) < 50).
  { unfold snapshots.
    induction envs as [|env envs IH]; intros w Hbs Hlen; cbn [fold_left];
      [exact Hlen|].
    destruct (take_snapshot_buffer_bound env w) as (Hbs' & Hlen'); [lia|].
    apply IH; lia. }
  apply Hgen; cbn; [reflexivity|lia].
Qed.

(** X5.  After a snapshot, [task_info] has an entry for exactly the pids
    that the tracker holds, those of the sample; and the entry of a pid
    that the sample still shows is the one [task_info] had (name and first
    sighting are kept as long as the task stays in sight). *)
Theorem task_info_follows_sample env (w : World F) :
  (forall p,
     is_Some (task_info (take_snapshot env w).1 !! p) <->
     is_Some (PyDict.get (task_locations (take_snapshot env w).1) p)) /\
  (forall p e,
     task_info w.1 !! p = Some e ->
     is_Some (PyDict.get (current_tasks env w.1) p) ->
     task_info (take_snapshot env w).1 !! p = Some e).
Proof.
  destruct w as [self log]. cbn [fst].
  destruct (take_snapshot_fields env self log) as (-> & -> & _).
  destruct (scan_invariant env (num_cpus self) (task_info self)
              (env_processes env)) as (_ & _ & Hinfo & _ & Hkeep).
  fold (scan env self) in Hinfo, Hkeep.
  fold (current_tasks env self) in Hinfo.
  fold (scanned_info env self) in Hinfo, Hkeep.
  split.
  - intros p. split.
    + intros [e He]. apply map_lookup_filter_Some in He as [_ Hmem].
      cbn [fst] in Hmem. unfold PyDict.mem in Hmem.
      destruct (PyDict.get (current_tasks env self) p); [eauto|discriminate].
    + intros [c Hc]. destruct (Hinfo p c Hc) as [e He].
      exists e. apply map_lookup_filter_Some. split; [exact He|].
      cbn [fst]. unfold PyDict.mem. rewrite Hc. reflexivity.
  - intros p e He [c Hc]. apply map_lookup_filter_Some.
    split; [apply Hkeep, He|].
    cbn [fst]. unfold PyDict.mem. rewrite Hc. reflexivity.
Qed.

Lemma take_snapshot_tracker env (w : World F) :
  List.NoDup (PyDict.keys (task_locations (take_snapshot env w).1)) /\
  (forall p c,
     PyDict.get (task_locations (take_snapshot env w).1) p = Some c ->
     0 <= c < num_cpus w.1).
Proof.
  destruct w as [self log]. cbn [fst].
  destruct (take_snapshot_fields env self log) as (-> & _).
  destruct (scan_invariant env (num_cpus self) (task_info self)
              (env_processes env)) as (Hnd & Hcur & _).
  split; [exact Hnd|].
  intros p c Hc. destruct (Hcur p c Hc) as (proc & _ & _ & Hcpu & Hadm).
  exact (admitted_range _ _ _ Hcpu Hadm).
Qed.

(** X6.  After a snapshot the tracker holds each pid once, with a cpu in
    [0, num_cpus). *)
Theorem tracker_holds_valid_cpus env (w : World F) :
  List.NoDup (PyDict.keys (task_locations (take_snapshot env w).1)) /\
  (forall p c,
     PyDict.get (task_locations (take_snapshot env w).1) p = Some c ->
     0 <= c < num_cpus (take_snapshot env w).1).
Proof.
  rewrite take_snapshot_num_cpus. apply take_snapshot_tracker.
Qed.

Lemma get_cpu_load_ext self self' cpu_id (times : list (scputimes F)) :
  prev_cpu_times self' = prev_cpu_times self ->
  get_cpu_load self' cpu_id times = get_cpu_load self cpu_id times.
Proof. unfold get_cpu_load. intros ->. reflexivity. Qed.

Lemma create_record_ext env self self' p src dst migrated
    (times : list (scputimes F)) counts :
  task_info self' = task_info self ->
  prev_cpu_times self' = prev_cpu_times self ->
  create_record env self' p src dst migrated times counts
    = create_record env self p src dst migrated times counts.
Proof.
  intros Hti Hpt. unfold create_record.
  rewrite !(get_cpu_load_ext self self') by exact Hpt. rewrite Hti.
  reflexivity.
Qed.

(** The pids of the records follow the items of the loop. *)
Lemma emitted_by_pids env times counts items : forall self,
  map pid (emitted_by env times counts self items)
    `sublist_of` map fst items.
Proof.
  induction items as [|[p c] items IH]; intros self;
    cbn [emitted_by map fst]; [constructor|].
  destruct (observed_record env times counts self (p, c)) as [r|] eqn:Er.
  - change (option_list (Some r)) with [r]. cbn [app map].
    apply observed_record_cases in Er as (prev & _ & -> & _).
    apply sublist_skip, IH.
  - change (option_list None) with (@nil (MigrationRecord F)).
    cbn [app]. apply sublist_cons, IH.
Qed.

(** A task found on another cpu than the tracker has for it is
    recorded. *)
Lemma emitted_by_migration `{!PyFloatLaws F} env times counts items :
  forall self p prev c,
  In (p, c) items ->
  PyDict.get (task_locations self) p = Some prev ->
  prev <> c -> 0 <= prev -> 0 <= c ->
  exists r,
    In r (emitted_by env times counts self items) /\
    pid r = p /\ decision r = 1 /\ src_cpu r = prev /\ dst_cpu r = c.
Proof.
  induction items as [|item items IH]; intros self p prev c Hin Hprev Hne
    Hp0 Hc0; [destruct Hin|].
  cbn [emitted_by]. destruct Hin as [->|Hin].
  - destruct (create_record_total env self p prev c true times counts Hp0 Hc0)
      as [r Hr].
    assert (Hobs : observed_record env times counts self (p, c) = Some r).
    { unfold observed_record. cbn [fst snd]. rewrite Hprev.
      destruct (Z.eqb_spec prev c); [contradiction|exact Hr]. }
    rewrite Hobs. exists r. split; [left; reflexivity|].
    apply create_record_fields in Hr. tauto.
  - destruct (observe_effect env times counts self item)
      as (_ & _ & Htl & _).
    destruct (IH (observe env times counts self item) p prev c Hin)
      as (r & Hr & Hrest); [rewrite Htl; exact Hprev|assumption..|].
    exists r. split; [apply in_or_app; right; exact Hr|exact Hrest].
Qed.

(** X7.  A task that the tracker has on one cpu (not a negative one, as
    is the case after any snapshot) and that the sample shows on another
    gets a [decision = 1] record from the one to the other. *)
Theorem every_migration_recorded `{!PyFloatLaws F} env (w : World F)
    p prev cur :
  PyDict.get (task_locations w.1) p = Some prev ->
  PyDict.get (current_tasks env w.1) p = Some cur ->
  prev <> cur -> 0 <= prev ->
  exists emitted r,
    persisted (take_snapshot env w) = persisted w ++ emitted /\
    In r emitted /\
    pid r = p /\ decision r = 1 /\ src_cpu r = prev /\ dst_cpu r = cur.
Proof.
  intros Hprev Hcur Hne Hp0.
  exists (snapshot_records env w.1).
  apply PyDict_get_In in Hcur.
  destruct (current_tasks_item env w.1 p cur Hcur) as (_ & Hrange & _).
  destruct (emitted_by_migration env (env_cpu_times env) (scan env w.1).1.2
              (PyDict.items (current_tasks env w.1))
              (with_task_info w.1 (scanned_info env w.1)) p prev cur)
    as (r & Hr & Hrest); [assumption..|lia|].
  exists r. split; [apply take_snapshot_records|].
  split; [exact Hr|exact Hrest].
Qed.

(** X8.  In one snapshot the records come in the order in which their
    pids entered [current_tasks], at most one for each pid. *)
Theorem one_record_per_task env (w : World F) :
  exists emitted,
    persisted (take_snapshot env w) = persisted w ++ emitted /\
    map pid emitted `sublist_of` PyDict.keys (current_tasks env w.1) /\
    NoDup (map pid emitted).
Proof.
  exists (snapshot_records env w.1).
  split; [apply take_snapshot_records|].
  assert (Hsub : map pid (snapshot_records env w.1)
                   `sublist_of` PyDict.keys (current_tasks env w.1))
    by apply emitted_by_pids.
  split; [exact Hsub|].
  eapply sublist_NoDup; [|exact Hsub].
  apply NoDup_ListNoDup.
  apply (scan_invariant env (num_cpus w.1) (task_info w.1)
           (env_processes env)).
Qed.

Lemma snapshots_valid_cpus envs : forall w : World F,
  (forall p c, PyDict.get (task_locations w.1) p = Some c ->
     0 <= c < num_cpus w.1) ->
  exists emitted,
    persisted (snapshots envs w) = persisted w ++ emitted /\
    Forall (fun r =>
              0 <= src_cpu r < num_cpus w.1 /\
              0 <= dst_cpu r < num_cpus w.1 /\
              (num_cpus w.1 <> 1 -> src_cpu r <> dst_cpu r))
           emitted.
Proof.
  unfold snapshots.
  induction envs as [|env envs IH]; intros w Hinv; cbn [fold_left].
  - exists []. rewrite app_nil_r. auto.
  - destruct (take_snapshot_emitted
                (fun r =>
                   0 <= src_cpu r < num_cpus w.1 /\
                   0 <= dst_cpu r < num_cpus w.1 /\
                   (num_cpus w.1 <> 1 -> src_cpu r <> dst_cpu r))
                env w) as (e1 & Hp1 & HP1).
    { intros self' [p c] r Hin Htl _ Hn _ Hr.
      apply current_tasks_item in Hin as (_ & Hrange & _).
      apply observed_record_cases in Hr
        as (prev & Hprev & _ & _
            & [(Hne & _ & -> & ->)|(Heq & _ & _ & -> & ->)]).
      - rewrite Htl in Hprev. apply Hinv in Hprev. auto.
      - rewrite Hn. split; [exact Hrange|].
        split; [apply Z.mod_pos_bound; lia|].
        intros Hn1 Hsame. apply Hn1.
        symmetry in Hsame. exact (succ_mod_fixed c _ Hrange Hsame). }
    destruct (IH (take_snapshot env w)) as (e2 & Hp2 & HP2).
    { rewrite take_snapshot_num_cpus. apply take_snapshot_tracker. }
    rewrite take_snapshot_num_cpus in HP2.
    exists (e1 ++ e2). split; [|apply Forall_app; auto].
    rewrite Hp2, Hp1, app_assoc. reflexivity.
Qed.

(** X9.  Every record that a collector made by [__init__] produces names
    two cpus of [0, num_cpus), and two different ones unless there is a
    single cpu. *)
Theorem records_name_valid_cpus ncpus times log envs :
  exists emitted,
    persisted (snapshots envs (init ncpus times, log)) = log ++ emitted /\
    Forall (fun r =>
              0 <= src_cpu r < ncpus /\ 0 <= dst_cpu r < ncpus /\
              (ncpus <> 1 -> src_cpu r <> dst_cpu r))
           emitted.
Proof.
  destruct (snapshots_valid_cpus envs (init ncpus times, log))
    as (emitted & Hp & HP); [intros p c Hget; discriminate|].
  exists emitted. split; [|exact HP].
  rewrite Hp. unfold persisted. cbn. rewrite app_nil_r. reflexivity.
Qed.

Lemma create_record_features env self p src dst migrated
    (times : list (scputimes F)) counts r :
  create_record env self p src dst migrated times counts = Some r ->
  timestamp r = env_time_ns env p /\
  src_numa_node r = cpu_to_numa env src /\
  dst_numa_node r = cpu_to_numa env dst /\
  cross_node r = (if src_numa_node r =? dst_numa_node r then 0 else 1) /\
  src_runqueue_len r = default 0 (counts !! src) /\
  dst_runqueue_len r = default 0 (counts !! dst) /\
  exists sl dl,
    get_cpu_load self src times = Some sl /\
    get_cpu_load self dst times = Some dl /\
    src_load r = fround sl 2 /\ dst_load r = fround dl 2 /\
    src_cpu_idle r = (if fltb sl (f_of_Z 5) then 1 else 0) /\
    dst_cpu_idle r = (if fltb dl (f_of_Z 5) then 1 else 0) /\
    load_diff r = fround (fabs (fsub sl dl)) 2 /\
    load_imbalance r = fround (fsub sl dl) 2.
Proof.
  unfold create_record.
  destruct (get_cpu_load self src times) as [sl|]; [|discriminate].
  destruct (get_cpu_load self dst times) as [dl|]; [|discriminate].
  cbn [mbind option_bind]. intros Hr. injection Hr as <-.
  cbn. repeat split. exists sl, dl. repeat split.
Qed.

(** A record of the loop is what [create_record] makes for its own pid
    and cpus. *)
Lemma observed_record_created env times counts self item r :
  observed_record env times counts self item = Some r ->
  exists migrated,
    create_record env self (pid r) (src_cpu r) (dst_cpu r) migrated
                  times counts = Some r.
Proof.
  unfold observed_record.
  destruct (PyDict.get (task_locations self) item.1) as [prev|];
    [|discriminate].
  destruct (negb (prev =? item.2)).
  - intros Hr. exists true.
    destruct (create_record_fields _ _ _ _ _ _ _ _ _ Hr)
      as (-> & -> & -> & _). exact Hr.
  - destruct (total (stats self) mod 5 =? 0); [|discriminate].
    intros Hr. exists false.
    destruct (create_record_fields _ _ _ _ _ _ _ _ _ Hr)
      as (-> & -> & -> & _). exact Hr.
Qed.

(** The records of a snapshot are made with the tables that the first
    loop built and with the accounting of the snapshot before. *)
Lemma take_snapshot_created (P : MigrationRecord F -> Prop) env
    (w : World F) :
  (forall r migrated,
     create_record env (with_task_info w.1 (scanned_info env w.1))
                   (pid r) (src_cpu r) (dst_cpu r) migrated
                   (env_cpu_times env) (scan env w.1).1.2 = Some r ->
     P r) ->
  exists emitted,
    persisted (take_snapshot env w) = persisted w ++ emitted /\
    Forall P emitted.
Proof.
  intros HP. apply take_snapshot_emitted.
  intros self' item r _ _ Hti _ Hpt Hr.
  apply observed_record_created in Hr as (migrated & Hr).
  apply (HP r migrated). rewrite <- Hr.
  symmetry. apply create_record_ext; assumption.
Qed.

(** X10.  The node of each side of a record is the content of the
    [node_id] file of its cpu, or the cpu divided by 8 when the file cannot
    be read; [cross_node] is 1 when the two nodes differ and 0 when they
    are the same. *)
Theorem records_topology env (w : World F) :
  exists emitted,
    persisted (take_snapshot env w) = persisted w ++ emitted /\
    Forall (fun r =>
              src_numa_node r
                = default (src_cpu r / 8) (env_node_id env (src_cpu r)) /\
              dst_numa_node r
                = default (dst_cpu r / 8) (env_node_id env (dst_cpu r)) /\
              (cross_node r = 1 /\ src_numa_node r <> dst_numa_node r \/
               cross_node r = 0 /\ src_numa_node r = dst_numa_node r))
           emitted.
Proof.
  apply take_snapshot_created. intros r migrated Hr.
  apply create_record_features in Hr as (_ & Hs & Hd & Hc & _).
  unfold cpu_to_numa in Hs, Hd.
  split; [rewrite Hs; destruct (env_node_id env (src_cpu r)); reflexivity|].
  split; [rewrite Hd; destruct (env_node_id env (dst_cpu r)); reflexivity|].
  rewrite Hc.
  destruct (Z.eqb_spec (src_numa_node r) (dst_numa_node r)); auto.
Qed.

Lemma scan_proc_admitted env ncpus (st : scan_state F) proc :
  scan_proc env ncpus st proc =
    if admitted ncpus proc then
      match pi_cpu_num proc with
      | Some c =>
          (PyDict.set st.1.1 (pi_pid proc) c,
           <[c := default 0 (st.1.2 !! c) + 1]> st.1.2,
           match st.2 !! pi_pid proc with
           | Some _ => st.2
           | None =>
               <[pi_pid proc :=
                   {| ti_name := pi_name proc;
                      ti_first_seen := env_time env (pi_pid proc) |}]> st.2
           end)
      | None => st
      end
    else st.
Proof.
  destruct st as [[cur counts] info]. unfold scan_proc, admitted.
  destruct (pi_cpu_num proc) as [c|]; [|reflexivity].
  destruct ((c <? 0) || (ncpus <=? c)); [reflexivity|].
  destruct (status_admitted (pi_status proc)); reflexivity.
Qed.

Lemma scan_counts env ncpus (info0 : gmap Z (task_entry F)) processes c :
  default 0 ((fold_left (scan_proc env ncpus) processes
                        (PyDict.empty, ∅, info0)).1.2 !! c)
    = on_cpu ncpus c processes.
Proof.
  unfold on_cpu.
  induction processes as [|proc processes IH] using rev_ind;
    [reflexivity|].
  rewrite fold_left_app, List.filter_app, length_app, Nat2Z.inj_add, <- IH.
  cbn [fold_left List.filter]. rewrite scan_proc_admitted.
  destruct (fold_left _ processes _) as [[cur counts] info].
  cbn [fst snd]. unfold admitted_on.
  destruct (admitted ncpus proc) eqn:Hadm; [|cbn; lia].
  destruct (pi_cpu_num proc) as [c0|] eqn:Hcpu; [|cbn; lia].
  cbn [fst snd andb].
  destruct (Z.eqb_spec c0 c) as [->|Hne].
  - rewrite lookup_insert_eq. cbn. lia.
  - rewrite lookup_insert_ne by exact Hne. cbn. lia.
Qed.

(** X11.  The run queue lengths of a record are the numbers of entries of
    the process table of the sample that the first loop admitted on the
    source cpu and on the destination cpu. *)
Theorem records_runqueue env (w : World F) :
  exists emitted,
    persisted (take_snapshot env w) = persisted w ++ emitted /\
    Forall (fun r =>
              src_runqueue_len r
                = on_cpu (num_cpus w.1) (src_cpu r) (env_processes env) /\
              dst_runqueue_len r
                = on_cpu (num_cpus w.1) (dst_cpu r) (env_processes env))
           emitted.
Proof.
  apply take_snapshot_created. intros r migrated Hr.
  apply create_record_features in Hr as (_ & _ & _ & _ & Hs & Hd & _).
  rewrite Hs, Hd. unfold scan. split; apply scan_counts.
Qed.

(** X12.  The loads of a record are those of [get_cpu_load] between the
    accounting of the snapshot before and that of this one, rounded to two
    digits; the idle flags, the difference and the imbalance are computed
    from the loads before rounding. *)
Theorem records_loads env (w : World F) :
  exists emitted,
    persisted (take_snapshot env w) = persisted w ++ emitted /\
    Forall (fun r =>
              exists sl dl,
                get_cpu_load w.1 (src_cpu r) (env_cpu_times env) = Some sl /\
                get_cpu_load w.1 (dst_cpu r) (env_cpu_times env) = Some dl /\
                src_load r = fround sl 2 /\ dst_load r = fround dl 2 /\
                src_cpu_idle r = (if fltb sl (f_of_Z 5) then 1 else 0) /\
                dst_cpu_idle r = (if fltb dl (f_of_Z 5) then 1 else 0) /\
                load_diff r = fround (fabs (fsub sl dl)) 2 /\
                load_imbalance r = fround (fsub sl dl) 2)
           emitted.
Proof.
  apply take_snapshot_created. intros r migrated Hr.
  apply create_record_features in Hr
    as (_ & _ & _ & _ & _ & _ & sl & dl & Hsl & Hdl & Hrest).
  exists sl, dl. split; [exact Hsl|]. split; [exact Hdl|exact Hrest].
Qed.

Lemma emitted_by_no_history env times counts items : forall self,
  task_locations self = [] ->
  emitted_by env times counts self items = [].
Proof.
  induction items as [|item items IH]; intros self Htl;
    cbn [emitted_by]; [reflexivity|].
  destruct (observe_effect env times counts self item)
    as (_ & _ & Htl' & _).
  rewrite IH by (rewrite Htl'; exact Htl).
  unfold observed_record. rewrite Htl. reflexivity.
Qed.

(** X13.  A snapshot taken while the tracker is empty, as the first one
    is, produces no record; it only fills the tracker and counts the tasks
    it saw. *)
Theorem first_snapshot_records_nothing env (w : World F) :
  task_locations w.1 = [] ->
  persisted (take_snapshot env w) = persisted w /\
  task_locations (take_snapshot env w).1 = current_tasks env w.1 /\
  total (stats (take_snapshot env w).1) =
    total (stats w.1)
    + Z.of_nat (length (PyDict.items (current_tasks env w.1))).
Proof.
  intros Htl. rewrite take_snapshot_records.
  unfold snapshot_records. rewrite emitted_by_no_history by exact Htl.
  rewrite app_nil_r. split; [reflexivity|].
  destruct (take_snapshot_counts env w) as (_ & _ & _ & _ & Htot).
  split; [|exact Htot].
  destruct w as [self log]. apply take_snapshot_fields.
Qed.

Lemma scan_nothing_admitted env ncpus (st : scan_state F) processes :
  forallb (fun proc => negb (admitted ncpus proc)) processes = true ->
  fold_left (scan_proc env ncpus) processes st = st.
Proof.
  revert st.
  induction processes as [|proc processes IH]; intros st;
    cbn [forallb fold_left]; [reflexivity|].
  intros Hall. apply andb_true_iff in Hall as [Hproc Hall].
  apply negb_true_iff in Hproc.
  rewrite scan_proc_admitted, Hproc. apply IH, Hall.
Qed.

(** X14.  A sample in which no process passes the filters (a cpu number
    that is missing or outside [0, num_cpus), a status other than running
    or sleeping) produces no record, changes no counter, and empties both
    the tracker and [task_info]. *)
Theorem sample_without_admitted_tasks env (w : World F) :
  forallb (fun proc => negb (admitted (num_cpus w.1) proc))
          (env_processes env) = true ->
  persisted (take_snapshot env w) = persisted w /\
  stats (take_snapshot env w).1 = stats w.1 /\
  task_locations (take_snapshot env w).1 = [] /\
  task_info (take_snapshot env w).1 = ∅.
Proof.
  intros Hnone.
  assert (Hscan : scan env w.1 = (PyDict.empty, ∅, task_info w.1))
    by (apply scan_nothing_admitted, Hnone).
  destruct w as [self log]. cbn [fst] in *.
  destruct (take_snapshot_fields env self log) as (Htl & Hti & _).
  destruct (take_snapshot_effect env self log) as (_ & _ & Hstats & _).
  rewrite take_snapshot_records, Htl, Hti, Hstats. cbn [fst].
  unfold snapshot_records, observe_all, current_tasks, scanned_info.
  rewrite !Hscan. cbn [fst snd PyDict.items PyDict.empty emitted_by fold_left
                      stats with_task_info].
  rewrite app_nil_r. repeat split.
  apply map_eq. intros p. rewrite lookup_empty.
  apply map_lookup_filter_None. right. intros e _ Hmem. discriminate.
Qed.

Lemma scan_last_admitted env ncpus (info0 : gmap Z (task_entry F))
    processes p :
  PyDict.get (fold_left (scan_proc env ncpus) processes
                        (PyDict.empty, ∅, info0)).1.1 p
    = last_admitted ncpus p processes.
Proof.
  unfold last_admitted.
  induction processes as [|proc processes IH] using rev_ind;
    [reflexivity|].
  rewrite !fold_left_app. cbn [fold_left]. rewrite <- IH.
  rewrite scan_proc_admitted.
  destruct (fold_left (scan_proc env ncpus) processes _)
    as [[cur counts] info].
  cbn [fst snd].
  destruct (admitted ncpus proc) eqn:Hadm; [|reflexivity].
  unfold admitted in Hadm.
  destruct (pi_cpu_num proc) as [c0|]; [|discriminate].
  cbn [fst snd andb].
  destruct (Z.eqb_spec (pi_pid proc) p) as [<-|Hne].
  - apply PyDict_get_set_eq.
  - apply PyDict_get_set_ne, Hne.
Qed.

(** X15.  The cpu that a sample gives for a pid is that of the last entry
    of the process table with this pid that passes the filters; a pid
    without such an entry is not in [current_tasks]. *)
Theorem current_tasks_last_admitted env self p :
  PyDict.get (current_tasks env self) p
    = last_admitted (num_cpus self) p (env_processes env).
Proof. unfold current_tasks, scan. apply scan_last_admitted. Qed.

Lemma until_stop_running duration start_time (ticks : list (Tick F)) :
  existsb (tick_stops duration start_time) ticks = false ->
  until_stop duration start_time ticks = ticks.
Proof.
  induction ticks as [|tk ticks IH]; cbn [existsb until_stop];
    [reflexivity|].
  intros Hnone. apply orb_false_iff in Hnone as [-> Hnone].
  rewrite IH by exact Hnone. reflexivity.
Qed.

Lemma collect_loop_until_stop duration start_time ticks :
  forall w : World F,
  collect_loop duration start_time ticks w
    = (existsb (tick_stops duration start_time) ticks,
       snapshots (map tick_env (until_stop duration start_time ticks)) w).
Proof.
  unfold snapshots.
  induction ticks as [|tk ticks IH]; intros w;
    cbn [collect_loop existsb until_stop]; [reflexivity|].
  unfold tick_stops at 1 3.
  destruct (duration_elapsed duration start_time (tick_now tk));
    [reflexivity|].
  destruct (tick_interrupt tk); [reflexivity|].
  cbn [orb map fold_left]. apply IH.
Qed.

(** X16.  [collect] takes one snapshot for each turn up to the first one
    that ends the loop, the duration being looked at only after the
    snapshot (so one snapshot at least is taken), and then flushes; with a
    duration of [None] or 0 only an interrupt ends the loop. *)
Theorem collect_runs_until_stop duration start_time ticks (w : World F) :
  collect duration start_time ticks w =
    (if existsb (tick_stops duration start_time) ticks
     then Stopped
            (flush_buffer
               (snapshots
                  (map tick_env (until_stop duration start_time ticks)) w))
     else Running (snapshots (map tick_env ticks) w)) /\
  (forall tk rest,
     ticks = tk :: rest ->
     exists more, until_stop duration start_time ticks = tk :: more) /\
  (duration = None \/ duration = Some 0 ->
   existsb (tick_stops duration start_time) ticks
     = existsb tick_interrupt ticks).
Proof.
  split; [|split].
  - unfold collect. rewrite collect_loop_until_stop.
    destruct (existsb (tick_stops duration start_time) ticks) eqn:Hstop;
      [reflexivity|].
    rewrite until_stop_running by exact Hstop. reflexivity.
  - intros tk rest ->. cbn [until_stop].
    destruct (tick_stops duration start_time tk); eauto.
  - intros Hd. induction ticks as [|tk ticks IH]; cbn [existsb];
      [reflexivity|].
    rewrite IH. f_equal. unfold tick_stops, duration_elapsed.
    destruct Hd as [->| ->]; reflexivity.
Qed.

End SnapshotRecords.

Section LoadRange.
Import StateCollector.
Context {F : Type} `{PyFloatLaws F}.

(** X17.  Whatever the two snapshots and the cpu id, a load that
    [get_cpu_load] returns lies between 0 and 100; and it does return one
    for every cpu id that is not negative. *)
Theorem get_cpu_load_range (self : Collector F) (cpu_id : Z)
    (current_times : list (scputimes F)) :
  (forall load,
     get_cpu_load self cpu_id current_times = Some load ->
     fleb (f_of_Z 0) load = true /\ fleb load (f_of_Z 100) = true) /\
  (0 <= cpu_id -> is_Some (get_cpu_load self cpu_id current_times)).
Proof.
  split; [|apply get_cpu_load_total].
  assert (Hzero : fleb (f_of_Z 0) (f_of_Z 0) = true /\
                  fleb (f_of_Z 0) (f_of_Z 100) = true)
    by (split; [apply fleb_0_0|apply fleb_0_100]).
  intros load. unfold get_cpu_load.
  destruct ((Z.of_nat (length current_times) <=? cpu_id)
            || (Z.of_nat (length (prev_cpu_times self)) <=? cpu_id));
    [intros Hl; injection Hl as <-; exact Hzero|].
  destruct (py_index (prev_cpu_times self) cpu_id) as [prev|];
    [|discriminate].
  cbn [mbind option_bind].
  destruct (py_index current_times cpu_id) as [curr|]; [|discriminate].
  cbn [mbind option_bind].
  destruct (fleb (fsub (cpu_total curr) (cpu_total prev)) (f_of_Z 0));
    [intros Hl; injection Hl as <-; exact Hzero|].
  destruct (fdiv (fsub (idle curr) (idle prev))
                 (fsub (cpu_total curr) (cpu_total prev))) as [ratio|];
    [|discriminate].
  cbn [mbind option_bind]. intros Hl. injection Hl as <-.
  apply clamp_bounds.
Qed.

End LoadRange.

(** One cpu, 2 s busy and 6 s idle more than before: the load of cpu 0
    is within bounds, and so is that of cpu 5, which there is not. *)
Lemma get_cpu_load_range_witness :
  (forall load,
     StateCollector.get_cpu_load Examples.one_cpu 0 [Examples.times 12 86]
       = Some load ->
     fleb (f_of_Z 0) load = true /\ fleb load (f_of_Z 100) = true) /\
  (0 <= 0 ->
   is_Some (StateCollector.get_cpu_load Examples.one_cpu 0
              [Examples.times 12 86])).
Proof.
  exact (get_cpu_load_range Examples.one_cpu 0 [Examples.times 12 86]).
Defined.

(** Task 42 was on cpu 0 and is now on cpu 9. *)
Lemma every_migration_recorded_witness :
  PyDict.get (StateCollector.task_locations Examples.seen_on_0.1) 42
    = Some 0 /\
  PyDict.get (StateCollector.current_tasks Examples.now_on_9
                Examples.seen_on_0.1) 42 = Some 9 /\
  0 <> 9 /\ 0 <= 0 /\
  exists emitted r,
    StateCollector.persisted
      (StateCollector.take_snapshot Examples.now_on_9 Examples.seen_on_0)
      = StateCollector.persisted Examples.seen_on_0 ++ emitted /\
    In r emitted /\
    StateCollector.pid r = 42 /\ StateCollector.decision r = 1 /\
    StateCollector.src_cpu r = 0 /\ StateCollector.dst_cpu r = 9.
Proof.
  split; [vm_compute; reflexivity|]. split; [vm_compute; reflexivity|].
  split; [lia|]. split; [lia|].
  apply (every_migration_recorded Examples.now_on_9 Examples.seen_on_0
           42 0 9); [vm_compute; reflexivity..|lia|lia].
Defined.

(** The first snapshot of a new collector. *)
Lemma first_snapshot_records_nothing_witness :
  StateCollector.task_locations Examples.two_cpus.1 = [] /\
  StateCollector.persisted
    (StateCollector.take_snapshot Examples.five_tasks Examples.two_cpus)
    = StateCollector.persisted Examples.two_cpus /\
  StateCollector.task_locations
    (StateCollector.take_snapshot Examples.five_tasks Examples.two_cpus).1
    = StateCollector.current_tasks Examples.five_tasks Examples.two_cpus.1 /\
  StateCollector.total
    (StateCollector.stats
       (StateCollector.take_snapshot Examples.five_tasks
          Examples.two_cpus).1)
    = StateCollector.total (StateCollector.stats Examples.two_cpus.1)
      + Z.of_nat
          (length
             (PyDict.items
                (StateCollector.current_tasks Examples.five_tasks
                   Examples.two_cpus.1))).
Proof.
  split; [reflexivity|].
  apply (first_snapshot_records_nothing Examples.five_tasks
           Examples.two_cpus).
  reflexivity.
Defined.

(** Five tasks are tracked when a sample shows nothing admissible. *)
Lemma sample_without_admitted_tasks_witness :
  forallb (fun proc =>
             negb (StateCollector.admitted
                     (StateCollector.num_cpus Examples.after_five.1) proc))
          (StateCollector.env_processes Examples.nothing_admitted) = true /\
  StateCollector.persisted
    (StateCollector.take_snapshot Examples.nothing_admitted
       Examples.after_five)
    = StateCollector.persisted Examples.after_five /\
  StateCollector.stats
    (StateCollector.take_snapshot Examples.nothing_admitted
       Examples.after_five).1
    = StateCollector.stats Examples.after_five.1 /\
  StateCollector.task_locations
    (StateCollector.take_snapshot Examples.nothing_admitted
       Examples.after_five).1 = [] /\
  StateCollector.task_info
    (StateCollector.take_snapshot Examples.nothing_admitted
       Examples.after_five).1 = ∅.
Proof.
  split; [vm_compute; reflexivity|].
  apply (sample_without_admitted_tasks Examples.nothing_admitted
           Examples.after_five).
  vm_compute. reflexivity.
Defined.

(** ** More about the energy collector *)

Section EnergySamples.
Import Rapl Measures.

Lemma sample_package_cases env pkg :
  wrap_unreadable env pkg = true /\ sample_package env pkg = None \/
  wrap_unreadable env pkg = false /\
  exists pkg' r, sample_package env pkg = Some (pkg', r) /\
                 sampled env pkg pkg' r.
Proof.
  unfold wrap_unreadable, sample_package, sampled.
  destruct (read_energy env pkg <? prev_energy pkg) eqn:Hwrap.
  - destruct (env_read_int env (max_energy_file pkg)) as [m|] eqn:Hmax.
    + right. split; [reflexivity|].
      cbn [mbind option_bind]. eexists _, _. split; [reflexivity|].
      cbn. repeat split. right. split; [reflexivity|]. eauto.
    + left. split; reflexivity.
  - right. split; [reflexivity|].
    cbn [mbind option_bind]. eexists _, _. split; [reflexivity|].
    cbn. repeat split. left. split; reflexivity.
Qed.

Lemma collect_sample_Forall3 env packages packages' records :
  collect_sample env packages = Some (packages', records) ->
  Forall3 (sampled env) packages packages' records.
Proof.
  revert packages' records.
  induction packages as [|pkg packages IH]; intros packages' records;
    cbn [collect_sample].
  - intros Hs. injection Hs as <- <-. constructor.
  - destruct (sample_package_cases env pkg)
      as [(_ & ->)|(_ & pkg' & r & -> & Hsampled)]; [discriminate|].
    cbn [mbind option_bind].
    destruct (collect_sample env packages) as [[rest' rs]|];
      [|discriminate].
    cbn [mbind option_bind]. intros Hs. injection Hs as <- <-.
    constructor; [exact Hsampled|apply IH; reflexivity].
Qed.

Lemma collect_sample_raises env packages :
  collect_sample env packages = None <->
  existsb (wrap_unreadable env) packages = true.
Proof.
  induction packages as [|pkg packages IH]; cbn [collect_sample existsb].
  - split; discriminate.
  - destruct (sample_package_cases env pkg)
      as [(-> & ->)|(-> & pkg' & r & -> & _)].
    + split; reflexivity.
    + cbn [mbind option_bind orb]. rewrite <- IH.
      destruct (collect_sample env packages) as [[rest' rs]|];
        cbn [mbind option_bind]; split; congruence.
Qed.

(** X18.  A sample that does not raise yields one record for each
    package, in the order of the packages, with the name of the package,
    the reading of its counter (0 when it could not be read) and the clock
    of the sample; each total is the total before plus the delta, and the
    package keeps the reading and the total for the next sample. *)
Theorem collect_sample_shape env packages packages' records :
  collect_sample env packages = Some (packages', records) ->
  map package records = map name packages /\
  map energy_uj records = map (read_energy env) packages /\
  Forall (fun r => timestamp r = env_time_ns env) records /\
  map (fun r => total_uj r - delta_uj r) records
    = map total_energy packages /\
  map name packages' = map name packages /\
  map prev_energy packages' = map energy_uj records /\
  map total_energy packages' = map total_uj records.
Proof.
  intros Hs. apply collect_sample_Forall3 in Hs.
  induction Hs as [|pkg pkg' r packages packages' records Hone _ IH];
    [repeat split; constructor|].
  destruct Hone as (Hn & _ & _ & Hprev & Htot & Hts & Hpk & Hen & Htu & _).
  destruct IH as (I1 & I2 & I3 & I4 & I5 & I6 & I7).
  cbn [map].
  rewrite I6, I7, I1, I2, I4, I5, Hn, Hprev, Htot, Hpk, Hen, Htu.
  repeat split;
    first [reflexivity | constructor; assumption | f_equal; lia].
Qed.

(** X19.  [collect_sample] raises exactly when the counter of some package
    reads below its previous reading while its range file cannot be read;
    a counter that cannot be read does not make it raise by itself. *)
Theorem collect_sample_raises_iff env packages :
  collect_sample env packages = None <->
  existsb (wrap_unreadable env) packages = true.
Proof. apply collect_sample_raises. Qed.

Lemma last_reading_cons prev r rs :
  last_reading prev (r :: rs) = last_reading r rs.
Proof.
  unfold last_reading. revert prev r.
  induction rs as [|r' rs IH]; intros prev r; [reflexivity|].
  change (List.last (r :: r' :: rs) prev) with (List.last (r' :: rs) prev).
  rewrite (IH prev r'), (IH r r'). reflexivity.
Qed.

Lemma sampled_accumulated maxv env pkg pkg' r :
  range_reads maxv env pkg = true ->
  sampled env pkg pkg' r ->
  accumulated maxv [env] pkg pkg'.
Proof.
  unfold range_reads, accumulated, readings, last_reading.
  intros Hrange (_ & Hf1 & Hf2 & Hprev & Htot & _ & _ & _ & Htu & Hdelta).
  cbn [map List.last count_wraps].
  split; [exact Hf1|]. split; [exact Hf2|]. split; [exact Hprev|].
  rewrite Htot, Htu, Hprev.
  destruct Hdelta as [(-> & ->)|(-> & m & Hm & ->)]; [lia|].
  rewrite Hm in Hrange. apply Z.eqb_eq in Hrange. lia.
Qed.

Lemma accumulated_nil maxv pkg : accumulated maxv [] pkg pkg.
Proof.
  unfold accumulated, readings, last_reading. cbn. repeat split; lia.
Qed.

Lemma accumulated_cons maxv env envs pkg pkg1 pkg2 :
  accumulated maxv [env] pkg pkg1 ->
  accumulated maxv envs pkg1 pkg2 ->
  accumulated maxv (env :: envs) pkg pkg2.
Proof.
  unfold accumulated, readings.
  intros (Hf1 & Hm1 & Hp1 & Ht1) (Hf2 & Hm2 & Hp2 & Ht2).
  assert (Hrs : map (fun env0 => read_energy env0 pkg1) envs
                = map (fun env0 => read_energy env0 pkg) envs).
  { apply map_ext. intros env0. unfold read_energy. rewrite Hf1.
    reflexivity. }
  rewrite Hrs in Hp2, Ht2. cbn [map] in *.
  rewrite last_reading_cons. cbn [count_wraps] in *.
  unfold last_reading in Hp1. cbn [List.last] in Hp1.
  rewrite Hp1 in *. rewrite Hm1 in Ht2.
  repeat split; [congruence|congruence|exact Hp2|].
  rewrite Ht2, Ht1. lia.
Qed.

Lemma range_reads_files maxv env (packages packages' : list Package) :
  Forall2 (fun pkg pkg' => max_energy_file pkg' = max_energy_file pkg)
          packages packages' ->
  forallb (range_reads maxv env) packages'
    = forallb (range_reads maxv env) packages.
Proof.
  induction 1 as [|pkg pkg' packages packages' Hf _ IH]; [reflexivity|].
  cbn [forallb]. rewrite IH. f_equal. unfold range_reads. rewrite Hf.
  reflexivity.
Qed.

Lemma collect_samples_accumulated maxv envs :
  forall packages packages' samples,
  forallb (fun env => forallb (range_reads maxv env) packages) envs = true ->
  collect_samples envs packages = Some (packages', samples) ->
  Forall2 (accumulated maxv envs) packages packages'.
Proof.
  induction envs as [|env envs IH]; intros packages packages' samples;
    cbn [forallb collect_samples].
  - intros _ Hs. injection Hs as <- _.
    induction packages; constructor; [apply accumulated_nil|assumption].
  - intros Hrange. apply andb_true_iff in Hrange as [Hrange1 Hrange].
    destruct (collect_sample env packages) as [[pkgs1 records]|] eqn:Hone;
      [|discriminate].
    cbn [mbind option_bind].
    destruct (collect_samples envs pkgs1) as [[pkgs2 later]|] eqn:Hlater;
      [|discriminate].
    cbn [mbind option_bind]. intros Hs. injection Hs as <- _.
    apply collect_sample_Forall3 in Hone.
    assert (Hstep : Forall2 (accumulated maxv [env]) packages pkgs1).
    { clear -Hone Hrange1.
      induction Hone as [|pkg pkg' r packages packages' records H1 _ IH1];
        [constructor|].
      cbn [forallb] in Hrange1.
      apply andb_true_iff in Hrange1 as [Hr1 Hrs].
      constructor; [exact (sampled_accumulated maxv env _ _ _ Hr1 H1)|].
      apply IH1, Hrs. }
    assert (Hrange' :
      forallb (fun env0 => forallb (range_reads maxv env0) pkgs1) envs
        = true).
    { rewrite <- Hrange. clear -Hstep.
      induction envs as [|env0 envs IHe]; [reflexivity|].
      cbn [forallb]. rewrite IHe. f_equal.
      apply range_reads_files.
      eapply Forall2_impl; [exact Hstep|].
      intros pkg pkg' (_ & Hm & _). exact Hm. }
    specialize (IH pkgs1 pkgs2 later Hrange' Hlater).
    clear -Hstep IH. revert pkgs2 IH.
    induction Hstep as [|pkg pkg1 packages pkgs1 H1 _ IHs];
      intros pkgs2 H2; inversion H2 as [|? pkg2 ? rest2 Hacc Hrest]; subst;
      constructor.
    + exact (accumulated_cons maxv env envs pkg pkg1 pkg2 H1 Hacc).
    + apply IHs, Hrest.
Qed.

(** X20.  Over any number of samples in which the range file of each
    domain reads the same value [max], the total of a domain grows by the
    difference between the last reading and the one the domain started
    with, plus [max] for every reading that was below the one before
    (a counter that cannot be read counting as reading 0). *)
Theorem total_energy_accumulates maxv envs packages packages' samples :
  forallb (fun env => forallb (range_reads maxv env) packages) envs = true ->
  collect_samples envs packages = Some (packages', samples) ->
  Forall2 (fun pkg pkg' =>
             prev_energy pkg'
               = last_reading (prev_energy pkg) (readings envs pkg) /\
             total_energy pkg' =
               total_energy pkg + (prev_energy pkg' - prev_energy pkg)
               + maxv (max_energy_file pkg)
                 * count_wraps (prev_energy pkg) (readings envs pkg))
          packages packages'.
Proof.
  intros Hrange Hs.
  eapply Forall2_impl;
    [exact (collect_samples_accumulated maxv envs _ _ _ Hrange Hs)|].
  intros pkg pkg' (_ & _ & Hp & Ht). auto.
Qed.

Lemma sample_package_unreadable env pkg m :
  env_read_int env (energy_file pkg) = None ->
  env_read_int env (max_energy_file pkg) = Some m ->
  0 < prev_energy pkg ->
  sample_package env pkg
    = Some ({| name := name pkg;
               energy_file := energy_file pkg;
               max_energy_file := max_energy_file pkg;
               prev_energy := 0;
               total_energy := total_energy pkg + (m - prev_energy pkg + 0) |},
            {| timestamp := env_time_ns env;
               package := name pkg;
               energy_uj := 0;
               delta_uj := m - prev_energy pkg + 0;
               total_uj := total_energy pkg + (m - prev_energy pkg + 0) |}).
Proof.
  intros Hfail Hmax Hprev. unfold sample_package, read_energy.
  rewrite Hfail.
  destruct (Z.ltb_spec 0 (prev_energy pkg)) as [_|]; [|lia].
  rewrite Hmax. reflexivity.
Qed.

Lemma sample_package_advanced env pkg r :
  env_read_int env (energy_file pkg) = Some r ->
  prev_energy pkg <= r ->
  sample_package env pkg
    = Some ({| name := name pkg;
               energy_file := energy_file pkg;
               max_energy_file := max_energy_file pkg;
               prev_energy := r;
               total_energy := total_energy pkg + (r - prev_energy pkg) |},
            {| timestamp := env_time_ns env;
               package := name pkg;
               energy_uj := r;
               delta_uj := r - prev_energy pkg;
               total_uj := total_energy pkg + (r - prev_energy pkg) |}).
Proof.
  intros Hread Hle. unfold sample_package, read_energy.
  rewrite Hread.
  destruct (Z.ltb_spec r (prev_energy pkg)) as [|_]; [lia|].
  reflexivity.
Qed.

(** X21.  A counter that cannot be read is recorded as a reading of 0
    and, the previous reading being positive, taken for a wrap: once the
    counter reads [r2] again, the total has grown by the whole range [m]
    more than the counter has advanced. *)
Theorem failed_read_counts_as_wrap env1 env2 pkg m r2 :
  env_read_int env1 (energy_file pkg) = None ->
  env_read_int env1 (max_energy_file pkg) = Some m ->
  env_read_int env2 (energy_file pkg) = Some r2 ->
  0 < prev_energy pkg -> 0 <= r2 ->
  exists pkg' rec1 rec2,
    collect_samples [env1; env2] [pkg] = Some ([pkg'], [[rec1]; [rec2]]) /\
    energy_uj rec1 = 0 /\
    delta_uj rec1 = m - prev_energy pkg /\
    delta_uj rec2 = r2 /\
    total_energy pkg' = total_energy pkg + (r2 - prev_energy pkg) + m.
Proof.
  intros Hfail Hmax Hread Hprev Hr2.
  cbn [collect_samples collect_sample].
  rewrite (sample_package_unreadable env1 pkg m Hfail Hmax Hprev).
  cbn [mbind option_bind collect_samples collect_sample].
  match goal with
  | |- context [sample_package env2 ?pkg1] =>
      rewrite (sample_package_advanced env2 pkg1 r2 Hread Hr2)
  end.
  cbn [mbind option_bind].
  eexists _, _, _. split; [reflexivity|].
  cbn [energy_uj delta_uj total_energy prev_energy].
  repeat split; lia.
Qed.

Lemma collect_sample_lengths env packages packages' records :
  collect_sample env packages = Some (packages', records) ->
  length packages' = length packages /\ length records = length packages.
Proof.
  intros Hs. apply collect_sample_Forall3 in Hs.
  split; symmetry;
    [exact (Forall3_length_lm _ _ _ _ Hs)|exact (Forall3_length_lr _ _ _ _ Hs)].
Qed.

Lemma collect_samples_lengths envs : forall packages packages' samples,
  collect_samples envs packages = Some (packages', samples) ->
  length samples = length envs /\
  Forall (fun records => length records = length packages) samples.
Proof.
  induction envs as [|env envs IH]; intros packages packages' samples;
    cbn [collect_samples].
  - intros Hs. injection Hs as _ <-. split; [reflexivity|constructor].
  - destruct (collect_sample env packages) as [[pkgs1 records]|] eqn:Hone;
      [|discriminate].
    cbn [mbind option_bind].
    destruct (collect_samples envs pkgs1) as [[pkgs2 later]|] eqn:Hlater;
      [|discriminate].
    cbn [mbind option_bind]. intros Hs. injection Hs as _ <-.
    destruct (collect_sample_lengths _ _ _ _ Hone) as [Hl1 Hl2].
    destruct (IH _ _ _ Hlater) as [Hlen Hall].
    cbn [length]. split; [congruence|].
    constructor; [exact Hl2|]. rewrite <- Hl1. exact Hall.
Qed.

(** Where [collect_sample] returns, [self.packages] is what it returns
    them as. *)
Lemma collect_sample_in_place env : forall packages packages' records,
  collect_sample env packages = Some (packages', records) ->
  sampled_in_place env packages = packages'.
Proof.
  induction packages as [|pkg packages IH]; intros packages' records;
    cbn [collect_sample sampled_in_place].
  - intros Hs. injection Hs as <- _. reflexivity.
  - destruct (sample_package env pkg) as [[pkg1 r]|]; [|discriminate].
    cbn [mbind option_bind].
    destruct (collect_sample env packages) as [[rest' rs]|] eqn:Hrest;
      [|discriminate].
    cbn [mbind option_bind]. intros Hs. injection Hs as <- _.
    rewrite (IH rest' rs eq_refl). reflexivity.
Qed.

Lemma collect_sample_shape_witness :
  collect_sample (reading_env 1000 100) Examples.found
    = Some (Examples.first_sample.1, Examples.first_sample.2) /\
  (map package Examples.first_sample.2 = map name Examples.found /\
   map energy_uj Examples.first_sample.2
     = map (read_energy (reading_env 1000 100)) Examples.found /\
   Forall (fun r => timestamp r = env_time_ns (reading_env 1000 100))
          Examples.first_sample.2 /\
   map (fun r => total_uj r - delta_uj r) Examples.first_sample.2
     = map total_energy Examples.found /\
   map name Examples.first_sample.1 = map name Examples.found /\
   map prev_energy Examples.first_sample.1
     = map energy_uj Examples.first_sample.2 /\
   map total_energy Examples.first_sample.1
     = map total_uj Examples.first_sample.2).
Proof.
  split; [vm_compute; reflexivity|].
  apply (collect_sample_shape (reading_env 1000 100) Examples.found
           Examples.first_sample.1 Examples.first_sample.2).
  vm_compute; reflexivity.
Defined.

Lemma total_energy_accumulates_witness :
  forallb (fun env => forallb (range_reads (fun _ => 1000) env)
                              Examples.found)
          Examples.wrapping = true /\
  collect_samples Examples.wrapping Examples.found
    = Some (Examples.three_samples.1, Examples.three_samples.2) /\
  Forall2 (fun pkg pkg' =>
             prev_energy pkg'
               = last_reading (prev_energy pkg)
                              (readings Examples.wrapping pkg) /\
             total_energy pkg'
               = total_energy pkg + (prev_energy pkg' - prev_energy pkg)
                 + (fun _ => 1000) (max_energy_file pkg)
                   * count_wraps (prev_energy pkg)
                                 (readings Examples.wrapping pkg))
          Examples.found Examples.three_samples.1.
Proof.
  split; [vm_compute; reflexivity|].
  split; [vm_compute; reflexivity|].
  apply (total_energy_accumulates (fun _ => 1000) Examples.wrapping
           Examples.found Examples.three_samples.1
           Examples.three_samples.2);
    vm_compute; reflexivity.
Defined.

Lemma failed_read_counts_as_wrap_witness :
  env_read_int Examples.unreadable (energy_file Examples.read_100) = None /\
  env_read_int Examples.unreadable (max_energy_file Examples.read_100)
    = Some 1000 /\
  env_read_int (reading_env 1000 130) (energy_file Examples.read_100)
    = Some 130 /\
  0 < prev_energy Examples.read_100 /\ 0 <= 130 /\
  exists pkg' rec1 rec2,
    collect_samples [Examples.unreadable; reading_env 1000 130]
                    [Examples.read_100]
      = Some ([pkg'], [[rec1]; [rec2]]) /\
    energy_uj rec1 = 0 /\
    delta_uj rec1 = 1000 - prev_energy Examples.read_100 /\
    delta_uj rec2 = 130 /\
    total_energy pkg'
      = total_energy Examples.read_100
        + (130 - prev_energy Examples.read_100) + 1000.
Proof.
  split; [vm_compute; reflexivity|].
  split; [vm_compute; reflexivity|].
  split; [vm_compute; reflexivity|].
  split; [vm_compute; reflexivity|].
  split; [vm_compute; discriminate|].
  apply (failed_read_counts_as_wrap Examples.unreadable
           (reading_env 1000 130) Examples.read_100 1000 130);
    vm_compute; first [reflexivity | discriminate].
Defined.

End EnergySamples.

Section EnergyLoop.
Import Rapl Measures.
Context {F : Type} `{PyFloat F}.

Lemma collect_loop_samples duration start_time (ticks : list (Tick F)) :
  forall st : LoopState,
  LogFile.h_pos st.2.1 = length st.2.2 ->
  exists k samples pkgs,
    (k <= length ticks)%nat /\
    collect_samples (map tick_env (firstn k ticks)) st.1
      = Some (pkgs, samples) /\
    (collect_loop duration start_time ticks st).2.2.2
      = st.2.2 ++ concat samples /\
    ended_after duration start_time ticks k pkgs
                (collect_loop duration start_time ticks st).1
                (collect_loop duration start_time ticks st).2.1.
Proof.
  induction ticks as [|tk ticks IH]; intros st Hpos; cbn [collect_loop].
  - exists 0%nat, [], st.1. cbn. rewrite app_nil_r. repeat split; auto.
  - destruct (write_sample (tick_env tk) st) as [st1|] eqn:E1.
    + destruct (write_sample_appends _ st st1 Hpos E1)
        as (records & Hrec & Happ & Hpos1).
      assert (Hlast : tick_stops duration start_time tk = true ->
                exists k samples pkgs,
                  (k <= length (tk :: ticks))%nat /\
                  collect_samples (map tick_env (firstn k (tk :: ticks)))
                                  st.1 = Some (pkgs, samples) /\
                  st1.2.2 = st.2.2 ++ concat samples /\
                  ended_after duration start_time (tk :: ticks) k pkgs
                              Left_loop st1.1).
      { intros Hstop. exists 1%nat, [records], st1.1.
        cbn [firstn map collect_samples length concat].
        rewrite Hrec. cbn [mbind option_bind].
        split; [lia|]. split; [reflexivity|].
        split; [rewrite app_nil_r; exact Happ|].
        exists tk. cbn. repeat split; auto. }
      unfold tick_stops in Hlast.
      destruct (duration_elapsed duration start_time (tick_now tk)) eqn:Hd;
        [apply Hlast; reflexivity|].
      destruct (tick_interrupt tk) eqn:Hi; [apply Hlast; reflexivity|].
      clear Hlast.
      destruct (IH st1 Hpos1) as (k & samples & pkgs & Hk & Hs & Hc & Hend).
      exists (S k), (records :: samples), pkgs.
      cbn [firstn map collect_samples length concat].
      rewrite Hrec. cbn [mbind option_bind]. rewrite Hs.
      cbn [mbind option_bind].
      split; [lia|]. split; [reflexivity|].
      split; [rewrite Hc, Happ, app_assoc; reflexivity|].
      unfold ended_after in *.
      destruct ((collect_loop duration start_time ticks st1).1).
      * exact Hend.
      * destruct Hend as (tk' & Hnth & Hstop & Hk0 & Hnone & Hpk).
        exists tk'. destruct k as [|j]; [lia|].
        cbn [pred nth_error firstn existsb] in *.
        unfold tick_stops at 2. rewrite Hd, Hi.
        repeat split; auto; lia.
      * destruct Hend as (tk' & Hnth & Hraise & Hnone & Hpk).
        exists tk'. cbn [nth_error firstn existsb].
        unfold tick_stops at 1. rewrite Hd, Hi. repeat split; auto.
      * destruct Hend as (Hk' & Hnone & Hpk).
        cbn [length existsb]. unfold tick_stops at 1. rewrite Hd, Hi.
        repeat split; auto.
    + unfold write_sample in E1. destruct st as [pkgs f].
      cbn [fst snd] in *.
      destruct (collect_sample (tick_env tk) pkgs) as [[pkgs1 records]|]
        eqn:Hraise; [discriminate|].
      exists 0%nat, [], pkgs. cbn [firstn map collect_samples concat].
      rewrite app_nil_r.
      split; [cbn; lia|]. split; [reflexivity|]. split; [reflexivity|].
      exists tk. cbn. repeat split; auto.
Qed.

(** X22.  Without packages [collect] returns at once and leaves the output
    file alone.  Otherwise, whatever the file held, it ends up holding the
    records of the whole samples taken, sample after sample and one line
    for each package in each sample; the samples are taken from packages
    whose previous readings are those read before the loop, so that the
    first delta is an increase and not the raw reading.  Their number is
    that of the turns up to the first one that is the last, or up to the
    one whose sample raises; [self.packages] is left as the last whole
    sample made it, or, when a sample raises, as that sample had updated
    it in place before the exception. *)
Theorem collect_log_content duration start_time env0 (ticks : list (Tick F))
    packages log :
  match packages with
  | [] =>
      collect duration start_time env0 ticks packages log
        = (No_packages, ([], log))
  | _ :: _ =>
      exists k samples pkgs,
        (k <= length ticks)%nat /\
        collect_samples (map tick_env (firstn k ticks))
                        (primed env0 packages)
          = Some (pkgs, samples) /\
        (collect duration start_time env0 ticks packages log).2.2
          = concat samples /\
        Forall (fun records => length records = length packages) samples /\
        ended_after duration start_time ticks k pkgs
          (collect duration start_time env0 ticks packages log).1
          (collect duration start_time env0 ticks packages log).2.1
  end.
Proof.
  destruct packages as [|pkg packages]; [reflexivity|].
  unfold collect. fold (primed env0 (pkg :: packages)).
  destruct (collect_loop_samples duration start_time ticks
              (primed env0 (pkg :: packages),
               LogFile.open LogFile.ModeW log))
    as (k & samples & pkgs & Hk & Hs & Hcontent & Hend); [reflexivity|].
  destruct (collect_loop duration start_time ticks _)
    as [status [pkgs' f]].
  cbn [fst snd app] in *.
  exists k, samples, pkgs.
  split; [exact Hk|]. split; [exact Hs|]. split; [exact Hcontent|].
  split; [|exact Hend].
  apply collect_samples_lengths in Hs as [_ Hall].
  unfold primed in Hall. rewrite length_map in Hall. exact Hall.
Qed.

End EnergyLoop.

(** The counters read 0 and 100 before the loop; in the first sample they
    read 70 and 50.  The second package seems to have wrapped and its range
    file is not there: the sample raises, nothing is written, and the first
    package has its new accumulators all the same. *)
Example raising_sample_updates_in_place :
  let run :=
    Rapl.collect None 0%Q (Examples.counters 0 100)
      [{| Rapl.tick_env := Examples.counters 70 50; Rapl.tick_now := 0%Q;
          Rapl.tick_interrupt := false |}]
      Examples.two_domains Examples.earlier_run in
  run.1 = Rapl.Raised /\
  map (fun p => (Rapl.prev_energy p, Rapl.total_energy p)) run.2.1
    = [(70, 70); (100, 0)] /\
  run.2.2 = [].
Proof. vm_compute. repeat split. Qed.

Section Discovery.
Import Rapl.

(** X23.  [discover_rapl_domains] finds, in the order of the listing, the
    entries named [intel-rapl:...] whose name file exists and starts with
    [package-], and nothing else; each package starts with both
    accumulators at 0 and with the two files of its own directory. *)
Theorem discover_finds_packages listing :
  Forall (fun p =>
            prev_energy p = 0 /\ total_energy p = 0 /\
            String.prefix "package-" (name p) = true /\
            exists entry,
              In (entry, Some (name p)) listing /\
              String.prefix "intel-rapl:" entry = true /\
              energy_file p
                = path_join (path_join rapl_base entry) "energy_uj" /\
              max_energy_file p
                = path_join (path_join rapl_base entry)
                            "max_energy_range_uj")
         (discover_rapl_domains listing) /\
  (forall entry nm,
     In (entry, Some nm) listing ->
     String.prefix "intel-rapl:" entry = true ->
     String.prefix "package-" nm = true ->
     exists p,
       In p (discover_rapl_domains listing) /\ name p = nm /\
       energy_file p = path_join (path_join rapl_base entry) "energy_uj") /\
  map name (discover_rapl_domains listing)
    `sublist_of` omap snd listing.
Proof.
  unfold discover_rapl_domains. split; [|split].
  - apply List.Forall_forall. intros p Hp.
    apply in_flat_map in Hp as ([entry [nm|]] & Hin & Hp);
      destruct (String.prefix "intel-rapl:" entry) eqn:He;
      try destruct (String.prefix "package-" nm) eqn:Hn;
      try (destruct Hp; fail).
    destruct Hp as [<-|[]]. cbn. repeat split; [exact Hn|].
    exists entry. auto.
  - intros entry nm Hin He Hn.
    eexists. split.
    + apply in_flat_map. exists (entry, Some nm). split; [exact Hin|].
      rewrite He, Hn. left. reflexivity.
    + cbn. auto.
  - induction listing as [|[entry [nm|]] listing IH]; cbn [flat_map omap];
      [constructor|..].
    + destruct (String.prefix "intel-rapl:" entry);
        [destruct (String.prefix "package-" nm)|];
        cbn [app map name mbind option_bind snd];
        [apply sublist_skip|apply sublist_cons|apply sublist_cons];
        exact IH.
    + destruct (String.prefix "intel-rapl:" entry); cbn [app snd]; exact IH.
Qed.

End Discovery.
